(** * The in-memory storage layer of the club administration server

    A shallow embedding of [server/storage.ts] (class [MemStorage]): eight
    id-keyed maps with one counter each, the CRUD methods over them, the
    filtered listings, the sequential bulk student creation and the bulk
    attendance upsert.

    Records are JavaScript objects.  TypeScript types are erased when the
    server runs, and the methods build records with object spread, so an
    object is modelled as the finite map of its own properties.  The entity
    maps are [Map<number, E>] values, which iterate in insertion order: they
    are association lists.  Numbers are integers or NaN: the counters start
    at 1 and grow by one, far inside the range where JavaScript numbers are
    exact integers, NaN is what [parseInt] makes of a query value that is no
    number, and fractions are not represented.  The
    methods are [async] but never wait on anything except each other, so a
    call runs to completion and is modelled as a function on the storage. *)

From Stdlib Require Import ZArith Lia Ascii String.
From stdpp Require Import gmap strings list fin_maps sorting.

Local Open Scope Z_scope.

(** ** JavaScript values and objects *)

(** The values that properties of stored records hold.  A number is an
    integer or NaN.  A [Date] object is its time value: milliseconds since
    the epoch, or [None] for an invalid date (time value NaN).  The schedule
    array of a class, which no method of the storage layer looks into, has
    no counterpart here. *)
Inductive val : Type :=
  | VUndef
  | VNull
  | VBool (b : bool)
  | VNum (n : Z)
  | VNaN
  | VStr (s : string)
  | VDate (t : option Z).

Global Instance val_eq_dec : EqDecision val.
Proof. solve_decision. Defined.

Abbreviation obj := (gmap string val).

(** [o.k]: reading a property that the object does not have yields
    [undefined]. *)
Definition prop (o : obj) (k : string) : val := default VUndef (o !! k).

(** [a === b].  NaN is equal to nothing, not even to itself.  Two [Date]
    operands are equal only when they are one and the same object; object
    identity is not tracked here, and every comparison of the storage layer
    that involves dates goes through [toISOString]. *)
Definition strictEq (a b : val) : bool :=
  match a, b with
  | VUndef, VUndef => true
  | VNull, VNull => true
  | VBool x, VBool y => Bool.eqb x y
  | VNum x, VNum y => x =? y
  | VStr x, VStr y => String.eqb x y
  | _, _ => false
  end.

(** A number as the routes pass it for a filter: [parseInt] of a query value
    is an integer, or NaN when the value is no number. *)
Inductive num : Type :=
  | Int (n : Z)
  | NaN.

(** A numeric parameter ([x: number]) as a value. *)
Definition numVal (x : num) : val :=
  match x with Int n => VNum n | NaN => VNaN end.

(** An optional numeric parameter ([x?: number]): [None] is [undefined]. *)
Definition numArg (x : option num) : val :=
  match x with Some n => numVal n | None => VUndef end.

(** [if (x)] on an optional numeric parameter: [undefined], [0] and NaN are
    falsy. *)
Definition truthy (x : option num) : bool :=
  match x with
  | Some (Int n) => negb (n =? 0)
  | Some NaN => false
  | None => false
  end.

(** ** Exceptions *)

Inductive exn : Type := TypeError | RangeError.

(** A computation that may throw: [inl e] is the exception, [inr a] the
    completion value. *)
Global Instance throws_ret : MRet (sum exn) := λ A a, inr a.
Global Instance throws_bind : MBind (sum exn) := λ A B f c,
  match c with inl e => inl e | inr a => f a end.
Global Instance throws_fmap : FMap (sum exn) := λ A B f c,
  match c with inl e => inl e | inr a => inr (f a) end.

(** [Array.prototype.filter] with a callback that may throw: elements are
    visited in order and the first exception ends the call. *)
Fixpoint filterM {A : Type} (f : A → exn + bool) (l : list A) : exn + list A :=
  match l with
  | [] => mret []
  | x :: l' =>
      b ← f x;
      r ← filterM f l';
      mret (if b : bool then x :: r else r)
  end.

(** [Array.prototype.find] with a callback that may throw. *)
Fixpoint findM {A : Type} (f : A → exn + bool) (l : list A) : exn + option A :=
  match l with
  | [] => mret None
  | x :: l' =>
      b ← f x;
      if b : bool then mret (Some x) else findM f l'
  end.

(** ** Dates *)

Definition msPerDay : Z := 86400000.
Definition maxTime : Z := 8640000000000000.

(** TimeClip: a time value outside the representable range is NaN. *)
Definition TimeClip (t : Z) : option Z :=
  if Z.abs t <=? maxTime then Some t else None.

(** Year, month (1-12) and day of month of a day number counted from the
    epoch, in the proleptic Gregorian calendar. *)
Definition civilFromDays (days : Z) : Z * Z * Z :=
  let z := days + 719468 in
  let era := z / 146097 in
  let doe := z - era * 146097 in
  let yoe := (doe - doe / 1460 + doe / 36524 - doe / 146096) / 365 in
  let doy := doe - (365 * yoe + yoe / 4 - yoe / 100) in
  let mp := (5 * doy + 2) / 153 in
  let d := doy - (153 * mp + 2) / 5 + 1 in
  let m := if mp <? 10 then mp + 3 else mp - 9 in
  let y := yoe + era * 400 in
  (if m <=? 2 then y + 1 else y, m, d).

(** The day number of a year, month and day. *)
Definition daysFromCivil (y m d : Z) : Z :=
  let y' := if m <=? 2 then y - 1 else y in
  let era := y' / 400 in
  let yoe := y' - era * 400 in
  let doy := (153 * (if 2 <? m then m - 3 else m + 9) + 2) / 5 + d - 1 in
  let doe := yoe * 365 + yoe / 4 - yoe / 100 + doy in
  era * 146097 + doe - 719468.

(** The UTC calendar day of a time value: its year, month and day
    components. *)
Definition utcDay (t : Z) : Z * Z * Z := civilFromDays (t / msPerDay).

(** The character of the last decimal digit of [n]; the digits start at
    code 48. *)
Definition digit (n : Z) : ascii := ascii_of_nat (48 + Z.to_nat (n mod 10)).

Definition pad2 (n : Z) (rest : string) : string :=
  String (digit (n / 10)) (String (digit n) rest).

Definition pad3 (n : Z) (rest : string) : string :=
  String (digit (n / 100)) (pad2 n rest).

Definition pad4 (n : Z) (rest : string) : string :=
  String (digit (n / 1000)) (pad3 n rest).

Definition pad6 (n : Z) (rest : string) : string :=
  String (digit (n / 100000)) (String (digit (n / 10000)) (pad4 n rest)).

(** Years 0 to 9999 print with four digits, the others with a sign and six
    digits. *)
Definition isoYear (y : Z) (rest : string) : string :=
  if (0 <=? y) && (y <=? 9999) then pad4 y rest
  else String (if y <? 0 then "-"%char else "+"%char) (pad6 (Z.abs y) rest).

(** The [YYYY-MM-DD] part of the ISO rendering. *)
Definition isoDate (t : Z) : string :=
  let '(y, m, d) := utcDay t in
  isoYear y (String "-" (pad2 m (String "-" (pad2 d "")))).

(** The [HH:mm:ss.sssZ] part of the ISO rendering. *)
Definition isoTime (t : Z) : string :=
  let ms := t mod msPerDay in
  pad2 (ms / 3600000) (String ":" (pad2 (ms / 60000 mod 60)
    (String ":" (pad2 (ms / 1000 mod 60) (String "." (pad3 (ms mod 1000) "Z")))))).

(** [Date.prototype.toISOString] on a valid time value. *)
Definition isoString (t : Z) : string := isoDate t +:+ String "T" (isoTime t).

(** [d.toISOString()] on a Date object: a RangeError when the date is
    invalid. *)
Definition Date_toISOString (d : option Z) : exn + string :=
  match d ≫= TimeClip with
  | Some t => inr (isoString t)
  | None => inl RangeError
  end.

(** [v.toISOString()] on an arbitrary value: only Date objects have the
    method; on a string, a number or a boolean the property is [undefined]
    and calling it is a TypeError, as is reading it from [undefined] or
    [null]. *)
Definition toISOString (v : val) : exn + string :=
  match v with
  | VDate d => Date_toISOString d
  | _ => inl TypeError
  end.

(** [s.split('T')[0]]: the part of [s] before the first ['T']. *)
Fixpoint splitT0 (s : string) : string :=
  match s with
  | EmptyString => EmptyString
  | String c s' => if Ascii.eqb c "T" then EmptyString else String c (splitT0 s')
  end.

(** [v instanceof Date] *)
Definition instanceofDate (v : val) : bool :=
  match v with VDate _ => true | _ => false end.

(** A reference parser for the examples: the ECMAScript date-only form
    [YYYY-MM-DD], read as midnight UTC.  Every other string is taken as
    unparseable. *)
Definition digitVal (c : ascii) : option Z :=
  let code := Z.of_nat (nat_of_ascii c) in
  if (48 <=? code) && (code <=? 57) then Some (code - 48) else None.

Definition isoParse (s : string) : option Z :=
  match s with
  | String y1 (String y2 (String y3 (String y4 (String "-"
      (String m1 (String m2 (String "-" (String d1 (String d2 EmptyString))))))))) =>
      a ← digitVal y1; b ← digitVal y2; c ← digitVal y3; d ← digitVal y4;
      e ← digitVal m1; f ← digitVal m2; g ← digitVal d1; h ← digitVal d2;
      let y := 1000 * a + 100 * b + 10 * c + d in
      let m := 10 * e + f in
      let dd := 10 * g + h in
      let days := daysFromCivil y m dd in
      if decide (civilFromDays days = (y, m, dd)) then Some (days * msPerDay)
      else None
  | _ => None
  end.

(** ** [Map<number, E>] *)

Module JSMap.

(** [m.get(k)] *)
Fixpoint get (m : list (Z * obj)) (k : Z) : option obj :=
  match m with
  | [] => None
  | (k', v) :: m' => if k' =? k then Some v else get m' k
  end.

(** [m.has(k)] *)
Definition has (m : list (Z * obj)) (k : Z) : bool :=
  match get m k with Some _ => true | None => false end.

(** [m.set(k, v)]: an existing key keeps its place in the iteration order,
    a new key goes last. *)
Fixpoint set (m : list (Z * obj)) (k : Z) (v : obj) : list (Z * obj) :=
  match m with
  | [] => [(k, v)]
  | (k', v') :: m' =>
      if k' =? k then (k, v) :: m' else (k', v') :: set m' k v
  end.

(** The map after [m.delete(k)]: the entry under [k] is gone.  The call
    itself returns [has m k]. *)
Definition delete (m : list (Z * obj)) (k : Z) : list (Z * obj) :=
  List.filter (λ kv, negb (kv.1 =? k)) m.

(** [Array.from(m.values())] *)
Definition values (m : list (Z * obj)) : list obj := map snd m.

Definition keys (m : list (Z * obj)) : list Z := map fst m.

End JSMap.

(** ** The storage object *)

Inductive entity : Type :=
  | User | SchoolYear | Course | Class | Student | Enrollment | Attendance
  | Payment.

Global Instance entity_eq_dec : EqDecision entity.
Proof. solve_decision. Defined.

(** The private fields of [MemStorage], indexed by entity: [mapOf st Student]
    is [this.students], [idOf st Student] is [this.studentId], and so on.
    Two more components describe the history and are read by no method:
    [clockReads] counts the evaluations of [new Date()] so far, and [issued]
    lists, oldest first, the identifiers that the create methods have
    returned, each with its entity. *)
Record MemStorage : Type := {
  mapOf : entity → list (Z * obj);
  idOf : entity → Z;
  clockReads : nat;
  issued : list (entity * Z)
}.

Definition setAt {T : Type} (e : entity) (x : T) (f : entity → T) : entity → T :=
  λ e', if decide (e' = e) then x else f e'.

Definition withMap (e : entity) (m : list (Z * obj)) (st : MemStorage) : MemStorage :=
  {| mapOf := setAt e m (mapOf st); idOf := idOf st;
     clockReads := clockReads st; issued := issued st |}.

(** The property that holds the creation timestamp. *)
Definition stampKey (e : entity) : string :=
  match e with Enrollment => "enrolledAt" | _ => "createdAt" end.

(** The fields before the constructor body runs: empty maps, counters at 1. *)
Definition emptyStorage : MemStorage :=
  {| mapOf := λ _, []; idOf := λ _, 1; clockReads := 0%nat; issued := [] |}.

(** ** The methods

    [clock n] is the time value that the [n]-th evaluation of [new Date()]
    yields; [Date_parse] is the engine's [Date.parse], with [None] for NaN. *)

Section Methods.

Variable clock : nat → Z.
Variable Date_parse : string → option Z.

(** [new Date(v)] for a value [v]: a Date is copied, a string is parsed,
    anything else is converted to a number. *)
Definition newDate (v : val) : option Z :=
  match v with
  | VDate t => t
  | VStr s => Date_parse s ≫= TimeClip
  | VNum n => TimeClip n
  | VNaN => None
  | VBool b => Some (if b then 1 else 0)
  | VNull => Some 0
  | VUndef => None
  end.

(** *** The shape shared by the CRUD methods of every entity *)

(** [get<E>(id)]: [this.<map>.get(id)] *)
Definition getE (e : entity) (id : Z) (st : MemStorage) : option obj :=
  JSMap.get (mapOf st e) id.

(** [create<E>(input)]:
    [const id = this.<counter>++;
     const newE = { ...input, id, createdAt: new Date() };
     this.<map>.set(id, newE); return newE;] *)
Definition createE (e : entity) (input : obj) (st : MemStorage)
  : obj * MemStorage :=
  let id := idOf st e in
  let newE :=
    <[stampKey e := VDate (Some (clock (clockReads st)))]>
      (<["id" := VNum id]> input) in
  (newE,
   {| mapOf := setAt e (JSMap.set (mapOf st e) id newE) (mapOf st);
      idOf := setAt e (id + 1) (idOf st);
      clockReads := S (clockReads st);
      issued := issued st ++ [(e, id)] |}).

(** [update<E>(id, partial)]:
    [const existing = this.<map>.get(id);
     if (!existing) return undefined;
     const updated = { ...existing, ...partial };
     this.<map>.set(id, updated); return updated;] *)
Definition updateE (e : entity) (id : Z) (partial : obj) (st : MemStorage)
  : option obj * MemStorage :=
  match JSMap.get (mapOf st e) id with
  | None => (None, st)
  | Some existing =>
      let updated := partial ∪ existing in
      (Some updated, withMap e (JSMap.set (mapOf st e) id updated) st)
  end.

(** [delete<E>(id)]: [return this.<map>.delete(id);] *)
Definition deleteE (e : entity) (id : Z) (st : MemStorage)
  : bool * MemStorage :=
  (JSMap.has (mapOf st e) id, withMap e (JSMap.delete (mapOf st e) id) st).

(** [Array.from(this.<map>.values())] *)
Definition valuesE (e : entity) (st : MemStorage) : list obj :=
  JSMap.values (mapOf st e).

(** [xs.filter(x => x.key === arg)] for an optional numeric argument *)
Definition filterEq (key : string) (arg : option num) (xs : list obj) : list obj :=
  List.filter (λ x, strictEq (prop x key) (numArg arg)) xs.

(** [if (arg) { xs = xs.filter(x => x.key === arg); }] *)
Definition filterIf (key : string) (arg : option num) (xs : list obj) : list obj :=
  if truthy arg then filterEq key arg xs else xs.

(** *** User operations *)

Definition getUser := getE User.

Definition getUserByUsername (username : string) (st : MemStorage) : option obj :=
  List.find (λ user, strictEq (prop user "username") (VStr username))
    (valuesE User st).

Definition createUser := createE User.

(** *** School year operations *)

Definition getSchoolYears := valuesE SchoolYear.
Definition getSchoolYear := getE SchoolYear.
Definition createSchoolYear := createE SchoolYear.
Definition updateSchoolYear := updateE SchoolYear.
Definition deleteSchoolYear := deleteE SchoolYear.

(** *** Course operations *)

Definition getCourses (schoolYearId : option num) (st : MemStorage) : list obj :=
  let courses := valuesE Course st in
  filterIf "schoolYearId" schoolYearId courses.

Definition getCourse := getE Course.
Definition createCourse := createE Course.
Definition updateCourse := updateE Course.
Definition deleteCourse := deleteE Course.

(** *** Class operations *)

Definition getClasses (courseId : option num) (st : MemStorage) : list obj :=
  let classes := valuesE Class st in
  filterIf "courseId" courseId classes.

Definition getClass := getE Class.
Definition createClass := createE Class.
Definition updateClass := updateE Class.
Definition deleteClass := deleteE Class.

(** *** Student operations *)

Definition getStudents := valuesE Student.
Definition getStudent := getE Student.
Definition createStudent := createE Student.

(** The loop of [createManyStudents]: [createdStudents] is the array built
    so far. *)
Fixpoint createManyLoop (students createdStudents : list obj) (st : MemStorage)
  : list obj * MemStorage :=
  match students with
  | [] => (createdStudents, st)
  | student :: rest =>
      let '(newStudent, st') := createStudent student st in
      createManyLoop rest (createdStudents ++ [newStudent]) st'
  end.

Definition createManyStudents (students : list obj) (st : MemStorage)
  : list obj * MemStorage :=
  createManyLoop students [] st.

Definition updateStudent := updateE Student.
Definition deleteStudent := deleteE Student.

(** *** Enrollment operations *)

Definition getEnrollments (studentId classId : option num) (st : MemStorage)
  : list obj :=
  let enrollments := valuesE Enrollment st in
  let enrollments := filterIf "studentId" studentId enrollments in
  let enrollments := filterIf "classId" classId enrollments in
  enrollments.

Definition getEnrollment := getE Enrollment.
Definition createEnrollment := createE Enrollment.
Definition updateEnrollment := updateE Enrollment.
Definition deleteEnrollment := deleteE Enrollment.

(** *** Attendance operations *)

(** The callback of the date filter in [getAttendance]:
    [attendance.date instanceof Date
       ? attendance.date.toISOString().split('T')[0]
       : new Date(attendance.date).toISOString().split('T')[0]]
    compared with [dateString]. *)
Definition onDay (dateString : string) (attendance : obj) : exn + bool :=
  attendanceDate ←
    (if instanceofDate (prop attendance "date")
     then splitT0 <$> toISOString (prop attendance "date")
     else splitT0 <$> Date_toISOString (newDate (prop attendance "date")));
  mret (String.eqb attendanceDate dateString).

(** [getAttendance(classId, date?)]; [date] is [None] when the argument is
    [undefined] and [Some d] for a Date object with time value [d]. *)
Definition getAttendance (classId : Z) (date : option (option Z))
    (st : MemStorage) : exn + list obj :=
  let attendanceList :=
    List.filter (λ attendance, strictEq (prop attendance "classId") (VNum classId))
      (valuesE Attendance st) in
  match date with
  | Some d =>
      dateString ← splitT0 <$> Date_toISOString d;
      filterM (onDay dateString) attendanceList
  | None => mret attendanceList
  end.

Definition getStudentAttendance (studentId : num) (classId : option num)
    (st : MemStorage) : list obj :=
  let attendanceList :=
    List.filter (λ attendance, strictEq (prop attendance "studentId") (numVal studentId))
      (valuesE Attendance st) in
  filterIf "classId" classId attendanceList.

Definition createAttendance := createE Attendance.
Definition updateAttendance := updateE Attendance.

(** The callback of [find] in [bulkUpdateAttendance]:
    [a.studentId === record.studentId && a.classId === record.classId &&
     a.date.toISOString().split('T')[0] ===
       new Date(record.date).toISOString().split('T')[0]] *)
Definition sameTriple (record a : obj) : exn + bool :=
  if strictEq (prop a "studentId") (prop record "studentId") then
    if strictEq (prop a "classId") (prop record "classId") then
      stored ← splitT0 <$> toISOString (prop a "date");
      given ← splitT0 <$> Date_toISOString (newDate (prop record "date"));
      mret (String.eqb stored given)
    else mret false
  else mret false.

(** [this.updateAttendance(existingRecord.id, record)]: the map has only
    numbers as keys, so an [id] property that is not a number finds
    nothing. *)
Definition updateAttendanceAt (id : val) (record : obj) (st : MemStorage)
  : option obj * MemStorage :=
  match id with
  | VNum i => updateAttendance i record st
  | _ => (None, st)
  end.

(** One turn of the loop of [bulkUpdateAttendance] for [record]: the new
    [results] array and storage, or the exception thrown by the search,
    which leaves the storage as it is at that point. *)
Definition bulkStep (record : obj) (results : list obj) (st : MemStorage)
  : MemStorage * (exn + list obj) :=
  match findM (sameTriple record) (valuesE Attendance st) with
  | inl e => (st, inl e)
  | inr (Some existingRecord) =>
      let '(updated, st') :=
        updateAttendanceAt (prop existingRecord "id") record st in
      (st', inr (match updated with
                 | Some u => results ++ [u]
                 | None => results
                 end))
  | inr None =>
      let '(created, st') := createAttendance record st in
      (st', inr (results ++ [created]))
  end.

Fixpoint bulkLoop (records results : list obj) (st : MemStorage)
  : MemStorage * (exn + list obj) :=
  match records with
  | [] => (st, inr results)
  | record :: rest =>
      match bulkStep record results st with
      | (st', inr results') => bulkLoop rest results' st'
      | (st', inl e) => (st', inl e)
      end
  end.

(** [bulkUpdateAttendance(records)]: the storage after the call, and the
    returned array or the exception that ended the call.  Records written
    before an exception stay written. *)
Definition bulkUpdateAttendance (records : list obj) (st : MemStorage)
  : MemStorage * (exn + list obj) :=
  bulkLoop records [] st.

(** *** Payment operations *)

Definition getPayments (studentId courseId month year : option num)
    (st : MemStorage) : list obj :=
  let payments := valuesE Payment st in
  let payments := filterIf "studentId" studentId payments in
  let payments := filterIf "courseId" courseId payments in
  let payments := filterIf "month" month payments in
  let payments := filterIf "year" year payments in
  payments.

Definition getPayment := getE Payment.
Definition createPayment := createE Payment.
Definition updatePayment := updateE Payment.
Definition deletePayment := deleteE Payment.

(** *** The constructor *)

Definition adminUser : obj :=
  {[ "username" := VStr "admin"; "password" := VStr "password";
     "name" := VStr "Διαχειριστής"; "isAdmin" := VBool true ]}.

Definition sampleSchoolYear : obj :=
  {[ "name" := VStr "2023-2024";
     "startDate" := VDate (Date_parse "2023-09-01" ≫= TimeClip);
     "endDate" := VDate (Date_parse "2024-06-30" ≫= TimeClip);
     "active" := VBool true ]}.

(** [new MemStorage()]: the default admin user and the sample school year
    are created through the ordinary create methods. *)
Definition newMemStorage : MemStorage :=
  (createSchoolYear sampleSchoolYear (createUser adminUser emptyStorage).2).2.

(** *** Calendar days

    The UTC calendar day (year, month, day) that a value denotes when it is
    read as a date the way the attendance methods read it: a Date object by
    its own time value, a string through [Date.parse].  [None] when that is no
    valid date. *)
Definition calendarDay (v : val) : option (Z * Z * Z) :=
  utcDay <$> (newDate v ≫= TimeClip).

(** The key of the bulk upsert: student, class and calendar day. *)
Definition tripleOf (a : obj) : val * val * option (Z * Z * Z) :=
  (prop a "studentId", prop a "classId", calendarDay (prop a "date")).

(** The first entry of a map whose record has the given key. *)
Definition lookupTriple (tr : val * val * option (Z * Z * Z))
    (m : list (Z * obj)) : option (Z * obj) :=
  List.find (λ kv, bool_decide (tripleOf kv.2 = tr)) m.

(** The number of stored attendance records with the given key. *)
Definition countTriple (tr : val * val * option (Z * Z * Z)) (st : MemStorage)
  : nat :=
  length (List.filter (λ a, bool_decide (tripleOf a = tr)) (valuesE Attendance st)).

(** The number of stored attendance records of a class. *)
Definition classCount (classId : Z) (st : MemStorage) : nat :=
  length (List.filter (λ a, strictEq (prop a "classId") (VNum classId))
            (valuesE Attendance st)).

(** Attendance data whose student and class are numbers and whose date is a
    valid Date object. *)
Definition attendanceFields (a : obj) : Prop :=
  (∃ s, prop a "studentId" = VNum s)
  ∧ (∃ c, prop a "classId" = VNum c)
  ∧ (∃ t, prop a "date" = VDate (Some t) ∧ Z.abs t <= maxTime).

(** An input of the bulk upsert: attendance data without an [id] property,
    as the type [InsertAttendance] has it. *)
Definition attInputOk (record : obj) : Prop :=
  record !! "id" = None ∧ attendanceFields record.

(** The attendance map is well formed: its keys are distinct and below the
    counter, each record carries its key as [id] and Date-valued attendance
    data, and no two records have the same student, class and calendar day. *)
Definition AttWf (st : MemStorage) : Prop :=
  NoDup (JSMap.keys (mapOf st Attendance))
  ∧ Forall (λ kv : Z * obj,
              prop kv.2 "id" = VNum kv.1 ∧ attendanceFields kv.2
              ∧ kv.1 < idOf st Attendance)
      (mapOf st Attendance)
  ∧ NoDup (tripleOf <$> JSMap.values (mapOf st Attendance)).

(** *** Histories of calls

    The calls that change the storage, and the storage after a sequence of
    them.  An exception thrown by the bulk upsert ends that call only; what
    it had written stays. *)
Inductive call : Type :=
  | CallCreate (e : entity) (input : obj)
  | CallUpdate (e : entity) (id : Z) (partial : obj)
  | CallDelete (e : entity) (id : Z)
  | CallCreateMany (students : list obj)
  | CallBulkAttendance (records : list obj).

Definition step (st : MemStorage) (c : call) : MemStorage :=
  match c with
  | CallCreate e input => (createE e input st).2
  | CallUpdate e id partial => (updateE e id partial st).2
  | CallDelete e id => (deleteE e id st).2
  | CallCreateMany students => (createManyStudents students st).2
  | CallBulkAttendance records => (bulkUpdateAttendance records st).1
  end.

Definition run (calls : list call) (st : MemStorage) : MemStorage :=
  fold_left step calls st.

(** The identifiers issued so far for one entity, oldest first. *)
Definition issuedFor (e : entity) (st : MemStorage) : list Z :=
  omap (λ x : entity * Z, if decide (x.1 = e) then Some x.2 else None)
    (issued st).

(** Every key of a map was issued by a create of that entity. *)
Definition keysIssued (st : MemStorage) : Prop :=
  ∀ e k, k ∈ JSMap.keys (mapOf st e) → (e, k) ∈ issued st.

(** The identifiers issued for an entity increase strictly and lie below
    its counter. *)
Definition issuedBelow (st : MemStorage) : Prop :=
  ∀ e, StronglySorted Z.lt (issuedFor e st)
       ∧ Forall (λ j, j < idOf st e) (issuedFor e st).

(** A sequence of creates and deletes on one entity, and the [id]s of the
    records that its creates return, in order. *)
Inductive crud : Type :=
  | Create (input : obj)
  | Delete (id : Z).

Fixpoint returnedIds (e : entity) (ops : list crud) (st : MemStorage) : list val :=
  match ops with
  | [] => []
  | Create input :: rest =>
      prop (createE e input st).1 "id" :: returnedIds e rest (createE e input st).2
  | Delete id :: rest => returnedIds e rest (deleteE e id st).2
  end.

End Methods.

(** ** What the listings are checked against *)

(** The constraint that an optional numeric filter argument puts on a record:
    none when the argument is [undefined], [0] or NaN, equality with the
    property otherwise. *)
Definition holds (key : string) (arg : option num) (r : obj) : bool :=
  match arg with
  | Some (Int n) => (n =? 0) || strictEq (prop r key) (VNum n)
  | Some NaN => true
  | None => true
  end.

(** ** Sample data *)

Definition sampleClock (n : nat) : Z := 1709500000000 + Z.of_nat n.

Definition sampleStorage : MemStorage := newMemStorage sampleClock isoParse.

Definition sampleCourse : obj :=
  {[ "name" := VStr "Pentozali"; "type" := VStr "dance";
     "schoolYearId" := VNum 1; "monthlyFee" := VNum 30;
     "active" := VBool true ]}.

Definition sampleStudent (firstName : string) : obj :=
  {[ "firstName" := VStr firstName; "lastName" := VStr "Doe";
     "phone" := VStr "6900000000" ]}.

(** The sample storage with one course, of school year 1. *)
Definition storageWithCourse : MemStorage :=
  (createCourse sampleClock sampleCourse sampleStorage).2.

(** An update payload that carries an [id] and a [createdAt] property. *)
Definition overwritingPayload : obj :=
  {[ "id" := VNum 99; "createdAt" := VDate (Some 0) ]}.

(** The sample school year as the constructor stores it. *)
Definition storedSampleYear : obj :=
  <["createdAt" := VDate (Some (sampleClock 1))]>
    (<["id" := VNum 1]> (sampleSchoolYear isoParse)).

(** Attendance inputs as the request layer passes them on: the date is the
    string of the JSON body. *)
Definition attendanceInput (studentId classId : Z) (date : string) (present : bool)
  : obj :=
  {[ "studentId" := VNum studentId; "classId" := VNum classId;
     "date" := VStr date; "present" := VBool present ]}.

(** The sample storage after [createAttendance] of student 1 in class 2 on
    4 March 2024, absent. *)
Definition storageWithAttendance : MemStorage :=
  (createAttendance sampleClock (attendanceInput 1 2 "2024-03-04" false)
     sampleStorage).2.

(** The attendance record that it holds. *)
Definition storedAttendance : obj :=
  <["createdAt" := VDate (Some (sampleClock 2))]>
    (<["id" := VNum 1]> (attendanceInput 1 2 "2024-03-04" false)).

(** The same with a date string that denotes no date. *)
Definition storageWithBadDate : MemStorage :=
  (createAttendance sampleClock (attendanceInput 1 2 "n/a" false)
     sampleStorage).2.

(** Attendance data with a Date object as date. *)
Definition datedAttendance (studentId classId t : Z) (present : bool) : obj :=
  {[ "studentId" := VNum studentId; "classId" := VNum classId;
     "date" := VDate (Some t); "present" := VBool present ]}.

(** The sample storage with one attendance record: student 1, class 2,
    4 March 2024 at midnight UTC, absent. *)
Definition storageWithDatedAttendance : MemStorage :=
  (createAttendance sampleClock (datedAttendance 1 2 1709510400000 false)
     sampleStorage).2.

(** Two inputs dated 4 March 2024 at noon UTC: student 1 again, and
    student 3. *)
Definition upsertInputs : list obj :=
  [datedAttendance 1 2 1709553600000 true; datedAttendance 3 2 1709553600000 true].

(** The same storage after a second [createAttendance] for student 1,
    class 2 and that day. *)
Definition storageWithDuplicate : MemStorage :=
  (createAttendance sampleClock (datedAttendance 1 2 1709510400000 false)
     storageWithDatedAttendance).2.

(** The storage with the records of student 1 in class 2 on 4 and on 5 March
    2024, after an update of the first with a payload that carries the [id]
    of the second: the record under key 1 now has 2 as [id]. *)
Definition storageWithForeignId : MemStorage :=
  (updateAttendance 1 {[ "id" := VNum 2 ]}
     (createAttendance sampleClock (datedAttendance 1 2 1709596800000 false)
        storageWithDatedAttendance).2).2.

(** ** Well-formed maps *)

(** The keys of every map are distinct and below the counter of the entity,
    as in every storage reached from a fresh one. *)
Definition keysBelow (st : MemStorage) : Prop :=
  ∀ e, NoDup (JSMap.keys (mapOf st e))
       ∧ Forall (λ k, k < idOf st e) (JSMap.keys (mapOf st e)).

(** ** The request layer ([server/routes.ts])

    A handler is modelled by the reply it sends and by what it leaves behind:
    the storage and, for the login, the session.  [req.body] is the parsed
    JSON body, [None] when there is none. *)

(** [if (v)] on a value. *)
Definition truthyVal (v : val) : bool :=
  match v with
  | VUndef | VNull => false
  | VBool b => b
  | VNum n => negb (n =? 0)
  | VNaN => false
  | VStr s => negb (String.eqb s "")
  | VDate _ => true
  end.

(** [a || b] *)
Definition orElse (a b : val) : val := if truthyVal a then a else b.

(** [req.session]: both properties are [undefined] until a login sets them. *)
Record session : Type := { userId : val; isAdmin : val }.

Definition noSession : session := {| userId := VUndef; isAdmin := VUndef |}.

(** The middleware [authenticate]: [false] when it answers 401 instead of
    calling the handler. *)
Definition authenticate (sess : session) : bool := truthyVal (userId sess).

(** [storage.getUserByUsername(username)] for an argument that is any value
    of the body. *)
Definition userNamed (username : val) (st : MemStorage) : option obj :=
  List.find (λ user, strictEq (prop user "username") username) (valuesE User st).

(** [storage.getUser(id)] for an argument that is any value: the keys of the
    map are numbers. *)
Definition userWithId (id : val) (st : MemStorage) : option obj :=
  match id with VNum i => getUser i st | _ => None end.

Inductive userReply : Type :=
  | UserMessage (status : Z) (message : string)
  | UserInfo (status : Z) (userInfo : obj).

(** [POST /api/auth/login] *)
Definition login (body : option obj) (st : MemStorage) (sess : session)
  : userReply * session :=
  match body with
  | None => (UserMessage 500 "Server error", sess)
  | Some body =>
      let username := prop body "username" in
      let password := prop body "password" in
      if negb (truthyVal username) || negb (truthyVal password) then
        (UserMessage 400 "Username and password are required", sess)
      else
        match userNamed username st with
        | None => (UserMessage 401 "Invalid credentials", sess)
        | Some user =>
            if negb (strictEq (prop user "password") password) then
              (UserMessage 401 "Invalid credentials", sess)
            else
              (UserInfo 200 (delete "password" user),
               {| userId := prop user "id"; isAdmin := prop user "isAdmin" |})
        end
  end.

(** [GET /api/auth/me] *)
Definition me (st : MemStorage) (sess : session) : userReply :=
  if negb (truthyVal (userId sess)) then UserMessage 401 "Not authenticated"
  else
    match userWithId (userId sess) st with
    | None => UserMessage 404 "User not found"
    | Some user => UserInfo 200 (delete "password" user)
    end.

Section RequestLayer.

Variable clock : nat → Z.
Variable Date_parse : string → option Z.

(** The elements of the [records] array of a body, and
    [insertAttendanceSchema.parse] on one of them: [None] when it throws a
    ZodError. *)
Variable json : Type.
Variable parseAttendance : json → option obj.

(** [insertStudentSchema.parse] on the data built from a CSV row. *)
Variable parseStudent : obj → option obj.

Inductive bulkReply : Type :=
  | BulkMessage (status : Z) (message : string)
  | BulkInvalid (status : Z) (record : json)
  | BulkUpdated (status : Z) (count : nat) (records : list obj).

Definition bulkStatus (r : bulkReply) : Z :=
  match r with
  | BulkMessage status _ | BulkInvalid status _ | BulkUpdated status _ _ => status
  end.

(** The validation loop of [POST /api/attendance/bulk]: the validated
    records, or the first record that the schema rejects. *)
Fixpoint validateRecords (records : list json) (validatedRecords : list obj)
  : json + list obj :=
  match records with
  | [] => inr validatedRecords
  | record :: rest =>
      match parseAttendance record with
      | Some validRecord => validateRecords rest (validatedRecords ++ [validRecord])
      | None => inl record
      end
  end.

(** [POST /api/attendance/bulk]; [body] is [None] when [req.body] is
    [undefined], so that reading [records] from it throws inside the [try],
    [Some None] when [req.body.records] is not an array and
    [Some (Some records)] when it is the array [records]. *)
Definition bulkAttendanceRoute (sess : session) (body : option (option (list json)))
    (st : MemStorage) : bulkReply * MemStorage :=
  if negb (authenticate sess) then
    (BulkMessage 401 "Unauthorized - Please log in", st)
  else
    match body with
    | None => (BulkMessage 500 "Failed to update attendance records", st)
    | Some None | Some (Some []) => (BulkMessage 400 "Records array is required", st)
    | Some (Some records) =>
        match validateRecords records [] with
        | inl record => (BulkInvalid 400 record, st)
        | inr validatedRecords =>
            match bulkUpdateAttendance clock Date_parse validatedRecords st with
            | (st', inr results) => (BulkUpdated 201 (length results) results, st')
            | (st', inl _) =>
                (BulkMessage 500 "Failed to update attendance records", st')
            end
        end
    end.

(** The data that [POST /api/students/import] builds from a CSV row: each
    property is taken from the first header variant whose cell is not
    empty. *)
Definition studentData (record : obj) : obj :=
  {[ "firstName" :=
       orElse (orElse (prop record "firstName") (prop record "First Name"))
         (prop record "Όνομα");
     "lastName" :=
       orElse (orElse (prop record "lastName") (prop record "Last Name"))
         (prop record "Επώνυμο");
     "phone" :=
       orElse (orElse (prop record "phone") (prop record "Phone"))
         (prop record "Τηλέφωνο");
     "email" :=
       orElse (orElse (prop record "email") (prop record "Email"))
         (prop record "Email");
     "guardianName" :=
       orElse (orElse (orElse (prop record "guardianName")
                         (prop record "Guardian Name"))
                 (prop record "Κηδεμόνας"))
         VUndef ]}.

(** The [forEach] of the import: the validated students and the numbers of
    the rows that failed, counted from 1; [index] is the index of the first
    of [records]. *)
Fixpoint importRows (records : list obj) (index : nat)
    (students : list obj) (errors : list nat) : list obj * list nat :=
  match records with
  | [] => (students, errors)
  | record :: rest =>
      match parseStudent (studentData record) with
      | Some validatedStudent =>
          importRows rest (S index) (students ++ [validatedStudent]) errors
      | None => importRows rest (S index) students (errors ++ [S index])
      end
  end.

(** The numbers, counted from 1, of the rows that the schema rejects;
    [index] is the index of the first of [records]. *)
Fixpoint failingRows (records : list obj) (index : nat) : list nat :=
  match records with
  | [] => []
  | record :: rest =>
      match parseStudent (studentData record) with
      | Some _ => failingRows rest (S index)
      | None => S index :: failingRows rest (S index)
      end
  end.

Inductive importReply : Type :=
  | ImportMessage (status : Z) (message : string)
  | ImportInvalid (status : Z) (errors : list nat) (totalErrors totalRecords : nat)
  | ImportDone (status : Z) (count : nat) (students : list obj).

Definition importStatus (r : importReply) : Z :=
  match r with
  | ImportMessage status _ | ImportInvalid status _ _ _ | ImportDone status _ _ =>
      status
  end.

(** [POST /api/students/import]; [file] is [None] when no file was uploaded,
    [Some None] when [parseCsv] throws on it and [Some (Some records)]
    otherwise. *)
Definition importStudentsRoute (sess : session) (file : option (option (list obj)))
    (st : MemStorage) : importReply * MemStorage :=
  if negb (authenticate sess) then
    (ImportMessage 401 "Unauthorized - Please log in", st)
  else
    match file with
    | None => (ImportMessage 400 "No file uploaded", st)
    | Some None => (ImportMessage 500 "Failed to import students", st)
    | Some (Some records) =>
        let '(students, errors) := importRows records 0 [] [] in
        if (0 <? length errors)%nat then
          (ImportInvalid 400 errors (length errors) (length records), st)
        else
          let '(createdStudents, st') := createManyStudents clock students st in
          (ImportDone 201 (length createdStudents) createdStudents, st')
    end.

End RequestLayer.

(** ** The attendance page and table ([pages/attendance/index.tsx],
    [components/attendance/attendance-table.tsx]) *)

(** [Array.prototype.some] with a callback that may throw. *)
Fixpoint someM {A : Type} (f : A → exn + bool) (l : list A) : exn + bool :=
  match l with
  | [] => mret false
  | x :: l' =>
      b ← f x;
      if b : bool then mret true else someM f l'
  end.

(** [xs.findIndex(f)]: [None] stands for -1. *)
Fixpoint findIndex {A : Type} (f : A → bool) (l : list A) : option nat :=
  match l with
  | [] => None
  | x :: l' => if f x then Some 0%nat else S <$> findIndex f l'
  end.

(** [handleAttendanceChange(studentId, date, present)]: the next value of the
    state [attendanceData]; [selectedClass] is [parseInt(selectedClass)] and
    [date] the time value of the Date of the column. *)
Definition handleAttendanceChange (attendanceData : list obj) (selectedClass : val)
    (studentId : Z) (date : option Z) (present : bool) : exn + list obj :=
  dateStr ← splitT0 <$> Date_toISOString date;
  let existingRecordIndex :=
    findIndex (λ record, strictEq (prop record "studentId") (VNum studentId)
                         && strictEq (prop record "date") (VStr dateStr))
      attendanceData in
  match existingRecordIndex with
  | Some i =>
      mret (alter (λ record : obj, <["present" := VBool present]> record) i attendanceData)
  | None =>
      mret (attendanceData
            ++ [ {[ "studentId" := VNum studentId; "classId" := selectedClass;
                    "date" := VStr dateStr; "present" := VBool present ]} ])
  end.

(** What [handleAttendanceChange] compares of a pending record: the student
    and the day string. *)
Definition changeKey (r : obj) : val * val := (prop r "studentId", prop r "date").

Section AttendanceTable.

Variable Date_parse : string → option Z.

(** [hasAttendance(studentId, date)] over the records fetched for the
    class. *)
Definition hasAttendance (attendanceRecords : list obj) (studentId : Z)
    (date : option Z) : exn + bool :=
  dateStr ← splitT0 <$> Date_toISOString date;
  someM (λ record,
           if strictEq (prop record "studentId") (VNum studentId) then
             day ← splitT0 <$> Date_toISOString (newDate Date_parse (prop record "date"));
             mret (String.eqb day dateStr && truthyVal (prop record "present"))
           else mret false)
    attendanceRecords.

End AttendanceTable.

(** ** Sample data of the request layer and the pages *)

(** The administrator as the constructor stores it. *)
Definition storedAdmin : obj :=
  <["createdAt" := VDate (Some (sampleClock 0))]> (<["id" := VNum 1]> adminUser).

(** The session of the administrator after a login. *)
Definition adminSession : session := {| userId := VNum 1; isAdmin := VBool true |}.

(** The body of a login of the administrator. *)
Definition adminLogin : obj :=
  {[ "username" := VStr "admin"; "password" := VStr "password" ]}.

(** A second user with the name of the administrator, and the body of its
    login. *)
Definition secondAdmin : obj :=
  {[ "username" := VStr "admin"; "password" := VStr "secret";
     "name" := VStr "Second"; "isAdmin" := VBool false ]}.

Definition secondAdminLogin : obj :=
  {[ "username" := VStr "admin"; "password" := VStr "secret" ]}.

(** A schema for attendance bodies that asks for a number as student and as
    class and for a string as date. *)
Definition sampleParseAttendance (record : obj) : option obj :=
  match prop record "studentId", prop record "classId", prop record "date" with
  | VNum _, VNum _, VStr _ => Some record
  | _, _, _ => None
  end.

(** A schema for students after the columns of the [students] table: first
    name, last name and phone are strings, email and guardian name are
    strings when they are given. *)
Definition optionalString (v : val) : bool :=
  match v with VStr _ | VNull | VUndef => true | _ => false end.

Definition sampleParseStudent (data : obj) : option obj :=
  match prop data "firstName", prop data "lastName", prop data "phone" with
  | VStr _, VStr _, VStr _ =>
      if optionalString (prop data "email")
         && optionalString (prop data "guardianName")
      then Some data else None
  | _, _, _ => None
  end.

(** A CSV file of three rows under English headers; the second row has an
    empty last name and the third an empty phone. *)
Definition sampleCsv : list obj :=
  [ {[ "First Name" := VStr "Ann"; "Last Name" := VStr "Doe";
       "Phone" := VStr "6900000001" ]};
    {[ "First Name" := VStr "Bob"; "Last Name" := VStr "";
       "Phone" := VStr "6900000002" ]};
    {[ "First Name" := VStr "Eve"; "Last Name" := VStr "Roe";
       "Phone" := VStr "" ]} ].

(** 4 March 2024 at noon UTC. *)
Definition sampleNoon : Z := 1709553600000.

(** * Properties *)

(** ** The map primitives *)

Module JSMapFacts.
Import JSMap.

Lemma get_set_eq m k v : get (set m k v) k = Some v.
Proof.
  induction m as [|[k' v'] m IH]; simpl.
  - by rewrite Z.eqb_refl.
  - destruct (k' =? k) eqn:E; simpl; [by rewrite Z.eqb_refl | by rewrite E].
Qed.

Lemma get_set_ne m k k' v : k ≠ k' → get (set m k v) k' = get m k'.
Proof.
  intros Hne. induction m as [|[k0 v0] m IH]; simpl.
  - destruct (k =? k') eqn:E; [apply Z.eqb_eq in E; done | done].
  - destruct (k0 =? k) eqn:E; simpl.
    + apply Z.eqb_eq in E as ->.
      destruct (k =? k') eqn:E'; [apply Z.eqb_eq in E'; done | done].
    + by rewrite IH.
Qed.

Lemma get_delete_eq m k : get (delete m k) k = None.
Proof.
  unfold delete. induction m as [|[k' v'] m IH]; simpl; [done|].
  destruct (k' =? k) eqn:E; simpl; [done | by rewrite E].
Qed.

Lemma get_delete_ne m k k' : k ≠ k' → get (delete m k) k' = get m k'.
Proof.
  intros Hne. unfold delete. induction m as [|[k0 v0] m IH]; simpl; [done|].
  destruct (k0 =? k) eqn:E; simpl.
  - apply Z.eqb_eq in E as ->.
    destruct (k =? k') eqn:E'; [apply Z.eqb_eq in E'; done | done].
  - by rewrite IH.
Qed.

Lemma delete_absent m k : get m k = None → delete m k = m.
Proof.
  unfold delete. induction m as [|[k' v'] m IH]; simpl; [done|].
  destruct (k' =? k) eqn:E; simpl; [done|]. intros H. by rewrite IH.
Qed.

Lemma get_Some_key m k v : get m k = Some v → k ∈ keys m.
Proof.
  unfold keys. induction m as [|[k' v'] m IH]; simpl; [done|].
  destruct (k' =? k) eqn:E.
  - apply Z.eqb_eq in E as ->. intros _. apply list_elem_of_here.
  - intros H. apply list_elem_of_further. auto.
Qed.

Lemma get_None_key m k : get m k = None ↔ k ∉ keys m.
Proof.
  unfold keys. induction m as [|[k' v'] m IH]; simpl.
  - split; [intros _ H; inversion H | done].
  - destruct (k' =? k) eqn:E.
    + apply Z.eqb_eq in E as ->. split; [done|]. intros []. apply list_elem_of_here.
    + apply Z.eqb_neq in E. rewrite IH, not_elem_of_cons.
      split; [intros H; split; [congruence | done] | by intros [_ H]].
Qed.

Lemma keys_set_present m k v :
  k ∈ keys m → keys (set m k v) = keys m.
Proof.
  unfold keys. induction m as [|[k' v'] m IH]; simpl.
  - intros H; inversion H.
  - destruct (k' =? k) eqn:E; simpl.
    + apply Z.eqb_eq in E as ->. done.
    + apply Z.eqb_neq in E. intros [?|H]%elem_of_cons; [congruence|].
      by rewrite IH.
Qed.

Lemma set_absent m k v : k ∉ keys m → set m k v = m ++ [(k, v)].
Proof.
  unfold keys. induction m as [|[k' v'] m IH]; simpl; [done|].
  rewrite not_elem_of_cons. intros [Hne Hnin].
  destruct (k' =? k) eqn:E; [apply Z.eqb_eq in E; congruence|].
  by rewrite IH.
Qed.

Lemma keys_delete_subseteq m k : keys (delete m k) ⊆ keys m.
Proof.
  unfold keys, delete. intros x [[k' v'] [-> Hin]]%list_elem_of_fmap.
  apply list_elem_of_In, filter_In in Hin as [Hin _].
  apply list_elem_of_fmap. exists (k', v'). split; [done|].
  by apply list_elem_of_In.
Qed.

End JSMapFacts.

(** ** Reading and writing the fields of the storage object *)

Lemma setAt_eq {T : Type} (e : entity) (x : T) f : setAt e x f e = x.
Proof. unfold setAt. by rewrite decide_True. Qed.

Lemma setAt_ne {T : Type} (e e' : entity) (x : T) f :
  e' ≠ e → setAt e x f e' = f e'.
Proof. intros. unfold setAt. by rewrite decide_False. Qed.

Lemma setAt_id {T : Type} (e e' : entity) (f : entity → T) :
  setAt e (f e) f e' = f e'.
Proof. unfold setAt. case_decide; congruence. Qed.

(** ** Invariants of every history *)

Section Histories.

Variable clock : nat → Z.
Variable Date_parse : string → option Z.

Local Abbreviation createE := (createE clock).
Local Abbreviation step := (step clock Date_parse).
Local Abbreviation run := (run clock Date_parse).

(** A property kept by the three single-record writers is kept by every
    call, bulk calls included. *)
Section Preservation.

Variable P : MemStorage → Prop.
Hypothesis P_create : ∀ e input st, P st → P (createE e input st).2.
Hypothesis P_update : ∀ e id partial st, P st → P (updateE e id partial st).2.
Hypothesis P_delete : ∀ e id st, P st → P (deleteE e id st).2.

Lemma createManyLoop_preserves students acc st :
  P st → P (createManyLoop clock students acc st).2.
Proof.
  revert acc st. induction students as [|s rest IH]; intros acc st H; simpl.
  - done.
  - apply IH. by apply P_create.
Qed.

Lemma bulkStep_preserves record results st :
  P st → P (bulkStep clock Date_parse record results st).1.
Proof.
  intros H. unfold bulkStep.
  destruct (findM _ _) as [err|[existing|]]; simpl.
  - done.
  - unfold updateAttendanceAt.
    destruct (prop existing "id") as [| | | i | | |]; simpl; try done.
    pose proof (P_update Attendance i record st H) as H'.
    unfold updateAttendance. by destruct (updateE Attendance i record st).
  - by apply P_create.
Qed.

Lemma bulkLoop_preserves records results st :
  P st → P (bulkLoop clock Date_parse records results st).1.
Proof.
  revert results st. induction records as [|r rest IH]; intros results st H; simpl.
  - done.
  - pose proof (bulkStep_preserves r results st H) as H'.
    destruct (bulkStep clock Date_parse r results st) as [st' [err|res]]; simpl in *.
    + done.
    + by apply IH.
Qed.

Lemma step_preserves st c : P st → P (step st c).
Proof.
  intros H. destruct c; simpl.
  - by apply P_create.
  - by apply P_update.
  - by apply P_delete.
  - by apply createManyLoop_preserves.
  - by apply bulkLoop_preserves.
Qed.

Lemma run_preserves calls st : P st → P (run calls st).
Proof.
  revert st. induction calls as [|c calls IH]; intros st H; simpl; [done|].
  apply IH. by apply step_preserves.
Qed.

End Preservation.

Lemma keys_set_elem m k v x :
  x ∈ JSMap.keys (JSMap.set m k v) → x = k ∨ x ∈ JSMap.keys m.
Proof.
  unfold JSMap.keys. induction m as [|[k' v'] m IH]; simpl.
  - intros ?%list_elem_of_singleton. by left.
  - destruct (k' =? k) eqn:E; simpl.
    + intros [->|?]%elem_of_cons; [by left | right; by apply list_elem_of_further].
    + intros [->|?]%elem_of_cons; [right; apply list_elem_of_here|].
      destruct IH as [->|?]; [done | by left | right; by apply list_elem_of_further].
Qed.

Lemma keysIssued_create e input st :
  keysIssued st → keysIssued (createE e input st).2.
Proof.
  intros H e' k. simpl. unfold setAt. case_decide as He.
  - subst e'. intros [->|Hk]%keys_set_elem.
    + apply elem_of_app. right. apply list_elem_of_here.
    + apply elem_of_app. left. by apply H.
  - intros Hk. apply elem_of_app. left. by apply H.
Qed.

Lemma keysIssued_update e id partial st :
  keysIssued st → keysIssued (updateE e id partial st).2.
Proof.
  intros H e' k. unfold updateE.
  destruct (JSMap.get (mapOf st e) id) as [existing|] eqn:Hget; simpl; [|by apply H].
  unfold setAt. case_decide as He; [|by apply H].
  subst e'. intros [->|Hk]%keys_set_elem; apply H; [|done].
  by eapply JSMapFacts.get_Some_key.
Qed.

Lemma keysIssued_delete e id st :
  keysIssued st → keysIssued (deleteE e id st).2.
Proof.
  intros H e' k. simpl. unfold setAt. case_decide as He; [|by apply H].
  subst e'. intros Hk. apply H. by eapply JSMapFacts.keys_delete_subseteq.
Qed.

Lemma keysIssued_run calls : keysIssued (run calls (newMemStorage clock Date_parse)).
Proof.
  apply run_preserves.
  - intros. by apply keysIssued_create.
  - intros. by apply keysIssued_update.
  - intros. by apply keysIssued_delete.
  - unfold newMemStorage, createSchoolYear, createUser.
    do 2 apply keysIssued_create. intros e k Hk. inversion Hk.
Qed.

Lemma issuedFor_create e e' input st :
  issuedFor e' (createE e input st).2
  = issuedFor e' st ++ (if decide (e = e') then [idOf st e] else []).
Proof.
  unfold issuedFor. simpl. rewrite omap_app. simpl. by case_decide.
Qed.

Lemma issuedBelow_create e input st :
  issuedBelow st → issuedBelow (createE e input st).2.
Proof.
  intros H e'. destruct (H e') as [Hs Hb]. rewrite issuedFor_create. simpl.
  unfold setAt. destruct (decide (e = e')) as [->|Hne].
  - rewrite decide_True by done. split.
    + apply StronglySorted_app. split_and!; [|done|repeat constructor].
      intros x1 x2 Hx1 ->%list_elem_of_singleton.
      by apply (proj1 (Forall_forall _ _) Hb).
    + apply Forall_app. split; [|repeat constructor; lia].
      eapply Forall_impl; [exact Hb|]. simpl. intros; lia.
  - rewrite decide_False by congruence. by rewrite app_nil_r.
Qed.

Lemma issuedBelow_run calls : issuedBelow (run calls (newMemStorage clock Date_parse)).
Proof.
  apply run_preserves.
  - intros. by apply issuedBelow_create.
  - intros e id partial st H. unfold updateE.
    by destruct (JSMap.get (mapOf st e) id).
  - intros e id st H. done.
  - unfold newMemStorage, createSchoolYear, createUser.
    do 2 apply issuedBelow_create.
    intros e. unfold issuedFor. simpl. split; constructor.
Qed.

End Histories.

(** ** Identifiers *)

Section Identifiers.

Variable clock : nat → Z.
Variable Date_parse : string → option Z.

Lemma created_id e input st :
  (createE clock e input st).1 !! "id" = Some (VNum (idOf st e)).
Proof. simpl. destruct e; simpl; by simplify_map_eq. Qed.

Lemma returnedIds_sorted e ops st :
  ∃ ids, returnedIds clock e ops st = VNum <$> ids
         ∧ StronglySorted Z.lt ids
         ∧ Forall (λ i, idOf st e <= i) ids.
Proof.
  revert st. induction ops as [|[input|id] ops IH]; intros st.
  - exists []. split_and!; constructor.
  - destruct (IH (createE clock e input st).2) as (ids & Hids & Hs & Hb).
    simpl in Hb. rewrite setAt_eq in Hb.
    exists (idOf st e :: ids). split_and!.
    + cbn [returnedIds]. rewrite Hids. unfold prop. by rewrite created_id.
    + constructor; [done|]. eapply Forall_impl; [exact Hb|]. simpl. intros; lia.
    + constructor; [lia|]. eapply Forall_impl; [exact Hb|]. simpl. intros; lia.
  - destruct (IH (deleteE e id st).2) as (ids & Hids & Hs & Hb).
    exists ids. by split_and!.
Qed.

(** C5.  After any sequence of calls on a fresh storage object, the
    identifiers that the creates of an entity have returned are strictly
    increasing, deletions included in the sequence; a further create returns
    the counter of the entity, which is above every identifier issued for it
    before, and appends it to the identifiers issued.  From there on, the
    records returned by the creates of any sequence of creates and deletes
    carry strictly increasing identifiers, none below the counter. *)
Theorem create_ids_strictly_increasing (calls : list call) (e : entity) (input : obj) :
  let st := run clock Date_parse calls (newMemStorage clock Date_parse) in
  StronglySorted Z.lt (issuedFor e st)
  ∧ (createE clock e input st).1 !! "id" = Some (VNum (idOf st e))
  ∧ issuedFor e (createE clock e input st).2 = issuedFor e st ++ [idOf st e]
  ∧ Forall (λ j, j < idOf st e) (issuedFor e st)
  ∧ ∀ ops, ∃ ids, returnedIds clock e ops st = VNum <$> ids
                  ∧ StronglySorted Z.lt ids
                  ∧ Forall (λ i, idOf st e <= i) ids.
Proof.
  intros st. destruct (issuedBelow_run clock Date_parse calls e) as [Hs Hb].
  split_and!; [done| | |done|].
  - apply created_id.
  - rewrite issuedFor_create. by rewrite decide_True.
  - intros ops. apply returnedIds_sorted.
Qed.

(** C6.  An identifier that no create of the entity has returned is not
    found: [get] and [update] yield [undefined] (and [update] writes
    nothing), [delete] yields [false] and removes nothing.  The three are
    total functions: nothing is thrown. *)
Theorem never_issued_not_found (calls : list call) (e : entity) (id : Z) :
  let st := run clock Date_parse calls (newMemStorage clock Date_parse) in
  (e, id) ∉ issued st →
  getE e id st = None
  ∧ (∀ partial, updateE e id partial st = (None, st))
  ∧ (deleteE e id st).1 = false
  ∧ (∀ e', mapOf (deleteE e id st).2 e' = mapOf st e').
Proof.
  intros st Hid.
  assert (Hget : JSMap.get (mapOf st e) id = None).
  { apply JSMapFacts.get_None_key. intros Hk. apply Hid.
    by apply (keysIssued_run clock Date_parse calls). }
  split_and!.
  - done.
  - intros partial. unfold updateE. by rewrite Hget.
  - simpl. unfold JSMap.has. by rewrite Hget.
  - intros e'. simpl. rewrite JSMapFacts.delete_absent by done.
    apply setAt_id.
Qed.

End Identifiers.

(** C6 on the sample storage after a student was created and deleted:
    identifier 7 was never issued for students. *)
Lemma never_issued_not_found_witness :
  let st := run sampleClock isoParse
              [CallCreate Student (sampleStudent "Ann"); CallDelete Student 1]
              sampleStorage in
  ((Student, 7) ∉ issued st)
  ∧ getE Student 7 st = None
  ∧ (deleteE Student 7 st).1 = false.
Proof.
  assert (H : (Student, 7) ∉ issued
            (run sampleClock isoParse
               [CallCreate Student (sampleStudent "Ann"); CallDelete Student 1]
               sampleStorage)).
  { apply (bool_decide_unpack _). vm_compute. exact I. }
  split; [exact H|].
  destruct (never_issued_not_found sampleClock isoParse
              [CallCreate Student (sampleStudent "Ann"); CallDelete Student 1]
              Student 7 H) as (Hg & _ & Hd & _).
  split; [exact Hg | exact Hd].
Defined.

(** ** Deletion *)

(** C7.  Deleting a present identifier twice in a row returns [true] and
    then [false]; after the first call the record can no longer be read, and
    the other records of the entity are as before. *)
Theorem delete_twice (e : entity) (id : Z) (st : MemStorage) :
  is_Some (getE e id st) →
  let first := deleteE e id st in
  let second := deleteE e id first.2 in
  first.1 = true ∧ second.1 = false ∧ getE e id first.2 = None
  ∧ (∀ id', id' ≠ id → getE e id' first.2 = getE e id' st).
Proof.
  intros [r Hr] first second. unfold getE in *.
  subst first second. simpl. rewrite !setAt_eq.
  unfold JSMap.has. rewrite Hr, JSMapFacts.get_delete_eq.
  split_and!; try done.
  intros id' Hne. by apply JSMapFacts.get_delete_ne.
Qed.

(** C7 on the sample school year. *)
Lemma delete_twice_witness :
  is_Some (getE SchoolYear 1 sampleStorage)
  ∧ (deleteSchoolYear 1 sampleStorage).1 = true
  ∧ (deleteSchoolYear 1 (deleteSchoolYear 1 sampleStorage).2).1 = false
  ∧ getSchoolYear 1 (deleteSchoolYear 1 sampleStorage).2 = None.
Proof.
  assert (H : is_Some (getE SchoolYear 1 sampleStorage)).
  { apply (bool_decide_unpack _). vm_compute. exact I. }
  split; [exact H|].
  destruct (delete_twice SchoolYear 1 sampleStorage H) as (H1 & H2 & H3 & _).
  split; [exact H1|]. split; [exact H2 | exact H3].
Defined.

(** ** Bulk student creation *)

Section BulkStudents.

Variable clock : nat → Z.

Lemma createManyLoop_acc students acc st :
  createManyLoop clock students acc st
  = (acc ++ (createManyLoop clock students [] st).1,
     (createManyLoop clock students [] st).2).
Proof.
  revert acc st. induction students as [|s rest IH]; intros acc st; simpl.
  - by rewrite app_nil_r.
  - rewrite (IH (acc ++ _)), (IH [_]). by rewrite <- app_assoc.
Qed.

Lemma createManyStudents_cons student rest st :
  createManyStudents clock (student :: rest) st
  = ((createStudent clock student st).1
       :: (createManyStudents clock rest (createStudent clock student st).2).1,
     (createManyStudents clock rest (createStudent clock student st).2).2).
Proof.
  unfold createManyStudents. simpl. by rewrite createManyLoop_acc.
Qed.

Lemma createManyStudents_keeps id r students st :
  id < idOf st Student →
  getStudent id st = Some r →
  getStudent id (createManyStudents clock students st).2 = Some r.
Proof.
  revert st. induction students as [|s rest IH]; intros st Hlt Hget; [done|].
  rewrite createManyStudents_cons. simpl. apply IH.
  - simpl. rewrite setAt_eq. lia.
  - unfold getStudent, getE in *. simpl. rewrite setAt_eq.
    rewrite JSMapFacts.get_set_ne by lia. done.
Qed.

(** C8.  [createManyStudents] returns as many records as it was given
    inputs; the [i]-th one is the [i]-th input with the [i]-th next
    identifier and the [i]-th next clock reading, and it is the record stored
    under that identifier afterwards.  The call is the single create applied
    to the inputs from first to last, each on the storage left by the one
    before. *)
Theorem createManyStudents_in_order (students : list obj) (st : MemStorage) :
  let out := (createManyStudents clock students st).1 in
  let st' := (createManyStudents clock students st).2 in
  length out = length students
  ∧ (∀ (i : nat) student, students !! i = Some student →
       out !! i
       = Some (<["createdAt" := VDate (Some (clock (clockReads st + i)%nat))]>
                 (<["id" := VNum (idOf st Student + Z.of_nat i)]> student))
       ∧ getStudent (idOf st Student + Z.of_nat i) st' = out !! i)
  ∧ createManyStudents clock students st
    = match students with
      | [] => ([], st)
      | student :: rest =>
          let first := createStudent clock student st in
          let others := createManyStudents clock rest first.2 in
          (first.1 :: others.1, others.2)
      end.
Proof.
  simpl. split_and!.
  - revert st. induction students as [|s rest IH]; intros st; [done|].
    rewrite createManyStudents_cons. simpl. by rewrite IH.
  - revert st. induction students as [|s rest IH]; intros st i student Hi; [done|].
    rewrite createManyStudents_cons. destruct i as [|i].
    + inversion Hi; subst. simpl. rewrite Z.add_0_r, Nat.add_0_r. split; [done|].
      apply createManyStudents_keeps.
      * simpl. rewrite setAt_eq. lia.
      * unfold getStudent, getE. simpl. rewrite setAt_eq.
        apply JSMapFacts.get_set_eq.
    + set (st1 := (createStudent clock s st).2).
      assert (Hid : idOf st1 Student = idOf st Student + 1)
        by (subst st1; simpl; apply setAt_eq).
      assert (Hck : clockReads st1 = S (clockReads st)) by done.
      destruct (IH st1 i student Hi) as [H1 H2].
      rewrite Hid, Hck in H1. rewrite Hid in H2.
      replace (idOf st Student + Z.of_nat (S i))
        with (idOf st Student + 1 + Z.of_nat i) by lia.
      replace (clockReads st + S i)%nat with (S (clockReads st) + i)%nat by lia.
      done.
  - destruct students as [|s rest]; [done|]. apply createManyStudents_cons.
Qed.

End BulkStudents.

(** C8 on two students: the second output is the second input with the
    second next identifier. *)
Lemma createManyStudents_in_order_witness :
  [sampleStudent "Ann"; sampleStudent "Bob"] !! 1%nat = Some (sampleStudent "Bob")
  ∧ (createManyStudents sampleClock
       [sampleStudent "Ann"; sampleStudent "Bob"] sampleStorage).1 !! 1%nat
    = Some (<["createdAt" := VDate (Some (sampleClock (clockReads sampleStorage + 1)%nat))]>
              (<["id" := VNum (idOf sampleStorage Student + 1)]> (sampleStudent "Bob"))).
Proof.
  split; [reflexivity|].
  destruct (createManyStudents_in_order sampleClock
              [sampleStudent "Ann"; sampleStudent "Bob"] sampleStorage)
    as (_ & H & _).
  exact (proj1 (H 1%nat (sampleStudent "Bob") eq_refl)).
Defined.

(** ** Filtered listings *)

Lemma filter_filter_andb {A : Type} (f g : A → bool) (l : list A) :
  List.filter g (List.filter f l) = List.filter (λ x, f x && g x) l.
Proof.
  induction l as [|x l IH]; simpl; [done|].
  destruct (f x); simpl; [|done]. destruct (g x); by rewrite IH.
Qed.

Lemma filter_all {A : Type} (l : list A) : List.filter (λ _, true) l = l.
Proof. induction l as [|x l IH]; simpl; [done | by rewrite IH]. Qed.

Lemma filterIf_holds key arg xs : filterIf key arg xs = List.filter (holds key arg) xs.
Proof.
  unfold filterIf, holds, truthy, filterEq. destruct arg as [[n|]|]; simpl.
  - destruct (n =? 0); simpl; [by rewrite filter_all | done].
  - by rewrite filter_all.
  - by rewrite filter_all.
Qed.

Lemma strictEq_num v n : strictEq v (VNum n) = true ↔ v = VNum n.
Proof.
  destruct v; simpl; try (split; [discriminate | congruence]).
  rewrite Z.eqb_eq. split; congruence.
Qed.

Lemma prop_num (r : obj) key n : prop r key = VNum n ↔ r !! key = Some (VNum n).
Proof.
  unfold prop. destruct (r !! key); simpl; split; congruence.
Qed.

Lemma holds_spec key arg r :
  holds key arg r = true
  ↔ ∀ n : Z, arg = Some (Int n) → n ≠ 0 → r !! key = Some (VNum n).
Proof.
  unfold holds. destruct arg as [[n|]|].
  - rewrite orb_true_iff, Z.eqb_eq, strictEq_num, prop_num. split.
    + intros [H|H] m [= <-] Hm; [done | done].
    + intros H. destruct (decide (n = 0)); [by left | right; by apply H].
  - split; [intros _ n [=] | done].
  - split; [intros _ n [=] | done].
Qed.

(** C10.  In every listing, passing [0] for an optional filter is the same
    as leaving the filter out; [getCourses(0)] returns every course. *)
Theorem zero_filter_is_no_filter (st : MemStorage) :
  getCourses (Some (Int 0)) st = getCourses None st
  ∧ getCourses (Some (Int 0)) st = valuesE Course st
  ∧ getClasses (Some (Int 0)) st = getClasses None st
  ∧ (∀ classId, getEnrollments (Some (Int 0)) classId st = getEnrollments None classId st)
  ∧ (∀ studentId, getEnrollments studentId (Some (Int 0)) st = getEnrollments studentId None st)
  ∧ (∀ studentId, getStudentAttendance studentId (Some (Int 0)) st
                  = getStudentAttendance studentId None st)
  ∧ (∀ courseId month year, getPayments (Some (Int 0)) courseId month year st
                            = getPayments None courseId month year st)
  ∧ (∀ studentId month year, getPayments studentId (Some (Int 0)) month year st
                             = getPayments studentId None month year st)
  ∧ (∀ studentId courseId year, getPayments studentId courseId (Some (Int 0)) year st
                                = getPayments studentId courseId None year st)
  ∧ (∀ studentId courseId month, getPayments studentId courseId month (Some (Int 0)) st
                                 = getPayments studentId courseId month None st).
Proof.
  unfold getCourses, getClasses, getEnrollments, getStudentAttendance, getPayments.
  split_and!; intros; reflexivity.
Qed.

(** C4, amended.  A listing called without filters returns every record of
    the entity.  With filters it returns, in storage order, exactly the
    records that satisfy all of them, where an integer argument other than
    [0] requires the property to equal it and an argument [0] or NaN, which
    the routes pass for a query value that is no number, requires nothing.
    [getStudentAttendance] always filters on its first argument, so that
    it returns nothing when that is NaN. *)
Theorem list_filter_laws (st : MemStorage) :
  getSchoolYears st = valuesE SchoolYear st
  ∧ getStudents st = valuesE Student st
  ∧ getCourses None st = valuesE Course st
  ∧ getClasses None st = valuesE Class st
  ∧ getEnrollments None None st = valuesE Enrollment st
  ∧ getPayments None None None None st = valuesE Payment st
  ∧ (∀ schoolYearId,
       getCourses schoolYearId st
       = List.filter (holds "schoolYearId" schoolYearId) (valuesE Course st))
  ∧ (∀ courseId,
       getClasses courseId st
       = List.filter (holds "courseId" courseId) (valuesE Class st))
  ∧ (∀ studentId classId,
       getEnrollments studentId classId st
       = List.filter (λ r, holds "studentId" studentId r && holds "classId" classId r)
           (valuesE Enrollment st))
  ∧ (∀ studentId classId,
       getStudentAttendance studentId classId st
       = List.filter (λ r, strictEq (prop r "studentId") (numVal studentId)
                           && holds "classId" classId r)
           (valuesE Attendance st))
  ∧ (∀ studentId courseId month year,
       getPayments studentId courseId month year st
       = List.filter (λ r, holds "studentId" studentId r && holds "courseId" courseId r
                           && holds "month" month r && holds "year" year r)
           (valuesE Payment st))
  ∧ (∀ key arg r,
       holds key arg r = true
       ↔ ∀ n : Z, arg = Some (Int n) → n ≠ 0 → r !! key = Some (VNum n))
  ∧ (∀ key r,
       holds key None r = true ∧ holds key (Some (Int 0)) r = true
       ∧ holds key (Some NaN) r = true)
  ∧ (∀ classId, getStudentAttendance NaN classId st = []).
Proof.
  unfold getSchoolYears, getStudents, getCourses, getClasses, getEnrollments,
    getStudentAttendance, getPayments.
  split_and!; try reflexivity; intros;
    rewrite ?filterIf_holds, ?filter_filter_andb; try reflexivity.
  - apply List.filter_ext. intros r. by rewrite !andb_assoc.
  - apply holds_spec.
  - by split_and!.
  - induction (valuesE Attendance st) as [|a l IH]; [done|].
    simpl. by destruct (prop a "studentId").
Qed.

(** C4, counterexample.  [getCourses(0)] on a storage whose only course
    belongs to school year 1 returns that course: a supplied filter value for
    which the records returned are not those whose property equals it. *)
Lemma zero_filter_returns_unequal_records :
  (λ r : obj, r !! "schoolYearId") <$> getCourses (Some (Int 0)) storageWithCourse
  = [Some (VNum 1)].
Proof. vm_compute. reflexivity. Qed.

(** The same for NaN, which the route passes for a school year that is no
    number. *)
Lemma nan_filter_returns_every_record :
  (λ r : obj, r !! "schoolYearId") <$> getCourses (Some NaN) storageWithCourse
  = [Some (VNum 1)].
Proof. vm_compute. reflexivity. Qed.

(** C4 on the storage with one course of school year 1: filtering on 1
    returns it, filtering on 2 returns nothing. *)
Lemma list_filter_laws_witness :
  Some (Int 1) = Some (Int 1) ∧ 1 ≠ 0
  ∧ (λ r : obj, r !! "schoolYearId") <$> getCourses (Some (Int 1)) storageWithCourse
    = [Some (VNum 1)]
  ∧ getCourses (Some (Int 2)) storageWithCourse = [].
Proof.
  destruct (list_filter_laws storageWithCourse)
    as (_ & _ & _ & _ & _ & _ & Hc & _).
  split; [reflexivity|]. split; [lia|].
  rewrite (Hc (Some (Int 1))), (Hc (Some (Int 2))).
  split; vm_compute; reflexivity.
Defined.

(** ** Updates *)

(** C2, amended.  For a key [id] of the map and the record [r] stored under
    it, [update(id, partial)] returns [{ ...r, ...partial }] and stores it
    under the same key: every property that [partial] lacks keeps its value,
    every property that [partial] has takes the value from [partial].  So
    the [id] property and the creation timestamp are unchanged whenever
    [partial] has no such property, as is the case for the payloads of type
    [Partial<InsertE>]; the method does not protect them otherwise.  The
    other records, the other maps and the counters are untouched. *)
Theorem update_frame (e : entity) (id : Z) (partial : obj) (st : MemStorage) (r : obj) :
  getE e id st = Some r →
  let res := updateE e id partial st in
  ∃ r', res.1 = Some r'
    ∧ getE e id res.2 = Some r'
    ∧ (∀ k, partial !! k = None → r' !! k = r !! k)
    ∧ (∀ k v, partial !! k = Some v → r' !! k = Some v)
    ∧ (partial !! "id" = None → r' !! "id" = r !! "id")
    ∧ (partial !! stampKey e = None → r' !! stampKey e = r !! stampKey e)
    ∧ (∀ id', id' ≠ id → getE e id' res.2 = getE e id' st)
    ∧ (∀ e', e' ≠ e → mapOf res.2 e' = mapOf st e')
    ∧ idOf res.2 = idOf st.
Proof.
  intros Hr res. unfold getE in Hr. subst res. unfold updateE. rewrite Hr.
  exists (partial ∪ r). simpl.
  assert (Hframe : ∀ k, partial !! k = None → (partial ∪ r) !! k = r !! k).
  { intros k Hk. by apply lookup_union_r. }
  split_and!; try done.
  - unfold getE. simpl. rewrite setAt_eq. apply JSMapFacts.get_set_eq.
  - intros k v Hk. by apply lookup_union_Some_l.
  - apply Hframe.
  - apply Hframe.
  - intros id' Hne. unfold getE. simpl. rewrite setAt_eq.
    by apply JSMapFacts.get_set_ne.
  - intros e' Hne. by apply setAt_ne.
Qed.

(** C2 on the sample school year: deactivating it keeps its name and its
    identifier. *)
Lemma update_frame_witness :
  getE SchoolYear 1 sampleStorage = Some storedSampleYear
  ∧ ∃ r', (updateSchoolYear 1 {[ "active" := VBool false ]} sampleStorage).1 = Some r'
          ∧ r' !! "name" = storedSampleYear !! "name"
          ∧ r' !! "id" = storedSampleYear !! "id".
Proof.
  assert (Hr : getE SchoolYear 1 sampleStorage = Some storedSampleYear)
    by (vm_compute; reflexivity).
  split; [exact Hr|].
  destruct (update_frame SchoolYear 1 {[ "active" := VBool false ]}
              sampleStorage storedSampleYear Hr) as (r' & H1 & _ & Hf & _).
  exists r'. split; [exact H1|].
  split; apply Hf; vm_compute; reflexivity.
Defined.

(** C2, counterexample.  A payload with an [id] and a [createdAt] property
    replaces both in the stored school year 1. *)
Lemma update_overwrites_id_and_timestamp :
  getSchoolYear 1 sampleStorage ≫= (.!! "id") = Some (VNum 1)
  ∧ getSchoolYear 1 sampleStorage ≫= (.!! "createdAt")
    = Some (VDate (Some (sampleClock 1)))
  ∧ (updateSchoolYear 1 overwritingPayload sampleStorage).1 ≫= (.!! "id")
    = Some (VNum 99)
  ∧ (updateSchoolYear 1 overwritingPayload sampleStorage).1 ≫= (.!! "createdAt")
    = Some (VDate (Some 0))
  ∧ getSchoolYear 1 (updateSchoolYear 1 overwritingPayload sampleStorage).2
      ≫= (.!! "id") = Some (VNum 99).
Proof. split_and!; vm_compute; reflexivity. Qed.

(** After that update the school year is still stored under key 1, and
    its new [id] 99 finds nothing. *)
Lemma update_by_overwritten_id_finds_nothing :
  (updateSchoolYear 99 ∅ (updateSchoolYear 1 overwritingPayload sampleStorage).2).1
  = None
  ∧ is_Some (updateSchoolYear 1 ∅
               (updateSchoolYear 1 overwritingPayload sampleStorage).2).1.
Proof.
  split; [vm_compute; reflexivity|].
  apply (bool_decide_unpack _). vm_compute. exact I.
Qed.

(** ** Dates *)

Lemma civilFromDays_roundtrip days :
  daysFromCivil (civilFromDays days).1.1 (civilFromDays days).1.2 (civilFromDays days).2
  = days.
Proof.
  unfold civilFromDays, daysFromCivil. cbv zeta. simpl.
  set (z := days + 719468).
  set (era := z / 146097).
  set (doe := z - era * 146097).
  assert (Hdoe : 0 <= doe <= 146096) by (subst doe era; Z.div_mod_to_equations; lia).
  assert (Hz : days = era * 146097 + doe - 719468) by (subst doe z; lia).
  clearbody doe. clearbody era. clear z.
  set (yoe := (doe - doe / 1460 + doe / 36524 - doe / 146096) / 365).
  assert (Hyoe : 0 <= yoe <= 399) by (subst yoe; Z.div_mod_to_equations; lia).
  set (doy := doe - (365 * yoe + yoe / 4 - yoe / 100)).
  assert (Hdoy : 0 <= doy <= 365) by (subst doy yoe; Z.div_mod_to_equations; lia).
  assert (Hdoe2 : doe = yoe * 365 + yoe / 4 - yoe / 100 + doy) by (subst doy; lia).
  clearbody doy. clearbody yoe.
  set (mp := (5 * doy + 2) / 153).
  assert (Hmp : 0 <= mp <= 11) by (subst mp; Z.div_mod_to_equations; lia).
  clearbody mp.
  destruct (mp <? 10) eqn:E; [apply Z.ltb_lt in E | apply Z.ltb_ge in E].
  - replace (mp + 3 <=? 2) with false by (symmetry; apply Z.leb_gt; lia).
    replace (2 <? mp + 3) with true by (symmetry; apply Z.ltb_lt; lia).
    replace (mp + 3 - 3) with mp by lia.
    replace ((yoe + era * 400) / 400) with era by (Z.div_mod_to_equations; lia).
    replace (yoe + era * 400 - era * 400) with yoe by lia.
    lia.
  - replace (mp - 9 <=? 2) with true by (symmetry; apply Z.leb_le; lia).
    replace (2 <? mp - 9) with false by (symmetry; apply Z.ltb_ge; lia).
    replace (mp - 9 + 9) with mp by lia.
    replace (yoe + era * 400 + 1 - 1) with (yoe + era * 400) by lia.
    replace ((yoe + era * 400) / 400) with era by (Z.div_mod_to_equations; lia).
    replace (yoe + era * 400 - era * 400) with yoe by lia.
    lia.
Qed.

Lemma civilFromDays_inj d1 d2 : civilFromDays d1 = civilFromDays d2 → d1 = d2.
Proof.
  intros H. rewrite <- (civilFromDays_roundtrip d1), <- (civilFromDays_roundtrip d2).
  by rewrite H.
Qed.

(** Two time values have the same year, month and day exactly when they lie
    in the same 24-hour day counted from the epoch: the time of day plays no
    part. *)
Lemma utcDay_eq_iff t1 t2 : utcDay t1 = utcDay t2 ↔ t1 / msPerDay = t2 / msPerDay.
Proof.
  unfold utcDay. split; [apply civilFromDays_inj | by intros ->].
Qed.

Lemma civilFromDays_bounds days :
  1 <= (civilFromDays days).1.2 <= 12 ∧ 1 <= (civilFromDays days).2 <= 31.
Proof.
  unfold civilFromDays. cbv zeta. simpl.
  set (z := days + 719468).
  set (era := z / 146097).
  set (doe := z - era * 146097).
  assert (Hdoe : 0 <= doe <= 146096) by (subst doe era; Z.div_mod_to_equations; lia).
  clearbody doe. clear z era.
  set (yoe := (doe - doe / 1460 + doe / 36524 - doe / 146096) / 365).
  set (doy := doe - (365 * yoe + yoe / 4 - yoe / 100)).
  assert (Hdoy : 0 <= doy <= 365) by (subst doy yoe; Z.div_mod_to_equations; lia).
  clearbody doy.
  set (mp := (5 * doy + 2) / 153).
  assert (0 <= mp <= 11) by (subst mp; Z.div_mod_to_equations; lia).
  destruct (mp <? 10) eqn:E; [apply Z.ltb_lt in E | apply Z.ltb_ge in E];
    split; try lia; subst mp; Z.div_mod_to_equations; lia.
Qed.

Lemma civilFromDays_year days :
  -100000000 <= days <= 100000000 →
  -271821 <= (civilFromDays days).1.1 <= 275760.
Proof.
  intros Hd. unfold civilFromDays. cbv zeta. simpl.
  set (z := days + 719468).
  set (era := z / 146097).
  set (doe := z - era * 146097).
  assert (Hdoe : 0 <= doe <= 146096) by (subst doe era; Z.div_mod_to_equations; lia).
  assert (Hera : -685 <= era <= 689) by (subst era z; Z.div_mod_to_equations; lia).
  assert (Hz : z = era * 146097 + doe) by (subst doe; lia).
  assert (Hzb : -99280532 <= z <= 100719468) by (subst z; lia).
  clearbody doe. clearbody era. clearbody z.
  set (yoe := (doe - doe / 1460 + doe / 36524 - doe / 146096) / 365).
  assert (Hyoe : 0 <= yoe <= 399) by (subst yoe; Z.div_mod_to_equations; lia).
  set (doy := doe - (365 * yoe + yoe / 4 - yoe / 100)).
  assert (Hdoy : 0 <= doy <= 365) by (subst doy yoe; Z.div_mod_to_equations; lia).
  assert (Hdoe2 : doe = yoe * 365 + yoe / 4 - yoe / 100 + doy) by (subst doy; lia).
  clearbody doy. clearbody yoe.
  set (mp := (5 * doy + 2) / 153).
  assert (Hmp : 0 <= mp <= 11) by (subst mp; Z.div_mod_to_equations; lia).
  assert (Hmp2 : 153 * mp <= 5 * doy + 2 < 153 * mp + 153)
    by (subst mp; Z.div_mod_to_equations; lia).
  clearbody mp.
  destruct (mp <? 10) eqn:E; [apply Z.ltb_lt in E | apply Z.ltb_ge in E].
  - replace (mp + 3 <=? 2) with false by (symmetry; apply Z.leb_gt; lia).
    Z.div_mod_to_equations. lia.
  - replace (mp - 9 <=? 2) with true by (symmetry; apply Z.leb_le; lia).
    Z.div_mod_to_equations. lia.
Qed.

(** *** The ISO rendering *)

Lemma digit_code n : nat_of_ascii (digit n) = (48 + Z.to_nat (n mod 10))%nat.
Proof.
  unfold digit. apply nat_ascii_embedding.
  pose proof (Z.mod_pos_bound n 10). lia.
Qed.

Lemma digit_inj a b : digit a = digit b → a mod 10 = b mod 10.
Proof.
  intros H. apply (f_equal nat_of_ascii) in H. rewrite !digit_code in H.
  pose proof (Z.mod_pos_bound a 10). pose proof (Z.mod_pos_bound b 10). lia.
Qed.

Lemma digit_not c n : (nat_of_ascii c < 48)%nat ∨ (57 < nat_of_ascii c)%nat → digit n ≠ c.
Proof.
  intros Hc H. apply (f_equal nat_of_ascii) in H. rewrite digit_code in H.
  pose proof (Z.mod_pos_bound n 10). lia.
Qed.

Lemma digit_eqb_T n : Ascii.eqb (digit n) "T" = false.
Proof. apply Ascii.eqb_neq, digit_not. right. vm_compute. lia. Qed.

Lemma String_inj c c' (s s' : string) :
  String c s = String c' s' → c = c' ∧ s = s'.
Proof. by intros [= -> ->]. Qed.

Lemma pad2_inj a b r r' :
  pad2 a r = pad2 b r' → a mod 100 = b mod 100 ∧ r = r'.
Proof.
  unfold pad2. intros [H1%digit_inj [H2%digit_inj ->]%String_inj]%String_inj.
  split; [|done]. Z.div_mod_to_equations. lia.
Qed.

Lemma pad3_inj a b r r' :
  pad3 a r = pad3 b r' → a mod 1000 = b mod 1000 ∧ r = r'.
Proof.
  unfold pad3. intros [H1%digit_inj [H2 ->]%pad2_inj]%String_inj.
  split; [|done]. Z.div_mod_to_equations. lia.
Qed.

Lemma pad4_inj a b r r' :
  pad4 a r = pad4 b r' → a mod 10000 = b mod 10000 ∧ r = r'.
Proof.
  unfold pad4. intros [H1%digit_inj [H2 ->]%pad3_inj]%String_inj.
  split; [|done]. Z.div_mod_to_equations. lia.
Qed.

Lemma pad6_inj a b r r' :
  pad6 a r = pad6 b r' → a mod 1000000 = b mod 1000000 ∧ r = r'.
Proof.
  unfold pad6.
  intros [H1%digit_inj [H2%digit_inj [H3 ->]%pad4_inj]%String_inj]%String_inj.
  split; [|done]. Z.div_mod_to_equations. lia.
Qed.

Lemma isoYear_inj y y' r r' :
  -999999 <= y <= 999999 → -999999 <= y' <= 999999 →
  isoYear y r = isoYear y' r' → y = y' ∧ r = r'.
Proof.
  intros Hy Hy'. unfold isoYear.
  destruct ((0 <=? y) && (y <=? 9999)) eqn:E;
    destruct ((0 <=? y') && (y' <=? 9999)) eqn:E'.
  - apply andb_true_iff in E as [?%Z.leb_le ?%Z.leb_le].
    apply andb_true_iff in E' as [?%Z.leb_le ?%Z.leb_le].
    intros [Hp ->]%pad4_inj. split; [|done].
    rewrite !Z.mod_small in Hp by lia. done.
  - unfold pad4. intros [H _]%String_inj. exfalso. revert H. apply digit_not.
    left. destruct (y' <? 0); vm_compute; lia.
  - unfold pad4. intros [H _]%String_inj. exfalso. symmetry in H. revert H.
    apply digit_not. left. destruct (y <? 0); vm_compute; lia.
  - apply andb_false_iff in E. apply andb_false_iff in E'.
    rewrite !Z.leb_gt in E, E'.
    destruct (y <? 0) eqn:S; destruct (y' <? 0) eqn:S';
      [apply Z.ltb_lt in S, S' | apply Z.ltb_lt in S; apply Z.ltb_ge in S'
       | apply Z.ltb_ge in S; apply Z.ltb_lt in S' | apply Z.ltb_ge in S, S'];
      intros [Hc H]%String_inj; try discriminate;
      apply pad6_inj in H as [H ->]; (split; [|done]);
      rewrite !Z.mod_small in H by lia; lia.
Qed.

Lemma isoDate_inj t1 t2 :
  Z.abs t1 <= maxTime → Z.abs t2 <= maxTime →
  (isoDate t1 = isoDate t2 ↔ utcDay t1 = utcDay t2).
Proof.
  intros H1 H2. unfold isoDate.
  assert (Hb : ∀ t, Z.abs t <= maxTime →
            -271821 <= (utcDay t).1.1 <= 275760
            ∧ 1 <= (utcDay t).1.2 <= 12 ∧ 1 <= (utcDay t).2 <= 31).
  { intros t Ht. unfold utcDay. split.
    - apply civilFromDays_year. unfold maxTime, msPerDay in *.
      Z.div_mod_to_equations. lia.
    - apply civilFromDays_bounds. }
  destruct (Hb t1 H1) as (Hy1 & Hm1 & Hd1). destruct (Hb t2 H2) as (Hy2 & Hm2 & Hd2).
  destruct (utcDay t1) as [[y1 m1] d1]. destruct (utcDay t2) as [[y2 m2] d2].
  simpl in *. split; [|by intros [= -> -> ->]].
  intros [-> Hrest]%isoYear_inj; [|lia|lia].
  apply String_inj in Hrest as [_ [Hm Hrest]%pad2_inj].
  apply String_inj in Hrest as [_ [Hd _]%pad2_inj].
  rewrite !Z.mod_small in Hm, Hd by lia. by subst.
Qed.

Lemma splitT0_app s rest :
  splitT0 s = s → splitT0 (s +:+ String "T" rest) = s.
Proof.
  induction s as [|c s IH]; simpl; [done|].
  destruct (Ascii.eqb c "T"); [discriminate|].
  intros [= H]. by rewrite IH.
Qed.

Lemma splitT0_cons c s :
  splitT0 (String c s) = if Ascii.eqb c "T" then EmptyString else String c (splitT0 s).
Proof. reflexivity. Qed.

Lemma splitT0_digit n s : splitT0 (String (digit n) s) = String (digit n) (splitT0 s).
Proof. by rewrite splitT0_cons, digit_eqb_T. Qed.

Lemma splitT0_isoDate t : splitT0 (isoDate t) = isoDate t.
Proof.
  unfold isoDate. destruct (utcDay t) as [[y m] d]. unfold isoYear.
  destruct ((0 <=? y) && (y <=? 9999)); [|destruct (y <? 0)];
    unfold pad6, pad4, pad3, pad2;
    rewrite ?splitT0_cons, ?digit_eqb_T; reflexivity.
Qed.

(** [d.toISOString().split('T')[0]] is the [YYYY-MM-DD] rendering of the UTC
    calendar day. *)
Lemma splitT0_isoString t : splitT0 (isoString t) = isoDate t.
Proof. unfold isoString. apply splitT0_app, splitT0_isoDate. Qed.

Lemma TimeClip_Some t t' : TimeClip t = Some t' → t' = t ∧ Z.abs t <= maxTime.
Proof.
  unfold TimeClip. destruct (Z.abs t <=? maxTime) eqn:E; [|discriminate].
  apply Z.leb_le in E. by intros [= <-].
Qed.

(** ** Attendance by class and day *)

Lemma filterM_ok {A : Type} (f : A → exn + bool) (g : A → bool) (l : list A) :
  (∀ x, x ∈ l → f x = inr (g x)) → filterM f l = inr (List.filter g l).
Proof.
  induction l as [|x l IH]; intros H; simpl; [done|].
  rewrite (H x) by apply list_elem_of_here. simpl.
  rewrite IH by (intros y Hy; apply H; by apply list_elem_of_further). done.
Qed.

Lemma filterM_err {A : Type} (f : A → exn + bool) (e : exn) (l : list A) (x : A) :
  x ∈ l → f x = inl e →
  (∀ y, y ∈ l → f y = inl e ∨ ∃ b, f y = inr b) →
  filterM f l = inl e.
Proof.
  induction l as [|y l IH]; intros Hx Hfx Hall; [inversion Hx|]. simpl.
  destruct (Hall y) as [Hy|[b Hy]]; [apply list_elem_of_here | by rewrite Hy |].
  rewrite Hy. simpl.
  apply elem_of_cons in Hx as [->|Hx]; [congruence|].
  rewrite IH; [done | done | done |].
  intros z Hz. apply Hall. by apply list_elem_of_further.
Qed.

Lemma Date_toISOString_day d :
  splitT0 <$> Date_toISOString d
  = match d ≫= TimeClip with
    | Some t => inr (isoDate t)
    | None => inl RangeError
    end.
Proof.
  unfold Date_toISOString. destruct (d ≫= TimeClip) as [t|]; simpl; [|done].
  unfold fmap, throws_fmap. by rewrite splitT0_isoString.
Qed.

Lemma TimeClip_idem (o : option Z) :
  (o ≫= TimeClip) ≫= TimeClip = o ≫= TimeClip.
Proof.
  destruct o as [t|]; simpl; [|done]. unfold TimeClip.
  destruct (Z.abs t <=? maxTime) eqn:E; simpl; [by rewrite E | done].
Qed.

Section AttendanceByDay.

Variable Date_parse : string → option Z.

Lemma newDate_clipped v : newDate Date_parse v ≫= TimeClip = newDate Date_parse v ∨ instanceofDate v = true.
Proof.
  destruct v as [| |b|n| |s|d]; simpl; auto; left.
  - by destruct b.
  - unfold TimeClip. destruct (Z.abs n <=? maxTime) eqn:E; simpl; [by rewrite E|done].
  - apply TimeClip_idem.
Qed.

(** The day filter of [getAttendance] reads a Date and a string alike: both
    branches of its [instanceof] test yield the rendering of the calendar day
    of the value, or a RangeError when the value is no valid date. *)
Lemma onDay_spec dateString a :
  onDay Date_parse dateString a
  = match newDate Date_parse (prop a "date") ≫= TimeClip with
    | Some t => inr (String.eqb (isoDate t) dateString)
    | None => inl RangeError
    end.
Proof.
  unfold onDay.
  assert (H : (if instanceofDate (prop a "date")
               then splitT0 <$> toISOString (prop a "date")
               else splitT0 <$> Date_toISOString (newDate Date_parse (prop a "date")))
              = splitT0 <$> Date_toISOString (newDate Date_parse (prop a "date"))).
  { by destruct (prop a "date"). }
  rewrite H, Date_toISOString_day.
  by destruct (newDate Date_parse (prop a "date") ≫= TimeClip).
Qed.

Lemma isoDate_eqb t1 t2 :
  Z.abs t1 <= maxTime → Z.abs t2 <= maxTime →
  String.eqb (isoDate t1) (isoDate t2) = bool_decide (utcDay t1 = utcDay t2).
Proof.
  intros H1 H2. destruct (String.eqb_spec (isoDate t1) (isoDate t2)) as [E|E].
  - symmetry. apply bool_decide_eq_true. by apply isoDate_inj.
  - symmetry. apply bool_decide_eq_false. intros H. apply E. by apply isoDate_inj.
Qed.

Lemma bind_TimeClip_Some (o : option Z) t :
  o ≫= TimeClip = Some t → Z.abs t <= maxTime.
Proof.
  destruct o as [t'|]; simpl; [|done]. by intros [-> ?]%TimeClip_Some.
Qed.

(** C9, amended.  Without a date, [getAttendance] returns the records of the
    class.  With a valid query date, and when the date of every record of the
    class is a valid Date or a string that parses to one, it returns exactly
    the records of the class whose date has the year, month and day (in UTC)
    of the query date, in storage order; a Date and a string are read alike.
    With an invalid query date, or when a record of the class carries a date
    that is no valid date, the call throws a RangeError.  Two time values
    have the same year, month and day exactly when they fall in the same
    24 hours from midnight UTC. *)
Theorem getAttendance_by_class_and_day (classId : Z) (st : MemStorage) :
  let ofClass :=
    List.filter (λ a, strictEq (prop a "classId") (VNum classId))
      (valuesE Attendance st) in
  getAttendance Date_parse classId None st = inr ofClass
  ∧ (∀ d t,
       d ≫= TimeClip = Some t →
       (∀ a, a ∈ ofClass → is_Some (calendarDay Date_parse (prop a "date"))) →
       getAttendance Date_parse classId (Some d) st
       = inr (List.filter
                (λ a, bool_decide (calendarDay Date_parse (prop a "date") = Some (utcDay t)))
                ofClass))
  ∧ (∀ d, d ≫= TimeClip = None →
          getAttendance Date_parse classId (Some d) st = inl RangeError)
  ∧ (∀ d a, a ∈ ofClass → calendarDay Date_parse (prop a "date") = None →
            getAttendance Date_parse classId (Some d) st = inl RangeError)
  ∧ (∀ d, calendarDay Date_parse (VDate d) = utcDay <$> (d ≫= TimeClip))
  ∧ (∀ s, calendarDay Date_parse (VStr s) = utcDay <$> (Date_parse s ≫= TimeClip))
  ∧ (∀ t1 t2, utcDay t1 = utcDay t2 ↔ t1 / msPerDay = t2 / msPerDay).
Proof.
  intros ofClass. unfold getAttendance. fold ofClass.
  split_and!.
  - done.
  - intros d t Hd Hall. rewrite Date_toISOString_day, Hd. simpl.
    apply filterM_ok. intros a Ha. rewrite onDay_spec.
    destruct (Hall a Ha) as [day Hday]. unfold calendarDay in *.
    destruct (newDate Date_parse (prop a "date") ≫= TimeClip) as [ta|] eqn:Eta;
      [|done].
    rewrite isoDate_eqb by (by eapply bind_TimeClip_Some).
    simpl. f_equal. apply bool_decide_ext. split; congruence.
  - intros d Hd. by rewrite Date_toISOString_day, Hd.
  - intros d a Ha Hday. rewrite Date_toISOString_day.
    destruct (d ≫= TimeClip) as [t|]; [|done]. simpl.
    assert (Hon : ∀ y, onDay Date_parse (isoDate t) y = inl RangeError
                       ∨ ∃ b, onDay Date_parse (isoDate t) y = inr b).
    { intros y. rewrite onDay_spec.
      destruct (newDate Date_parse (prop y "date") ≫= TimeClip); eauto. }
    apply (filterM_err _ _ _ a Ha); [|by intros].
    rewrite onDay_spec. unfold calendarDay in Hday.
    by destruct (newDate Date_parse (prop a "date") ≫= TimeClip).
  - done.
  - intros s. unfold calendarDay. simpl.
    by rewrite TimeClip_idem.
  - apply utcDay_eq_iff.
Qed.

End AttendanceByDay.

(** C9: the record stored with the date string of 4 March 2024 is found by
    a query Date of that day at noon UTC. *)
Lemma getAttendance_by_class_and_day_witness :
  TimeClip 1709553600000 = Some 1709553600000
  ∧ getAttendance isoParse 2 (Some (Some 1709553600000)) storageWithAttendance
    = inr [storedAttendance].
Proof.
  split; [reflexivity|].
  destruct (getAttendance_by_class_and_day isoParse 2 storageWithAttendance)
    as (_ & H & _).
  rewrite (H (Some 1709553600000) 1709553600000 eq_refl).
  - vm_compute. reflexivity.
  - apply Forall_forall. apply (bool_decide_unpack _). vm_compute. exact I.
Defined.

(** C9, counterexample.  For class 2 the call throws a RangeError instead of
    returning records, both with the invalid Date that [new Date("foo")] is
    and with a valid query date when a stored record of the class has a date
    string that denotes no date. *)
Lemma getAttendance_throws_on_invalid_date :
  getAttendance isoParse 2 (Some None) storageWithAttendance = inl RangeError
  ∧ getAttendance isoParse 2 (Some (Some 1709553600000)) storageWithBadDate
    = inl RangeError.
Proof. split; vm_compute; reflexivity. Qed.

(** ** The bulk attendance upsert *)

Lemma findM_ok {A : Type} (f : A → exn + bool) (g : A → bool) (l : list A) :
  (∀ x, x ∈ l → f x = inr (g x)) → findM f l = inr (List.find g l).
Proof.
  induction l as [|x l IH]; intros H; simpl; [done|].
  rewrite (H x) by apply list_elem_of_here. simpl.
  destruct (g x); [done|].
  apply IH. intros y Hy. apply H. by apply list_elem_of_further.
Qed.

Lemma find_values (g : obj → bool) (m : list (Z * obj)) :
  List.find g (JSMap.values m) = snd <$> List.find (λ kv, g kv.2) m.
Proof.
  unfold JSMap.values. induction m as [|[k a] m IH]; simpl; [done|].
  destruct (g a); [done | exact IH].
Qed.

Lemma find_Some_elem {A : Type} (g : A → bool) (l : list A) x :
  List.find g l = Some x → x ∈ l ∧ g x = true.
Proof.
  intros H. apply List.find_some in H as [H1 H2]. split; [|done].
  by apply list_elem_of_In.
Qed.

Lemma find_None_elem {A : Type} (g : A → bool) (l : list A) x :
  List.find g l = None → x ∈ l → g x = false.
Proof.
  intros H Hx. eapply List.find_none; [exact H|]. by apply list_elem_of_In.
Qed.

Lemma get_of_elem (m : list (Z * obj)) k a :
  NoDup (JSMap.keys m) → (k, a) ∈ m → JSMap.get m k = Some a.
Proof.
  unfold JSMap.keys. induction m as [|[k' a'] m IH]; intros Hnd Hin; [inversion Hin|].
  simpl in *. apply NoDup_cons in Hnd as [Hk' Hnd].
  apply elem_of_cons in Hin as [[= -> ->]|Hin].
  - by rewrite Z.eqb_refl.
  - destruct (k' =? k) eqn:E; [|by apply IH].
    apply Z.eqb_eq in E as ->. exfalso. apply Hk'.
    apply list_elem_of_fmap. by exists (k, a).
Qed.

Lemma elem_of_set (m : list (Z * obj)) k v kv :
  kv ∈ JSMap.set m k v → kv = (k, v) ∨ kv ∈ m.
Proof.
  induction m as [|[k' v'] m IH]; simpl.
  - intros ->%list_elem_of_singleton. by left.
  - destruct (k' =? k).
    + intros [->|H]%elem_of_cons; [by left | right; by apply list_elem_of_further].
    + intros [->|H]%elem_of_cons; [right; apply list_elem_of_here|].
      destruct (IH H) as [->|?]; [by left | right; by apply list_elem_of_further].
Qed.

Lemma fmap_values_set {B : Type} (f : obj → B) (m : list (Z * obj)) k a v :
  JSMap.get m k = Some a → f v = f a →
  f <$> JSMap.values (JSMap.set m k v) = f <$> JSMap.values m.
Proof.
  unfold JSMap.values. induction m as [|[k' a'] m IH]; simpl; [done|].
  destruct (k' =? k); simpl.
  - intros [= ->] ->. done.
  - intros H1 H2. f_equal. by apply IH.
Qed.

Lemma count_one {A B : Type} `{EqDecision B} (f : A → B) (l : list A) (b : B) :
  NoDup (f <$> l) → b ∈ f <$> l →
  length (List.filter (λ a, bool_decide (f a = b)) l) = 1%nat.
Proof.
  induction l as [|x l IH]; intros Hnd Hin; [inversion Hin|].
  simpl in *. apply NoDup_cons in Hnd as [Hx Hnd].
  destruct (decide (f x = b)) as [<-|Hne].
  - rewrite bool_decide_eq_true_2 by done. simpl. f_equal.
    clear IH Hin Hnd. induction l as [|y l IH]; simpl; [done|].
    simpl in Hx. apply not_elem_of_cons in Hx as [Hxy Hx].
    rewrite bool_decide_eq_false_2 by congruence. by apply IH.
  - rewrite bool_decide_eq_false_2 by done.
    apply elem_of_cons in Hin as [->|Hin]; [done|]. by apply IH.
Qed.

Lemma count_zero {A B : Type} `{EqDecision B} (f : A → B) (l : list A) (b : B) :
  b ∉ f <$> l →
  length (List.filter (λ a, bool_decide (f a = b)) l) = 0%nat.
Proof.
  induction l as [|x l IH]; intros Hin; [done|].
  simpl in *. apply not_elem_of_cons in Hin as [Hne Hin].
  rewrite bool_decide_eq_false_2 by congruence. by apply IH.
Qed.

Section Upsert.

Variable clock : nat → Z.
Variable Date_parse : string → option Z.

Lemma prop_Some (r : obj) key v : v ≠ VUndef → prop r key = v → r !! key = Some v.
Proof.
  unfold prop. destruct (r !! key); simpl; congruence.
Qed.

Lemma prop_of_lookup (r : obj) key v : r !! key = Some v → prop r key = v.
Proof. unfold prop. by intros ->. Qed.

Lemma calendarDay_valid t :
  Z.abs t <= maxTime → calendarDay Date_parse (VDate (Some t)) = Some (utcDay t).
Proof.
  intros H. unfold calendarDay. simpl. unfold TimeClip.
  apply Z.leb_le in H. by rewrite H.
Qed.

(** On Date-valued attendance data the search callback does not throw and
    tests equality of student, class and calendar day. *)
Lemma sameTriple_ok record a :
  attendanceFields a → attendanceFields record →
  sameTriple Date_parse record a
  = inr (bool_decide (tripleOf Date_parse a = tripleOf Date_parse record)).
Proof.
  intros ([s Hs] & [c Hc] & (t & Ht & Hv)) ([s' Hs'] & [c' Hc'] & (t' & Ht' & Hv')).
  unfold sameTriple, tripleOf. rewrite Hs, Hc, Ht, Hs', Hc', Ht'.
  rewrite !calendarDay_valid by done. simpl.
  destruct (s =? s') eqn:Es; [apply Z.eqb_eq in Es as -> | apply Z.eqb_neq in Es].
  2: { rewrite bool_decide_eq_false_2; [done | congruence]. }
  destruct (c =? c') eqn:Ec; [apply Z.eqb_eq in Ec as -> | apply Z.eqb_neq in Ec].
  2: { rewrite bool_decide_eq_false_2; [done | congruence]. }
  rewrite !Date_toISOString_day. simpl. unfold TimeClip.
  apply Z.leb_le in Hv as Hv1. apply Z.leb_le in Hv' as Hv1'. rewrite Hv1, Hv1'.
  simpl. rewrite isoDate_eqb by done. f_equal.
  apply bool_decide_ext. split; congruence.
Qed.

(** Merging an input into a record keeps the record's [id] and takes the
    attendance data of the input. *)
Lemma merge_ok record a k :
  attInputOk record → prop a "id" = VNum k →
  prop (record ∪ a) "id" = VNum k
  ∧ attendanceFields (record ∪ a)
  ∧ tripleOf Date_parse (record ∪ a) = tripleOf Date_parse record.
Proof.
  intros [Hid ([s Hs] & [c Hc] & (t & Ht & Hv))] Hk.
  apply prop_Some in Hs, Hc, Ht; try done.
  assert (Hl : ∀ key v, record !! key = Some v → prop (record ∪ a) key = v).
  { intros key v H. apply prop_of_lookup. by apply lookup_union_Some_l. }
  split_and!.
  - unfold prop in *. by rewrite lookup_union_r.
  - split_and!; [exists s | exists c | exists t]; eauto.
  - unfold tripleOf.
    rewrite (Hl _ _ Hs), (Hl _ _ Hc), (Hl _ _ Ht).
    by rewrite (prop_of_lookup _ _ _ Hs), (prop_of_lookup _ _ _ Hc), (prop_of_lookup _ _ _ Ht).
Qed.

(** A created attendance record carries the issued [id] and the attendance
    data of the input. *)
Lemma created_ok record st :
  attendanceFields record →
  let created := (createAttendance clock record st).1 in
  prop created "id" = VNum (idOf st Attendance)
  ∧ attendanceFields created
  ∧ tripleOf Date_parse created = tripleOf Date_parse record.
Proof.
  intros ([s Hs] & [c Hc] & (t & Ht & Hv)). simpl.
  set (created := <["createdAt":=_]> (<["id":=_]> record)).
  assert (Hl : ∀ key, key ≠ "id" → key ≠ "createdAt" → prop created key = prop record key).
  { intros key H1 H2. unfold prop, created.
    by rewrite lookup_insert_ne, lookup_insert_ne. }
  split_and!.
  - unfold prop, created. by rewrite lookup_insert_ne, lookup_insert_eq.
  - split_and!; [exists s | exists c | exists t]; rewrite Hl; done.
  - unfold tripleOf. by rewrite !Hl.
Qed.


Lemma get_Some_elem (m : list (Z * obj)) k a : JSMap.get m k = Some a → (k, a) ∈ m.
Proof.
  induction m as [|[k' a'] m IH]; simpl; [done|].
  destruct (k' =? k) eqn:E.
  - apply Z.eqb_eq in E as ->. intros [= ->]. apply list_elem_of_here.
  - intros H. apply list_elem_of_further. by apply IH.
Qed.

Lemma AttWf_fields st a :
  AttWf Date_parse st → a ∈ valuesE Attendance st → attendanceFields a.
Proof.
  intros (_ & Hok & _) Ha. unfold valuesE, JSMap.values in Ha.
  apply list_elem_of_fmap in Ha as ([k a'] & -> & Hin).
  by destruct (proj1 (Forall_forall _ _) Hok _ Hin) as (_ & ? & _).
Qed.

(** One turn of the loop on a well-formed map and a well-typed input: the
    search finds the stored record with the key of the input, if there is
    one, and the turn merges the input into it under its identifier;
    otherwise the turn creates a record. *)
Lemma bulkStep_spec record results st :
  AttWf Date_parse st → attInputOk record →
  match lookupTriple Date_parse (tripleOf Date_parse record) (mapOf st Attendance) with
  | Some (k, a) =>
      JSMap.get (mapOf st Attendance) k = Some a
      ∧ prop a "id" = VNum k
      ∧ tripleOf Date_parse a = tripleOf Date_parse record
      ∧ bulkStep clock Date_parse record results st
        = (withMap Attendance (JSMap.set (mapOf st Attendance) k (record ∪ a)) st,
           inr (results ++ [record ∪ a]))
  | None =>
      (tripleOf Date_parse record ∉ tripleOf Date_parse <$> valuesE Attendance st)
      ∧ bulkStep clock Date_parse record results st
        = ((createAttendance clock record st).2,
           inr (results ++ [(createAttendance clock record st).1]))
  end.
Proof.
  intros Hwf [Hnoid Hfields]. pose proof Hwf as (Hnd & Hok & Htr).
  unfold bulkStep.
  rewrite (findM_ok _ (λ a, bool_decide (tripleOf Date_parse a = tripleOf Date_parse record))).
  2: { intros a Ha. apply sameTriple_ok; [by eapply AttWf_fields | done]. }
  unfold valuesE. rewrite find_values. fold (lookupTriple Date_parse (tripleOf Date_parse record) (mapOf st Attendance)).
  destruct (lookupTriple _ _ _) as [[k a]|] eqn:Hfind; simpl.
  - apply find_Some_elem in Hfind as [Hin Heq]. simpl in Heq.
    apply bool_decide_eq_true in Heq.
    destruct (proj1 (Forall_forall _ _) Hok _ Hin) as (Hid & _ & _). simpl in Hid.
    assert (Hget : JSMap.get (mapOf st Attendance) k = Some a) by by apply get_of_elem.
    split_and!; try done.
    rewrite Hid. simpl. unfold updateAttendance, updateE. by rewrite Hget.
  - split; [|done].
    intros (a & Heq & Hin)%list_elem_of_fmap.
    unfold valuesE, JSMap.values in Hin.
    apply list_elem_of_fmap in Hin as ([k' a'] & -> & Hin).
    pose proof (find_None_elem _ _ _ Hfind Hin) as Hf. simpl in Hf.
    apply bool_decide_eq_false in Hf. by apply Hf.
Qed.

Lemma AttWf_update st k a record :
  AttWf Date_parse st → attInputOk record →
  JSMap.get (mapOf st Attendance) k = Some a →
  tripleOf Date_parse a = tripleOf Date_parse record →
  AttWf Date_parse
    (withMap Attendance (JSMap.set (mapOf st Attendance) k (record ∪ a)) st).
Proof.
  intros (Hnd & Hok & Htr) Hin Hget Heq.
  pose proof (get_Some_elem _ _ _ Hget) as Hka.
  destruct (proj1 (Forall_forall _ _) Hok _ Hka) as (Hid & _ & Hlt). simpl in Hid, Hlt.
  destruct (merge_ok record a k Hin Hid) as (Hid' & Hf' & Htr').
  unfold AttWf. simpl. rewrite setAt_eq. split_and!.
  - rewrite JSMapFacts.keys_set_present; [done|]. by eapply JSMapFacts.get_Some_key.
  - apply Forall_forall. intros kv [->|Hkv]%elem_of_set; simpl.
    + done.
    + by apply (proj1 (Forall_forall _ _) Hok).
  - rewrite (fmap_values_set _ _ _ a); [done | done | congruence].
Qed.

Lemma AttWf_create st record :
  AttWf Date_parse st → attInputOk record →
  tripleOf Date_parse record ∉ tripleOf Date_parse <$> valuesE Attendance st →
  AttWf Date_parse (createAttendance clock record st).2
  ∧ mapOf (createAttendance clock record st).2 Attendance
    = mapOf st Attendance
      ++ [(idOf st Attendance, (createAttendance clock record st).1)].
Proof.
  intros (Hnd & Hok & Htr) [Hnoid Hfields] Hnew.
  destruct (created_ok record st Hfields) as (Hid & Hf & Heq).
  assert (Hfresh : idOf st Attendance ∉ JSMap.keys (mapOf st Attendance)).
  { intros ([k a] & Hk & Hin)%list_elem_of_fmap. simpl in Hk. subst k.
    destruct (proj1 (Forall_forall _ _) Hok _ Hin) as (_ & _ & Hlt). simpl in Hlt. lia. }
  assert (Hmap : mapOf (createAttendance clock record st).2 Attendance
                 = mapOf st Attendance
                   ++ [(idOf st Attendance, (createAttendance clock record st).1)]).
  { simpl. rewrite setAt_eq. by apply JSMapFacts.set_absent. }
  split; [|done]. unfold AttWf. rewrite Hmap. split_and!.
  - unfold JSMap.keys. rewrite fmap_app. simpl. apply NoDup_app. split_and!.
    + done.
    + intros x Hx ->%list_elem_of_singleton. by apply Hfresh.
    + apply NoDup_singleton.
  - apply Forall_app. split.
    + eapply Forall_impl; [exact Hok|]. intros [k a] (? & ? & ?). simpl in *.
      rewrite setAt_eq. split_and!; [done | done | lia].
    + apply Forall_singleton. simpl. rewrite setAt_eq. split_and!; [done | done | lia].
  - unfold JSMap.values. rewrite !fmap_app. simpl. apply NoDup_app. split_and!.
    + done.
    + intros x Hx ->%list_elem_of_singleton. apply Hnew. by rewrite <- Heq.
    + apply NoDup_singleton.
Qed.


Lemma bulkLoop_app l1 l2 results st :
  bulkLoop clock Date_parse (l1 ++ l2) results st
  = match bulkLoop clock Date_parse l1 results st with
    | (st1, inr results1) => bulkLoop clock Date_parse l2 results1 st1
    | (st1, inl e) => (st1, inl e)
    end.
Proof.
  revert results st. induction l1 as [|r l1 IH]; intros results st; simpl; [done|].
  destruct (bulkStep clock Date_parse r results st) as [st1 [e|results1]]; [done|].
  apply IH.
Qed.

(** A turn of the loop on a well-formed map and a well-typed input completes,
    appends one record to [results] and leaves the map well formed. *)
Lemma bulkStep_ok record st :
  AttWf Date_parse st → attInputOk record →
  ∃ st' out,
    (∀ results, bulkStep clock Date_parse record results st
                = (st', inr (results ++ [out])))
    ∧ AttWf Date_parse st'.
Proof.
  intros Hwf Hin. pose proof (bulkStep_spec record [] st Hwf Hin) as Hspec.
  destruct (lookupTriple _ _ _) as [[k a]|] eqn:Hfind.
  - destruct Hspec as (Hget & Hid & Heq & _).
    eexists _, (record ∪ a). split.
    + intros results. pose proof (bulkStep_spec record results st Hwf Hin) as H.
      rewrite Hfind in H. by destruct H as (_ & _ & _ & ->).
    + by apply AttWf_update.
  - destruct Hspec as (Hnew & _).
    eexists _, _. split.
    + intros results. pose proof (bulkStep_spec record results st Hwf Hin) as H.
      rewrite Hfind in H. by destruct H as (_ & ->).
    + by apply AttWf_create.
Qed.

Lemma bulkLoop_ok records st :
  AttWf Date_parse st → Forall attInputOk records →
  ∃ st' outs,
    (∀ results, bulkLoop clock Date_parse records results st
                = (st', inr (results ++ outs)))
    ∧ length outs = length records
    ∧ AttWf Date_parse st'.
Proof.
  revert st. induction records as [|r records IH]; intros st Hwf Hall.
  - exists st, []. split_and!; [|done|done]. intros results. simpl. by rewrite app_nil_r.
  - apply Forall_cons in Hall as [Hr Hall].
    destruct (bulkStep_ok r st Hwf Hr) as (st1 & out & Hstep & Hwf1).
    destruct (IH st1 Hwf1 Hall) as (st' & outs & Hloop & Hlen & Hwf').
    exists st', (out :: outs). split_and!; [|simpl; by rewrite Hlen|done].
    intros results. simpl. rewrite Hstep, Hloop. by rewrite <- app_assoc.
Qed.


Lemma countTriple_present st tr :
  AttWf Date_parse st →
  tr ∈ tripleOf Date_parse <$> valuesE Attendance st →
  countTriple Date_parse tr st = 1%nat.
Proof.
  intros (_ & _ & Hnd) Hin. unfold countTriple. by apply count_one.
Qed.

Lemma lookupTriple_triples st tr k a :
  lookupTriple Date_parse tr (mapOf st Attendance) = Some (k, a) →
  tr ∈ tripleOf Date_parse <$> valuesE Attendance st.
Proof.
  intros [Hin Heq]%find_Some_elem. simpl in Heq. apply bool_decide_eq_true in Heq.
  apply list_elem_of_fmap. exists a. split; [done|].
  unfold valuesE, JSMap.values. apply list_elem_of_fmap. by exists (k, a).
Qed.

(** C1, amended.  [createAttendance] does not look at the key, so the store
    can hold several records for one student, class and calendar day; the
    bulk upsert keeps the key unique when it is unique to begin with and
    every record is stored under its own [id].  On an attendance map that is
    well formed (distinct keys below the counter, every record carrying the
    key it is stored under as [id], numbers as student and class, valid Date
    objects as dates, at most one record per student, class and calendar
    day) and inputs of type [InsertAttendance] with valid Date dates, the
    call completes, leaves the map well formed and returns one record per
    input.  For every input: when
    a stored record has its key at that turn, the turn merges the input into
    that record in place, under the same identifier, creates nothing and
    returns the merged record; when none has, the turn appends exactly one
    record, made by [createAttendance], and the number of records of that
    class grows by one.  Either way exactly one record has the key after the
    turn. *)
Theorem bulk_upsert_one_record_per_triple (records : list obj) (st : MemStorage) :
  AttWf Date_parse st → Forall attInputOk records →
  ∃ st' results,
    bulkUpdateAttendance clock Date_parse records st = (st', inr results)
    ∧ AttWf Date_parse st'
    ∧ length results = length records
    ∧ ∀ pre record post, records = pre ++ record :: post →
        let before := (bulkUpdateAttendance clock Date_parse pre st).1 in
        let after := (bulkUpdateAttendance clock Date_parse (pre ++ [record]) st).1 in
        let tr := tripleOf Date_parse record in
        AttWf Date_parse before
        ∧ AttWf Date_parse after
        ∧ countTriple Date_parse tr after = 1%nat
        ∧ match lookupTriple Date_parse tr (mapOf before Attendance) with
          | Some (k, a) =>
              JSMap.get (mapOf before Attendance) k = Some a
              ∧ countTriple Date_parse tr before = 1%nat
              ∧ mapOf after Attendance
                = JSMap.set (mapOf before Attendance) k (record ∪ a)
              ∧ JSMap.keys (mapOf after Attendance)
                = JSMap.keys (mapOf before Attendance)
              ∧ idOf after = idOf before
              ∧ results !! length pre = Some (record ∪ a)
              ∧ prop (record ∪ a) "id" = VNum k
              ∧ tripleOf Date_parse (record ∪ a) = tr
          | None =>
              let created := (createAttendance clock record before).1 in
              countTriple Date_parse tr before = 0%nat
              ∧ mapOf after Attendance
                = mapOf before Attendance ++ [(idOf before Attendance, created)]
              ∧ results !! length pre = Some created
              ∧ tripleOf Date_parse created = tr
              ∧ ∀ c, prop record "classId" = VNum c →
                     classCount c after = S (classCount c before)
          end.
Proof.
  intros Hwf Hall.
  destruct (bulkLoop_ok records st Hwf Hall) as (st' & outs & Hloop & Hlen & Hwf').
  exists st', outs. unfold bulkUpdateAttendance.
  split_and!; [by rewrite Hloop | done | done |].
  intros pre record post ->.
  apply Forall_app in Hall as [Hpre Hall]. apply Forall_cons in Hall as [Hrec Hpost].
  destruct (bulkLoop_ok pre st Hwf Hpre) as (before & outsPre & HloopPre & HlenPre & HwfB).
  destruct (bulkStep_ok record before HwfB Hrec) as (after & out & Hstep & HwfA).
  destruct (bulkLoop_ok post after HwfA Hpost) as (st2 & outsPost & HloopPost & _ & _).
  assert (Hafter : bulkLoop clock Date_parse (pre ++ [record]) [] st
                   = (after, inr (outsPre ++ [out]))).
  { rewrite bulkLoop_app, HloopPre. simpl. by rewrite Hstep. }
  assert (Houts : outs = outsPre ++ out :: outsPost).
  { pose proof (Hloop []) as H. rewrite bulkLoop_app, HloopPre in H. simpl in H.
    rewrite Hstep, HloopPost in H. simpl in H. injection H as _ H.
    rewrite <- H. by rewrite <- app_assoc. }
  assert (Hout : outs !! length pre = Some out).
  { rewrite Houts, <- HlenPre. by rewrite list_lookup_middle. }
  rewrite HloopPre, Hafter. cbn [fst snd].
  pose proof (bulkStep_spec record [] before HwfB Hrec) as Hspec.
  rewrite Hstep in Hspec.
  destruct (lookupTriple Date_parse (tripleOf Date_parse record) (mapOf before Attendance))
    as [[k a]|] eqn:Hfind.
  - destruct Hspec as (Hget & Hid & Heq & Hres).
    injection Hres as -> ->.
    destruct (merge_ok record a k Hrec Hid) as (Hid' & _ & Htr').
    assert (Hkeys : JSMap.keys (JSMap.set (mapOf before Attendance) k (record ∪ a))
                    = JSMap.keys (mapOf before Attendance)).
    { apply JSMapFacts.keys_set_present. by eapply JSMapFacts.get_Some_key. }
    split_and!; try done.
    + apply countTriple_present; [done|].
      unfold valuesE. simpl. rewrite setAt_eq.
      rewrite (fmap_values_set _ _ _ a); [|done|congruence].
      by eapply lookupTriple_triples.
    + apply countTriple_present; [done|]. by eapply lookupTriple_triples.
  - destruct Hspec as (Hnew & Hres).
    assert (Hst : after = (createAttendance clock record before).2)
      by (injection Hres; intros _ H; exact H).
    assert (Ho : out = (createAttendance clock record before).1)
      by (injection Hres; intros H _; exact H).
    destruct (AttWf_create before record HwfB Hrec Hnew) as [_ Hmap].
    destruct Hrec as [_ Hfields].
    destruct (created_ok record before Hfields) as (_ & _ & Htr).
    rewrite <- Hst in Hmap. rewrite <- Ho in Hmap, Htr.
    assert (Hvals : valuesE Attendance after = valuesE Attendance before ++ [out]).
    { unfold valuesE, JSMap.values. rewrite Hmap. by rewrite fmap_app. }
    rewrite <- Ho.
    split_and!; try done.
    + apply countTriple_present; [done|]. rewrite Hvals, fmap_app.
      apply elem_of_app. right. simpl. rewrite Htr. apply list_elem_of_here.
    + unfold countTriple. by apply count_zero.
    + intros c Hc. unfold classCount. rewrite Hvals, List.filter_app, length_app.
      assert (Hcls : prop out "classId" = VNum c).
      { unfold tripleOf in Htr. congruence. }
      simpl List.filter. rewrite Hcls. simpl. rewrite Z.eqb_refl. simpl. lia.
Qed.

End Upsert.

Lemma AttWf_new clock Date_parse : AttWf Date_parse (newMemStorage clock Date_parse).
Proof.
  unfold AttWf, newMemStorage, createSchoolYear, createUser. simpl.
  split_and!; [apply NoDup_nil_2 | apply Forall_nil_2 | apply NoDup_nil_2].
Qed.

Lemma datedAttendance_ok studentId classId t present :
  Z.abs t <= maxTime → attInputOk (datedAttendance studentId classId t present).
Proof.
  intros Ht. unfold attInputOk, attendanceFields, datedAttendance, prop.
  split_and!; [done | by exists studentId | by exists classId | by exists t].
Qed.

Lemma storageWithDatedAttendance_wf : AttWf isoParse storageWithDatedAttendance.
Proof.
  apply AttWf_create.
  - apply AttWf_new.
  - apply datedAttendance_ok. vm_compute. discriminate.
  - unfold valuesE. simpl. apply not_elem_of_nil.
Qed.

(** C1 on the storage with one Date-valued record and two inputs. *)
Lemma bulk_upsert_one_record_per_triple_witness :
  AttWf isoParse storageWithDatedAttendance
  ∧ Forall attInputOk upsertInputs
  ∧ ∃ st' results,
      bulkUpdateAttendance sampleClock isoParse upsertInputs storageWithDatedAttendance
      = (st', inr results)
      ∧ AttWf isoParse st'
      ∧ length results = length upsertInputs.
Proof.
  assert (Hin : Forall attInputOk upsertInputs).
  { repeat constructor; apply datedAttendance_ok; vm_compute; discriminate. }
  split; [exact storageWithDatedAttendance_wf|]. split; [exact Hin|].
  destruct (bulk_upsert_one_record_per_triple sampleClock isoParse upsertInputs
              storageWithDatedAttendance storageWithDatedAttendance_wf Hin)
    as (st' & results & H1 & H2 & H3 & _).
  exists st', results. split; [exact H1|]. split; [exact H2 | exact H3].
Defined.

(** The spec's two scenarios on that storage: the input for the stored key
    (student 1, class 2, 4 March 2024) is merged into record 1, which becomes
    present; the input for a new key creates record 2. *)
Lemma bulk_upsert_scenarios :
  (λ a : obj, (a !! "id", a !! "studentId", a !! "present"))
    <$> valuesE Attendance
          (bulkUpdateAttendance sampleClock isoParse upsertInputs
             storageWithDatedAttendance).1
  = [(Some (VNum 1), Some (VNum 1), Some (VBool true));
     (Some (VNum 2), Some (VNum 3), Some (VBool true))].
Proof. vm_compute. reflexivity. Qed.

(** C1, counterexample.  Two [createAttendance] calls with the same student,
    class and day leave two records with one key; a bulk upsert for that key
    completes and still leaves two. *)
Lemma bulk_keeps_existing_duplicates :
  countTriple isoParse (tripleOf isoParse (datedAttendance 1 2 1709553600000 true))
    storageWithDuplicate = 2%nat
  ∧ match (bulkUpdateAttendance sampleClock isoParse
             [datedAttendance 1 2 1709553600000 true] storageWithDuplicate).2 with
    | inr results => length results = 1%nat
    | inl _ => False
    end
  ∧ countTriple isoParse (tripleOf isoParse (datedAttendance 1 2 1709553600000 true))
      (bulkUpdateAttendance sampleClock isoParse
         [datedAttendance 1 2 1709553600000 true] storageWithDuplicate).1
    = 2%nat.
Proof. split_and!; vm_compute; reflexivity. Qed.

(** Why C1 asks for every record to be stored under its own [id]: the
    upsert updates under the [id] property of the record it finds.  In the
    storage whose record under key 1 has 2 as [id], no two records have the
    same student, class and day; the input for the day of the first record
    is merged into the second, and two records have that day afterwards. *)
Lemma bulk_upsert_updates_under_id_property :
  countTriple isoParse (tripleOf isoParse (datedAttendance 1 2 1709553600000 true))
    storageWithForeignId = 1%nat
  ∧ countTriple isoParse (tripleOf isoParse (datedAttendance 1 2 1709596800000 true))
      storageWithForeignId = 1%nat
  ∧ countTriple isoParse (tripleOf isoParse (datedAttendance 1 2 1709553600000 true))
      (bulkUpdateAttendance sampleClock isoParse
         [datedAttendance 1 2 1709553600000 true] storageWithForeignId).1
    = 2%nat.
Proof. split_and!; vm_compute; reflexivity. Qed.

(** ** The search of the bulk upsert on a stored string date *)

Section StoredStringDate.

Variable clock : nat → Z.
Variable Date_parse : string → option Z.

Lemma findM_throws {A : Type} (f : A → exn + bool) (e : exn) before x after :
  Forall (λ b, f b = inr false) before → f x = inl e →
  findM f (before ++ x :: after) = inl e.
Proof.
  intros Hb Hx. induction Hb as [|b before Hfb _ IH]; simpl.
  - by rewrite Hx.
  - by rewrite Hfb.
Qed.

(** C3.  The search callback of [bulkUpdateAttendance] compares by calendar
    day when the stored date is a valid Date object, whatever the time of day
    and whether the date of the input is a Date or a string.  When the stored
    record carries a date that is not a Date object (a string, as the request
    layer stores it), the callback throws a TypeError once student and class
    agree; so when the first stored record with the student and class of an
    input is such a record, the call ends with that TypeError and writes
    nothing.  The day filter of [getAttendance] never throws a TypeError. *)
Theorem bulk_throws_on_stored_string_date (record : obj) :
  (∀ a t day,
     strictEq (prop a "studentId") (prop record "studentId") = true →
     strictEq (prop a "classId") (prop record "classId") = true →
     prop a "date" = VDate (Some t) → Z.abs t <= maxTime →
     calendarDay Date_parse (prop record "date") = Some day →
     sameTriple Date_parse record a = inr (bool_decide (utcDay t = day)))
  ∧ (∀ a,
       strictEq (prop a "studentId") (prop record "studentId") = true →
       strictEq (prop a "classId") (prop record "classId") = true →
       instanceofDate (prop a "date") = false →
       sameTriple Date_parse record a = inl TypeError)
  ∧ (∀ rest st before a after,
       valuesE Attendance st = before ++ a :: after →
       Forall (λ b, strictEq (prop b "studentId") (prop record "studentId")
                    && strictEq (prop b "classId") (prop record "classId") = false)
         before →
       strictEq (prop a "studentId") (prop record "studentId") = true →
       strictEq (prop a "classId") (prop record "classId") = true →
       instanceofDate (prop a "date") = false →
       bulkUpdateAttendance clock Date_parse (record :: rest) st
       = (st, inl TypeError))
  ∧ (∀ a dateString, onDay Date_parse dateString a ≠ inl TypeError).
Proof.
  assert (Hthrow : ∀ a,
            strictEq (prop a "studentId") (prop record "studentId") = true →
            strictEq (prop a "classId") (prop record "classId") = true →
            instanceofDate (prop a "date") = false →
            sameTriple Date_parse record a = inl TypeError).
  { intros a Hs Hc Hdate. unfold sameTriple. rewrite Hs, Hc.
    by destruct (prop a "date"). }
  split_and!; [|done| |].
  - intros a t day Hs Hc Hdate Ht Hday. unfold sameTriple. rewrite Hs, Hc, Hdate.
    unfold calendarDay in Hday.
    destruct (newDate Date_parse (prop record "date") ≫= TimeClip) as [t'|] eqn:Et';
      [|done].
    injection Hday as <-. simpl toISOString. rewrite !Date_toISOString_day, Et'.
    simpl. unfold TimeClip. apply Z.leb_le in Ht as Ht1. rewrite Ht1. simpl.
    rewrite isoDate_eqb; [done | done | by eapply bind_TimeClip_Some].
  - intros rest st before a after Hvals Hbefore Hs Hc Hdate.
    unfold bulkUpdateAttendance. simpl. unfold bulkStep. rewrite Hvals.
    rewrite (findM_throws _ TypeError); [done| |by apply Hthrow].
    eapply Forall_impl; [exact Hbefore|]. intros b. unfold sameTriple.
    destruct (strictEq (prop b "studentId") (prop record "studentId")); [|done].
    destruct (strictEq (prop b "classId") (prop record "classId")); done.
  - intros a dateString. rewrite onDay_spec.
    by destruct (newDate Date_parse (prop a "date") ≫= TimeClip).
Qed.

End StoredStringDate.

(** C3 on the storage whose record holds the date string of the request. *)
Lemma bulk_throws_on_stored_string_date_witness :
  valuesE Attendance storageWithAttendance = [] ++ storedAttendance :: []
  ∧ instanceofDate (prop storedAttendance "date") = false
  ∧ bulkUpdateAttendance sampleClock isoParse
      [attendanceInput 1 2 "2024-03-04" true] storageWithAttendance
    = (storageWithAttendance, inl TypeError).
Proof.
  assert (Hv : valuesE Attendance storageWithAttendance = [] ++ storedAttendance :: [])
    by (vm_compute; reflexivity).
  split; [exact Hv|]. split; [reflexivity|].
  destruct (bulk_throws_on_stored_string_date sampleClock isoParse
              (attendanceInput 1 2 "2024-03-04" true)) as (_ & _ & H & _).
  exact (H [] storageWithAttendance [] storedAttendance [] Hv
           (Forall_nil_2 _) eq_refl eq_refl eq_refl).
Defined.

(** The defect on a fresh storage object: saving the attendance of student 1
    in class 2 for 4 March 2024 through the bulk upsert creates the record,
    with the date string of the request; saving it a second time throws. *)
Lemma bulk_upsert_twice_throws :
  let first :=
    bulkUpdateAttendance sampleClock isoParse
      [attendanceInput 1 2 "2024-03-04" false] sampleStorage in
  let second :=
    bulkUpdateAttendance sampleClock isoParse
      [attendanceInput 1 2 "2024-03-04" true] first.1 in
  first.2 = inr [storedAttendance] ∧ second.2 = inl TypeError
  ∧ valuesE Attendance second.1 = [storedAttendance].
Proof. split_and!; vm_compute; reflexivity. Qed.

(** * Further properties of the storage, the routes and the pages *)

(** * Further properties of the storage layer *)

(** ** Storages reached from a fresh one *)

Lemma keys_set_absent (m : list (Z * obj)) k v :
  k ∉ JSMap.keys m → JSMap.keys (JSMap.set m k v) = JSMap.keys m ++ [k].
Proof.
  intros H. rewrite JSMapFacts.set_absent by done.
  unfold JSMap.keys. by rewrite fmap_app.
Qed.

Lemma keys_delete_filter (m : list (Z * obj)) k :
  JSMap.keys (JSMap.delete m k) = List.filter (λ k', negb (k' =? k)) (JSMap.keys m).
Proof.
  unfold JSMap.keys, JSMap.delete. induction m as [|[k' v] m IH]; simpl; [done|].
  destruct (k' =? k); simpl; by rewrite IH.
Qed.

Lemma NoDup_filter_bool {A : Type} (f : A → bool) (l : list A) :
  NoDup l → NoDup (List.filter f l).
Proof.
  induction 1 as [|x l Hx Hnd IH]; simpl; [constructor|].
  destruct (f x); [|done]. constructor; [|done].
  intros Hin. apply Hx. apply list_elem_of_In in Hin.
  apply filter_In in Hin as [Hin _]. by apply list_elem_of_In.
Qed.

Lemma Forall_filter_bool {A : Type} (P : A → Prop) (f : A → bool) (l : list A) :
  Forall P l → Forall P (List.filter f l).
Proof.
  induction 1 as [|x l Hx Hl IH]; simpl; [constructor|].
  destruct (f x); [by constructor | done].
Qed.

Section Reached.

Variable clock : nat → Z.
Variable Date_parse : string → option Z.

Lemma keysBelow_fresh st e : keysBelow st → idOf st e ∉ JSMap.keys (mapOf st e).
Proof.
  intros H Hin. destruct (H e) as [_ Hb].
  pose proof (proj1 (Forall_forall _ _) Hb _ Hin) as Hlt. simpl in Hlt. lia.
Qed.

Lemma keysBelow_create e input st :
  keysBelow st → keysBelow (createE clock e input st).2.
Proof.
  intros H e'. destruct (H e') as [Hnd Hb]. simpl. unfold setAt.
  destruct (decide (e' = e)) as [->|Hne]; [|done].
  rewrite keys_set_absent by by apply keysBelow_fresh. split.
  - apply NoDup_app. split_and!; [done| |apply NoDup_singleton].
    intros k Hk ->%list_elem_of_singleton. by eapply keysBelow_fresh.
  - apply Forall_app. split.
    + eapply Forall_impl; [exact Hb|]. simpl. intros; lia.
    + apply Forall_singleton. lia.
Qed.

Lemma keysBelow_update e id partial st :
  keysBelow st → keysBelow (updateE e id partial st).2.
Proof.
  intros H e'. unfold updateE.
  destruct (JSMap.get (mapOf st e) id) as [r|] eqn:Hget; simpl; [|apply H].
  unfold setAt. destruct (decide (e' = e)) as [->|Hne]; [|apply H].
  rewrite JSMapFacts.keys_set_present by by eapply JSMapFacts.get_Some_key.
  apply H.
Qed.

Lemma keysBelow_delete e id st :
  keysBelow st → keysBelow (deleteE e id st).2.
Proof.
  intros H e'. destruct (H e') as [Hnd Hb]. simpl. unfold setAt.
  destruct (decide (e' = e)) as [->|Hne]; [|done].
  rewrite keys_delete_filter. split.
  - by apply NoDup_filter_bool.
  - by apply Forall_filter_bool.
Qed.

Lemma keysBelow_run calls :
  keysBelow (run clock Date_parse calls (newMemStorage clock Date_parse)).
Proof.
  apply run_preserves.
  - intros. by apply keysBelow_create.
  - intros. by apply keysBelow_update.
  - intros. by apply keysBelow_delete.
  - unfold newMemStorage, createSchoolYear, createUser.
    do 2 apply keysBelow_create. intros e. split; constructor.
Qed.

Lemma createE_appends e input st :
  keysBelow st →
  valuesE e (createE clock e input st).2
  = valuesE e st ++ [(createE clock e input st).1].
Proof.
  intros Hkb. unfold valuesE. simpl. rewrite setAt_eq.
  rewrite JSMapFacts.set_absent by by apply keysBelow_fresh.
  unfold JSMap.values. by rewrite fmap_app.
Qed.

End Reached.

(** ** Creating, reading, updating and deleting *)

Lemma set_set_eq (m : list (Z * obj)) k v1 v2 :
  JSMap.set (JSMap.set m k v1) k v2 = JSMap.set m k v2.
Proof.
  induction m as [|[k' v'] m IH]; simpl.
  - by rewrite Z.eqb_refl.
  - destruct (k' =? k) eqn:E; simpl; [by rewrite Z.eqb_refl | by rewrite E, IH].
Qed.

Lemma set_get_id (m : list (Z * obj)) k v :
  JSMap.get m k = Some v → JSMap.set m k v = m.
Proof.
  induction m as [|[k' v'] m IH]; simpl; [done|].
  destruct (k' =? k) eqn:E.
  - apply Z.eqb_eq in E as ->. by intros [= ->].
  - intros H. by rewrite IH.
Qed.

Lemma values_delete_split (m : list (Z * obj)) k v :
  NoDup (JSMap.keys m) → JSMap.get m k = Some v →
  ∃ l1 l2, JSMap.values m = l1 ++ v :: l2
           ∧ JSMap.values (JSMap.delete m k) = l1 ++ l2.
Proof.
  unfold JSMap.keys, JSMap.values, JSMap.delete.
  induction m as [|[k' v'] m IH]; simpl; [done|].
  intros [Hk' Hnd]%NoDup_cons. destruct (k' =? k) eqn:E; simpl.
  - apply Z.eqb_eq in E as ->. intros [= ->]. exists [], (m.*2). split; [done|].
    simpl. f_equal. clear IH Hnd. induction m as [|[k0 v0] m IH]; simpl; [done|].
    simpl in Hk'. apply not_elem_of_cons in Hk' as [Hne Hk'].
    destruct (k0 =? k) eqn:E0; [apply Z.eqb_eq in E0; congruence|].
    simpl. by rewrite IH.
  - intros Hget. destruct (IH Hnd Hget) as (l1 & l2 & H1 & H2).
    exists (v' :: l1), l2. simpl. by rewrite H1, H2.
Qed.

Section Crud.

Variable clock : nat → Z.
Variable Date_parse : string → option Z.

(** X1.  A created record can be read back under the identifier it was
    given.  It carries the counter as [id] and the clock reading as creation
    timestamp whatever the input says about them, and the input's other
    properties unchanged.  Only the counter and the map of that entity
    change. *)
Theorem create_then_get (e : entity) (input : obj) (st : MemStorage) :
  let res := createE clock e input st in
  getE e (idOf st e) res.2 = Some res.1
  ∧ res.1 !! "id" = Some (VNum (idOf st e))
  ∧ res.1 !! stampKey e = Some (VDate (Some (clock (clockReads st))))
  ∧ (∀ k, k ≠ "id" → k ≠ stampKey e → res.1 !! k = input !! k)
  ∧ idOf res.2 e = idOf st e + 1
  ∧ (∀ e', e' ≠ e → idOf res.2 e' = idOf st e' ∧ mapOf res.2 e' = mapOf st e').
Proof.
  simpl. split_and!.
  - unfold getE. simpl. rewrite setAt_eq. apply JSMapFacts.get_set_eq.
  - apply created_id.
  - apply lookup_insert_eq.
  - intros k H1 H2. by rewrite lookup_insert_ne, lookup_insert_ne.
  - apply setAt_eq.
  - intros e' Hne. by rewrite !setAt_ne.
Qed.

(** X2.  In a storage reached from a fresh one, a create appends its record
    to the listing of the entity and leaves every record that could be read
    before readable and unchanged. *)
Theorem create_appends (calls : list call) (e : entity) (input : obj) :
  let st := run clock Date_parse calls (newMemStorage clock Date_parse) in
  let res := createE clock e input st in
  valuesE e res.2 = valuesE e st ++ [res.1]
  ∧ (∀ id r, getE e id st = Some r → getE e id res.2 = Some r)
  ∧ getE e (idOf st e) st = None.
Proof.
  intros st res.
  pose proof (keysBelow_run clock Date_parse calls) as Hkb. fold st in Hkb.
  pose proof (keysBelow_fresh st e Hkb) as Hfresh.
  split_and!.
  - by apply createE_appends.
  - intros id r Hget. unfold getE in *. simpl. rewrite setAt_eq.
    rewrite JSMapFacts.get_set_ne; [done|].
    intros <-. apply Hfresh. by eapply JSMapFacts.get_Some_key.
  - by apply JSMapFacts.get_None_key.
Qed.

(** X3.  Updates compose: updating a stored record with [p1] and then with
    [p2] returns and stores what one update with [{ ...p1, ...p2 }] does.
    An update keeps the keys of the map in their order, and an update with an
    empty payload returns the record and leaves the map as it is. *)
Theorem update_compose (e : entity) (id : Z) (p1 p2 : obj) (st : MemStorage) (r : obj) :
  getE e id st = Some r →
  let once := updateE e id p1 st in
  let twice := updateE e id p2 once.2 in
  let merged := updateE e id (p2 ∪ p1) st in
  twice.1 = merged.1
  ∧ twice.1 = Some (p2 ∪ (p1 ∪ r))
  ∧ (∀ e', mapOf twice.2 e' = mapOf merged.2 e')
  ∧ JSMap.keys (mapOf once.2 e) = JSMap.keys (mapOf st e)
  ∧ (updateE e id ∅ st).1 = Some r
  ∧ (∀ e', mapOf (updateE e id ∅ st).2 e' = mapOf st e').
Proof.
  intros Hr. unfold getE in Hr. simpl. unfold updateE. rewrite Hr. simpl.
  rewrite setAt_eq, JSMapFacts.get_set_eq. simpl.
  rewrite (left_id_L ∅ (∪) r).
  split_and!.
  - by rewrite (assoc_L (∪)).
  - done.
  - intros e'. unfold setAt. case_decide; [|done].
    by rewrite set_set_eq, (assoc_L (∪)).
  - apply JSMapFacts.keys_set_present. by eapply JSMapFacts.get_Some_key.
  - done.
  - intros e'. unfold setAt. case_decide; [|done]. subst. by apply set_get_id.
Qed.

(** X4.  In a storage reached from a fresh one, deleting a stored record
    takes exactly that record out of the listing and keeps the others in
    their order; the counter and the identifiers issued stay as they are, so
    the identifier is not given out again. *)
Theorem delete_removes_one (calls : list call) (e : entity) (id : Z) (r : obj) :
  let st := run clock Date_parse calls (newMemStorage clock Date_parse) in
  getE e id st = Some r →
  let res := deleteE e id st in
  (∃ l1 l2, valuesE e st = l1 ++ r :: l2 ∧ valuesE e res.2 = l1 ++ l2)
  ∧ length (valuesE e st) = S (length (valuesE e res.2))
  ∧ idOf res.2 = idOf st
  ∧ issued res.2 = issued st
  ∧ id < idOf res.2 e.
Proof.
  intros st Hr res.
  pose proof (keysBelow_run clock Date_parse calls) as Hkb. fold st in Hkb.
  destruct (Hkb e) as [Hnd Hb]. unfold getE in Hr.
  destruct (values_delete_split _ _ _ Hnd Hr) as (l1 & l2 & H1 & H2).
  assert (Hv : valuesE e res.2 = l1 ++ l2).
  { unfold valuesE. simpl. by rewrite setAt_eq. }
  split_and!.
  - exists l1, l2. by split.
  - unfold valuesE in *. rewrite Hv, H1, !length_app. simpl. lia.
  - done.
  - done.
  - simpl. apply (proj1 (Forall_forall _ _) Hb). by eapply JSMapFacts.get_Some_key.
Qed.

End Crud.

(** ** Users by name *)

Lemma find_app_bool {A : Type} (f : A → bool) (l1 l2 : list A) :
  List.find f (l1 ++ l2)
  = match List.find f l1 with Some x => Some x | None => List.find f l2 end.
Proof.
  induction l1 as [|x l1 IH]; simpl; [done|]. by destruct (f x).
Qed.

Section UsersByName.

Variable clock : nat → Z.
Variable Date_parse : string → option Z.

(** X5.  [createUser] does not look at the user name.  In a storage reached
    from a fresh one, a user that [getUserByUsername] finds is still the one
    found after any further [createUser], also one with the same name: the
    earliest user of a name hides the later ones.  When no user has the name,
    the lookup after [createUser] finds the created user exactly when the
    input carries that name. *)
Theorem getUserByUsername_first_wins (calls : list call) (username : string) (input : obj) :
  let st := run clock Date_parse calls (newMemStorage clock Date_parse) in
  let res := createUser clock input st in
  (∀ r, getUserByUsername username st = Some r →
        getUserByUsername username res.2 = Some r)
  ∧ (getUserByUsername username st = None →
     getUserByUsername username res.2
     = if decide (input !! "username" = Some (VStr username)) then Some res.1 else None).
Proof.
  intros st res.
  pose proof (createE_appends clock User input st
                (keysBelow_run clock Date_parse calls)) as Hv.
  fold (createUser clock input st) in Hv. fold res in Hv.
  unfold getUserByUsername. rewrite Hv, find_app_bool. split.
  - by intros r ->.
  - intros ->. cbn [List.find].
    assert (Hu : prop res.1 "username" = prop input "username").
    { unfold prop. subst res. simpl. by rewrite lookup_insert_ne, lookup_insert_ne. }
    rewrite Hu. unfold prop. case_decide as Hd.
    + rewrite Hd. simpl. by rewrite String.eqb_refl.
    + destruct (input !! "username") as [[| | | | |s|]|] eqn:E; simpl; try done.
      destruct (String.eqb_spec s username); [congruence | done].
Qed.

End UsersByName.

(** ** Listings after a create *)

Lemma filterIf_app key arg (l1 l2 : list obj) :
  filterIf key arg (l1 ++ l2) = filterIf key arg l1 ++ filterIf key arg l2.
Proof. by rewrite !filterIf_holds, List.filter_app. Qed.

Lemma filterIf_singleton key arg (x : obj) :
  filterIf key arg [x] = if holds key arg x then [x] else [].
Proof. rewrite filterIf_holds. simpl. by destruct (holds key arg x). Qed.

Lemma filterIf_nil key arg : filterIf key arg [] = [].
Proof. by rewrite filterIf_holds. Qed.

Lemma filterIf_if key arg (b : bool) (x : obj) :
  filterIf key arg (if b then [x] else [])
  = if b && holds key arg x then [x] else [].
Proof.
  destruct b; [apply filterIf_singleton | apply filterIf_nil].
Qed.

Section ListingAfterCreate.

Variable clock : nat → Z.
Variable Date_parse : string → option Z.

Lemma holds_created e key arg input st :
  key ≠ "id" → key ≠ stampKey e →
  holds key arg (createE clock e input st).1 = holds key arg input.
Proof.
  intros H1 H2. unfold holds, prop. simpl.
  by rewrite lookup_insert_ne, lookup_insert_ne.
Qed.

(** X6.  In a storage reached from a fresh one, a filtered listing after a
    create is the same listing before it, followed by the created record when
    the input satisfies the filters and by nothing otherwise. *)
Theorem listing_after_create (calls : list call) (input : obj) :
  let st := run clock Date_parse calls (newMemStorage clock Date_parse) in
  (∀ schoolYearId,
     getCourses schoolYearId (createCourse clock input st).2
     = getCourses schoolYearId st
       ++ (if holds "schoolYearId" schoolYearId input
           then [(createCourse clock input st).1] else []))
  ∧ (∀ courseId,
       getClasses courseId (createClass clock input st).2
       = getClasses courseId st
         ++ (if holds "courseId" courseId input
             then [(createClass clock input st).1] else []))
  ∧ (∀ studentId classId,
       getEnrollments studentId classId (createEnrollment clock input st).2
       = getEnrollments studentId classId st
         ++ (if holds "studentId" studentId input && holds "classId" classId input
             then [(createEnrollment clock input st).1] else []))
  ∧ (∀ studentId courseId month year,
       getPayments studentId courseId month year (createPayment clock input st).2
       = getPayments studentId courseId month year st
         ++ (if holds "studentId" studentId input && holds "courseId" courseId input
                && holds "month" month input && holds "year" year input
             then [(createPayment clock input st).1] else [])).
Proof.
  intros st.
  assert (Hv : ∀ e, valuesE e (createE clock e input st).2
                    = valuesE e st ++ [(createE clock e input st).1]).
  { intros e. apply createE_appends, keysBelow_run. }
  unfold getCourses, getClasses, getEnrollments, getPayments,
    createCourse, createClass, createEnrollment, createPayment.
  split_and!; intros; rewrite Hv, !filterIf_app; f_equal;
    rewrite filterIf_singleton, ?filterIf_if, !holds_created by done; done.
Qed.

End ListingAfterCreate.

(** ** More on the bulk attendance upsert *)

Lemma strictEq_true_eq a b : strictEq a b = true → a = b.
Proof.
  destruct a, b; simpl; try discriminate; try done.
  - intros H. f_equal. by apply Bool.eqb_prop.
  - intros H%Z.eqb_eq. by subst.
  - intros H%String.eqb_eq. by subst.
Qed.

Section BulkMore.

Variable clock : nat → Z.
Variable Date_parse : string → option Z.

Lemma bulkStep_results record results st :
  bulkStep clock Date_parse record results st
  = ((bulkStep clock Date_parse record [] st).1,
     match (bulkStep clock Date_parse record [] st).2 with
     | inl e => inl e
     | inr out => inr (results ++ out)
     end).
Proof.
  unfold bulkStep. destruct (findM _ _) as [e|[existing|]]; simpl; [done| |done].
  destruct (updateAttendanceAt _ _ _) as [[u|] st']; simpl; [done|].
  by rewrite app_nil_r.
Qed.

Lemma bulkLoop_results records results st :
  bulkLoop clock Date_parse records results st
  = ((bulkLoop clock Date_parse records [] st).1,
     match (bulkLoop clock Date_parse records [] st).2 with
     | inl e => inl e
     | inr out => inr (results ++ out)
     end).
Proof.
  revert results st. induction records as [|r records IH]; intros results st; simpl.
  - by rewrite app_nil_r.
  - rewrite (bulkStep_results r results).
    destruct (bulkStep clock Date_parse r [] st) as [st1 [e|out]]; simpl; [done|].
    rewrite (IH (results ++ out)), (IH out).
    destruct (bulkLoop clock Date_parse records [] st1) as [st2 [e|out2]]; simpl; [done|].
    by rewrite app_assoc.
Qed.

(** X7.  One call of the bulk upsert on a concatenation does what two calls
    in a row do.  When the first part throws, the second is never looked at;
    when the second part throws, everything written up to that point stays
    written: nothing is rolled back. *)
Theorem bulk_in_two_calls (l1 l2 : list obj) (st : MemStorage) :
  let first := bulkUpdateAttendance clock Date_parse l1 st in
  let second := bulkUpdateAttendance clock Date_parse l2 first.1 in
  bulkUpdateAttendance clock Date_parse (l1 ++ l2) st
  = match first.2 with
    | inl e => (first.1, inl e)
    | inr results1 =>
        (second.1,
         match second.2 with
         | inl e => inl e
         | inr results2 => inr (results1 ++ results2)
         end)
    end.
Proof.
  unfold bulkUpdateAttendance. simpl. rewrite bulkLoop_app.
  destruct (bulkLoop clock Date_parse l1 [] st) as [st1 [e|results1]]; simpl; [done|].
  apply bulkLoop_results.
Qed.

Lemma findM_none {A : Type} (f : A → exn + bool) (l : list A) :
  Forall (λ x, f x = inr false) l → findM f l = inr None.
Proof.
  induction 1 as [|x l Hx _ IH]; simpl; [done|]. by rewrite Hx.
Qed.

Lemma sameTriple_other_pair record a :
  strictEq (prop a "studentId") (prop record "studentId")
  && strictEq (prop a "classId") (prop record "classId") = false →
  sameTriple Date_parse record a = inr false.
Proof.
  unfold sameTriple.
  destruct (strictEq (prop a "studentId") (prop record "studentId")); [|done].
  by destruct (strictEq (prop a "classId") (prop record "classId")).
Qed.

Lemma bulkStep_creates_unseen record results st :
  Forall (λ a, strictEq (prop a "studentId") (prop record "studentId")
               && strictEq (prop a "classId") (prop record "classId") = false)
    (valuesE Attendance st) →
  bulkStep clock Date_parse record results st
  = ((createAttendance clock record st).2,
     inr (results ++ [(createAttendance clock record st).1])).
Proof.
  intros Hnone. unfold bulkStep. rewrite findM_none; [done|].
  eapply Forall_impl; [exact Hnone|]. intros a. apply sameTriple_other_pair.
Qed.

(** X8.  An input whose student and class together match no stored record is
    created without its date being looked at: whatever the [date] property
    holds, also a string that denotes no date or nothing at all, the call
    completes and stores the input as it is. *)
Theorem bulk_creates_unseen_pair (record : obj) (st : MemStorage) :
  Forall (λ a, strictEq (prop a "studentId") (prop record "studentId")
               && strictEq (prop a "classId") (prop record "classId") = false)
    (valuesE Attendance st) →
  bulkUpdateAttendance clock Date_parse [record] st
  = ((createAttendance clock record st).2,
     inr [(createAttendance clock record st).1]).
Proof.
  intros Hnone. unfold bulkUpdateAttendance. cbn [bulkLoop].
  by rewrite bulkStep_creates_unseen.
Qed.

Lemma bulkStep_on_created r1 r2 results st :
  keysBelow st →
  Forall (λ a, strictEq (prop a "studentId") (prop r1 "studentId")
               && strictEq (prop a "classId") (prop r1 "classId") = false)
    (valuesE Attendance st) →
  strictEq (prop r1 "studentId") (prop r2 "studentId") = true →
  strictEq (prop r1 "classId") (prop r2 "classId") = true →
  instanceofDate (prop r1 "date") = false →
  bulkStep clock Date_parse r2 results (createAttendance clock r1 st).2
  = ((createAttendance clock r1 st).2, inl TypeError).
Proof.
  intros Hkb Hnone Hs Hc Hdate.
  pose proof (createE_appends clock Attendance r1 st Hkb) as Hv.
  fold (createAttendance clock r1 st) in Hv.
  apply strictEq_true_eq in Hs as Hs'. apply strictEq_true_eq in Hc as Hc'.
  assert (Hp : ∀ key, key ≠ "id" → key ≠ "createdAt" →
                      prop (createAttendance clock r1 st).1 key = prop r1 key).
  { intros key K1 K2. unfold prop. simpl.
    by rewrite lookup_insert_ne, lookup_insert_ne. }
  unfold bulkStep. rewrite Hv.
  rewrite (findM_throws _ TypeError); [done| |].
  - eapply Forall_impl; [exact Hnone|]. intros a Ha.
    apply sameTriple_other_pair. by rewrite <- Hs', <- Hc'.
  - unfold sameTriple. rewrite !Hp by done. rewrite Hs, Hc.
    by destruct (prop r1 "date").
Qed.

(** X9.  With inputs as the request layer passes them, whose date is a
    string, one call cannot take two records of the same student and class.
    In a storage reached from a fresh one where no record has that student
    and class, the first of two such inputs is created and the second makes
    the search throw a TypeError on the record just created; the call ends
    there with the first record stored. *)
Theorem bulk_same_student_twice_throws (calls : list call) (r1 r2 : obj) (rest : list obj) :
  let st := run clock Date_parse calls (newMemStorage clock Date_parse) in
  Forall (λ a, strictEq (prop a "studentId") (prop r1 "studentId")
               && strictEq (prop a "classId") (prop r1 "classId") = false)
    (valuesE Attendance st) →
  strictEq (prop r1 "studentId") (prop r2 "studentId") = true →
  strictEq (prop r1 "classId") (prop r2 "classId") = true →
  instanceofDate (prop r1 "date") = false →
  bulkUpdateAttendance clock Date_parse (r1 :: r2 :: rest) st
  = ((createAttendance clock r1 st).2, inl TypeError).
Proof.
  intros st Hnone Hs Hc Hdate.
  unfold bulkUpdateAttendance. cbn [bulkLoop].
  rewrite bulkStep_creates_unseen by done.
  rewrite bulkStep_on_created; try done.
  apply keysBelow_run.
Qed.

End BulkMore.

Section ReadBack.

Variable clock : nat → Z.
Variable Date_parse : string → option Z.

Lemma bulkStep_covers record results st :
  AttWf Date_parse st → attInputOk record →
  let st' := (bulkStep clock Date_parse record results st).1 in
  AttWf Date_parse st'
  ∧ (∀ tr, tr ∈ tripleOf Date_parse <$> valuesE Attendance st →
           tr ∈ tripleOf Date_parse <$> valuesE Attendance st')
  ∧ tripleOf Date_parse record ∈ tripleOf Date_parse <$> valuesE Attendance st'.
Proof.
  intros Hwf Hin.
  pose proof (bulkStep_spec clock Date_parse record results st Hwf Hin) as Hspec.
  destruct (lookupTriple _ _ _) as [[k a]|] eqn:Hfind.
  - destruct Hspec as (Hget & Hid & Heq & ->). cbn [fst].
    assert (Hsame : tripleOf Date_parse <$> valuesE Attendance
                      (withMap Attendance
                         (JSMap.set (mapOf st Attendance) k (record ∪ a)) st)
                    = tripleOf Date_parse <$> valuesE Attendance st).
    { unfold valuesE. simpl. rewrite setAt_eq.
      apply (fmap_values_set _ _ _ a); [done|].
      destruct (merge_ok Date_parse record a k Hin Hid) as (_ & _ & ->). done. }
    split_and!.
    + by apply AttWf_update.
    + intros tr. by rewrite Hsame.
    + rewrite Hsame. by eapply lookupTriple_triples.
  - destruct Hspec as (Hnew & ->). cbn [fst].
    destruct (AttWf_create clock Date_parse st record Hwf Hin Hnew) as [Hwf' Hmap].
    destruct Hin as [_ Hfields].
    destruct (created_ok clock Date_parse record st Hfields) as (_ & _ & Htr).
    assert (Hv : valuesE Attendance (createAttendance clock record st).2
                 = valuesE Attendance st ++ [(createAttendance clock record st).1]).
    { unfold valuesE, JSMap.values. rewrite Hmap. by rewrite fmap_app. }
    split_and!; [done| |]; rewrite Hv, fmap_app.
    + intros tr Htr'. apply elem_of_app. by left.
    + apply elem_of_app. right. apply list_elem_of_fmap.
      exists (createAttendance clock record st).1. split; [done|].
      apply list_elem_of_here.
Qed.

Lemma bulkLoop_covers records results st :
  AttWf Date_parse st → Forall attInputOk records →
  let st' := (bulkLoop clock Date_parse records results st).1 in
  AttWf Date_parse st'
  ∧ (∀ tr, tr ∈ tripleOf Date_parse <$> valuesE Attendance st →
           tr ∈ tripleOf Date_parse <$> valuesE Attendance st')
  ∧ (∀ record, record ∈ records →
               tripleOf Date_parse record
               ∈ tripleOf Date_parse <$> valuesE Attendance st').
Proof.
  revert results st. induction records as [|r records IH]; intros results st Hwf Hall.
  - simpl. split_and!; [done | done |]. intros record Hr. inversion Hr.
  - apply Forall_cons in Hall as [Hr Hall].
    destruct (bulkStep_covers r results st Hwf Hr) as (Hwf1 & Hmono1 & Hin1).
    destruct (bulkStep_ok clock Date_parse r st Hwf Hr) as (st1 & out & Hstep & _).
    cbn [bulkLoop]. rewrite Hstep in *. cbn [fst] in *.
    destruct (IH (results ++ [out]) st1 Hwf1 Hall) as (Hwf' & Hmono & Hin).
    split_and!; [done | by auto |].
    intros record [->|Hrec]%elem_of_cons; [by apply Hmono | by apply Hin].
Qed.

Lemma getAttendance_valid classId t st :
  Z.abs t <= maxTime →
  (∀ a, a ∈ valuesE Attendance st →
        strictEq (prop a "classId") (VNum classId) = true →
        ∃ ta, calendarDay Date_parse (prop a "date") = Some (utcDay ta)) →
  getAttendance Date_parse classId (Some (Some t)) st
  = inr (List.filter
           (λ a, bool_decide (calendarDay Date_parse (prop a "date") = Some (utcDay t)))
           (List.filter (λ a, strictEq (prop a "classId") (VNum classId))
              (valuesE Attendance st))).
Proof.
  intros Ht Hall. unfold getAttendance.
  rewrite Date_toISOString_day. simpl. unfold TimeClip.
  apply Z.leb_le in Ht as Ht1. rewrite Ht1. simpl.
  apply filterM_ok. intros a Ha.
  apply list_elem_of_In, filter_In in Ha as [Ha Hcls]. apply list_elem_of_In in Ha.
  destruct (Hall a Ha Hcls) as [ta Hta]. rewrite onDay_spec.
  unfold calendarDay in *.
  destruct (newDate Date_parse (prop a "date") ≫= TimeClip) as [ta'|] eqn:E;
    [|done].
  rewrite isoDate_eqb; [|by eapply bind_TimeClip_Some|done].
  simpl. f_equal. apply bool_decide_ext. split; congruence.
Qed.

(** X10.  What the bulk upsert writes, the day query reads back.  On an
    attendance map that is well formed (distinct keys below the counter,
    every record carrying the key it is stored under as [id], numbers as
    student and class, valid Date objects as dates, at most one record per
    student, class and calendar day), after a call with inputs of type
    [InsertAttendance] with valid Date dates, [getAttendance] for the class
    and the date of any of the inputs completes and returns exactly one
    record of that input's student. *)
Theorem upsert_then_query (records : list obj) (st : MemStorage)
    (record : obj) (s c t : Z) :
  AttWf Date_parse st → Forall attInputOk records →
  record ∈ records →
  prop record "studentId" = VNum s → prop record "classId" = VNum c →
  prop record "date" = VDate (Some t) →
  let st' := (bulkUpdateAttendance clock Date_parse records st).1 in
  ∃ found,
    getAttendance Date_parse c (Some (Some t)) st' = inr found
    ∧ length (List.filter (λ a, strictEq (prop a "studentId") (VNum s)) found)
      = 1%nat.
Proof.
  intros Hwf Hall Hrec Hs Hc Hd st'.
  destruct (bulkLoop_covers records [] st Hwf Hall) as (Hwf' & _ & Hin).
  fold (bulkUpdateAttendance clock Date_parse records st) in Hwf', Hin. fold st' in Hwf', Hin.
  assert (Ht : Z.abs t <= maxTime).
  { pose proof (proj1 (Forall_forall _ _) Hall _ Hrec) as (_ & _ & _ & (t' & Ht' & Hv)).
    congruence. }
  assert (Htr : tripleOf Date_parse record = (VNum s, VNum c, Some (utcDay t))).
  { unfold tripleOf. by rewrite Hs, Hc, Hd, calendarDay_valid. }
  eexists. split.
  - apply getAttendance_valid; [done|]. intros a Ha _.
    destruct (AttWf_fields Date_parse st' a Hwf' Ha) as (_ & _ & (ta & Hta & Hva)).
    exists ta. by rewrite Hta, calendarDay_valid.
  - rewrite !filter_filter_andb.
    pose proof (countTriple_present Date_parse st' _ Hwf' (Hin record Hrec)) as Hcount.
    rewrite Htr in Hcount. unfold countTriple in Hcount. rewrite <- Hcount.
    f_equal. apply List.filter_ext_in. intros a Ha. apply list_elem_of_In in Ha.
    destruct (AttWf_fields Date_parse st' a Hwf' Ha)
      as ([sa Hsa] & [ca Hca] & (ta & Hta & Hva)).
    unfold tripleOf. rewrite Hsa, Hca, Hta, calendarDay_valid by done. simpl.
    destruct (Z.eqb_spec ca c) as [->|Hnc]; simpl.
    2: { symmetry. apply bool_decide_eq_false. congruence. }
    destruct (decide (utcDay ta = utcDay t)) as [Hday|Hday].
    2: { rewrite (bool_decide_eq_false_2 (Some _ = Some _)) by congruence. simpl.
         symmetry. apply bool_decide_eq_false. congruence. }
    rewrite (bool_decide_eq_true_2 (Some _ = Some _)) by congruence. simpl.
    destruct (Z.eqb_spec sa s) as [->|Hns].
    + symmetry. apply bool_decide_eq_true. congruence.
    + symmetry. apply bool_decide_eq_false. congruence.
Qed.

End ReadBack.

(** * The request layer *)

(** ** Logging in *)

Lemma userNamed_string username st :
  userNamed (VStr username) st = getUserByUsername username st.
Proof. reflexivity. Qed.

Lemma login_unfold body st sess :
  login (Some body) st sess
  = if negb (truthyVal (prop body "username")) || negb (truthyVal (prop body "password"))
    then (UserMessage 400 "Username and password are required", sess)
    else match userNamed (prop body "username") st with
         | None => (UserMessage 401 "Invalid credentials", sess)
         | Some user =>
             if negb (strictEq (prop user "password") (prop body "password"))
             then (UserMessage 401 "Invalid credentials", sess)
             else (UserInfo 200 (delete "password" user),
                   {| userId := prop user "id"; isAdmin := prop user "isAdmin" |})
         end.
Proof. reflexivity. Qed.

Lemma login_found body st sess status info sess' :
  login (Some body) st sess = (UserInfo status info, sess') →
  ∃ user, userNamed (prop body "username") st = Some user
          ∧ info = delete "password" user
          ∧ sess' = {| userId := prop user "id"; isAdmin := prop user "isAdmin" |}.
Proof.
  rewrite login_unfold.
  destruct (negb _ || negb _); [discriminate|].
  destruct (userNamed (prop body "username") st) as [user|]; [|discriminate].
  destruct (negb _); [discriminate|]. intros [= <- <- <-]. by exists user.
Qed.

(** X11.  A login answers 200 exactly when the body carries a truthy user
    name and password and the earliest user of that name has exactly that
    password.  The reply is then that user without the [password] property,
    and the session takes the [id] and the admin flag of that user.  Every
    other reply on a body leaves the session as it was: it is a 400 exactly
    when the user name or the password is falsy, and otherwise a 401, when
    no user has the name or the earliest one has another password. *)
Theorem login_replies (body : obj) (st : MemStorage) (sess : session) :
  let res := login (Some body) st sess in
  (∀ user,
     truthyVal (prop body "username") = true →
     truthyVal (prop body "password") = true →
     userNamed (prop body "username") st = Some user →
     strictEq (prop user "password") (prop body "password") = true →
     res = (UserInfo 200 (delete "password" user),
            {| userId := prop user "id"; isAdmin := prop user "isAdmin" |}))
  ∧ (∀ status info,
       res.1 = UserInfo status info →
       status = 200 ∧ info !! "password" = None
       ∧ truthyVal (prop body "username") = true
       ∧ truthyVal (prop body "password") = true
       ∧ ∃ user, userNamed (prop body "username") st = Some user
                 ∧ strictEq (prop user "password") (prop body "password") = true
                 ∧ prop user "password" = prop body "password"
                 ∧ info = delete "password" user
                 ∧ userId res.2 = prop user "id"
                 ∧ isAdmin res.2 = prop user "isAdmin")
  ∧ (∀ status message,
       res.1 = UserMessage status message →
       res.2 = sess
       ∧ ((status = 400
           ∧ (truthyVal (prop body "username") = false
              ∨ truthyVal (prop body "password") = false))
          ∨ (status = 401
             ∧ truthyVal (prop body "username") = true
             ∧ truthyVal (prop body "password") = true
             ∧ ∀ user, userNamed (prop body "username") st = Some user →
                       strictEq (prop user "password") (prop body "password")
                       = false))).
Proof.
  intros res. subst res. rewrite login_unfold.
  destruct (truthyVal (prop body "username")) eqn:Hu;
    destruct (truthyVal (prop body "password")) eqn:Hp; cbn [negb orb];
    try (split_and!; [by intros | by intros | intros ?? [= <- <-]; auto]).
  destruct (userNamed (prop body "username") st) as [user|] eqn:Hfind.
  2: { split_and!; [by intros | by intros |].
       intros ?? [= <- <-]. split; [done|]. right. by split_and!. }
  destruct (strictEq (prop user "password") (prop body "password")) eqn:Hpw;
    cbn [negb].
  - split_and!.
    + by intros ? _ _ [= <-] _.
    + intros ?? [= <- <-]. split_and!; [done | apply lookup_delete_eq | done | done |].
      exists user. split_and!; try done. by apply strictEq_true_eq.
    + by intros.
  - split_and!.
    + intros ? _ _ [= <-]. congruence.
    + by intros.
    + intros ?? [= <- <-]. split; [done|]. right. split_and!; try done.
      by intros ? [= <-].
Qed.

Section Users.

Variable clock : nat → Z.
Variable Date_parse : string → option Z.

Lemma userNamed_after_create username input st :
  keysBelow st →
  userNamed username (createUser clock input st).2
  = match userNamed username st with
    | Some user => Some user
    | None =>
        if strictEq (prop input "username") username
        then Some (createUser clock input st).1 else None
    end.
Proof.
  intros Hkb. unfold userNamed.
  pose proof (createE_appends clock User input st Hkb) as Hv.
  fold (createUser clock input st) in Hv. rewrite Hv, find_app_bool.
  destruct (List.find _ (valuesE User st)); [done|]. cbn [List.find].
  assert (Hu : prop (createUser clock input st).1 "username" = prop input "username").
  { unfold prop. simpl. by rewrite lookup_insert_ne, lookup_insert_ne. }
  by rewrite Hu.
Qed.

(** X12.  User names are not kept unique, and the login only ever sees the
    earliest user of a name.  In a storage reached from a fresh one, a user
    created with a name that is already taken cannot log in with the
    password it was created with, unless that is the password of the
    earlier user: the login sets no session and answers 401, or 400 when the
    name or the password is falsy. *)
Theorem duplicate_name_cannot_log_in (calls : list call) (input body : obj)
    (first : obj) (sess : session) :
  let st := run clock Date_parse calls (newMemStorage clock Date_parse) in
  userNamed (prop input "username") st = Some first →
  prop first "password" ≠ prop input "password" →
  prop body "username" = prop input "username" →
  prop body "password" = prop input "password" →
  login (Some body) (createUser clock input st).2 sess
  = (if truthyVal (prop input "username") && truthyVal (prop input "password")
     then UserMessage 401 "Invalid credentials"
     else UserMessage 400 "Username and password are required",
     sess).
Proof.
  intros st Hfirst Hpw Hbu Hbp. rewrite login_unfold, Hbu, Hbp.
  destruct (truthyVal (prop input "username"));
    destruct (truthyVal (prop input "password")); cbn [negb orb andb]; try done.
  rewrite userNamed_after_create by apply keysBelow_run. fold st. rewrite Hfirst.
  destruct (strictEq (prop first "password") (prop input "password")) eqn:E; [|done].
  by apply strictEq_true_eq in E.
Qed.

End Users.

(** X13.  When every stored user carries its key as [id], after a login
    that answers 200 the route [/api/auth/me] answers 200 with the same user
    information for the session that the login set. *)
Theorem login_then_me (body : obj) (st : MemStorage) (sess sess' : session)
    (status : Z) (info : obj) :
  NoDup (JSMap.keys (mapOf st User)) →
  Forall (λ kv : Z * obj, prop kv.2 "id" = VNum kv.1 ∧ kv.1 ≠ 0) (mapOf st User) →
  login (Some body) st sess = (UserInfo status info, sess') →
  me st sess' = UserInfo 200 info.
Proof.
  intros Hnd Hids Hlogin.
  destruct (login_found body st sess status info sess' Hlogin)
    as (user & Hfind & -> & ->).
  apply find_Some_elem in Hfind as [Hin _].
  unfold valuesE, JSMap.values in Hin.
  apply list_elem_of_fmap in Hin as ([k u] & -> & Hin).
  destruct (proj1 (Forall_forall _ _) Hids _ Hin) as [Hid Hk]. simpl in *.
  unfold me. simpl. rewrite Hid. simpl.
  destruct (Z.eqb_spec k 0) as [?|_]; [done|]. simpl.
  unfold getUser, getE. by rewrite (get_of_elem _ _ _ Hnd Hin).
Qed.

(** ** The bulk attendance route *)

Section BulkRoute.

Variable clock : nat → Z.
Variable Date_parse : string → option Z.
Variable json : Type.
Variable parseAttendance : json → option obj.

Lemma validateRecords_ok records validated vs :
  Forall2 (λ r v, parseAttendance r = Some v) records vs →
  validateRecords json parseAttendance records validated = inr (validated ++ vs).
Proof.
  intros H. revert validated. induction H as [|r v records vs Hr _ IH]; intros validated.
  - simpl. by rewrite app_nil_r.
  - simpl. rewrite Hr, IH. by rewrite <- app_assoc.
Qed.

Lemma validateRecords_first before r after validated :
  Forall (λ x, is_Some (parseAttendance x)) before →
  parseAttendance r = None →
  validateRecords json parseAttendance (before ++ r :: after) validated = inl r.
Proof.
  intros H Hr. revert validated.
  induction H as [|x before [v Hv] _ IH]; intros validated; simpl.
  - by rewrite Hr.
  - rewrite Hv. apply IH.
Qed.

(** X14.  The bulk attendance route validates every record before it writes
    any.  Without a session it answers 401; with a session and no body, 500;
    without a non-empty array of records, 400; when a record of the array
    fails validation, 400 with the first such record, whatever comes after
    it; in all these cases the storage is untouched.  Otherwise it hands the
    validated records, in order, to [bulkUpdateAttendance] and answers 201
    with as many records as the call returns, or 500 when the call throws,
    and the storage is the one that the call leaves. *)
Theorem bulkAttendanceRoute_replies (sess : session)
    (body : option (option (list json))) (st : MemStorage) :
  let res := bulkAttendanceRoute clock Date_parse json parseAttendance sess body st in
  (authenticate sess = false →
   res = (BulkMessage json 401 "Unauthorized - Please log in", st))
  ∧ (authenticate sess = true → body = None →
     res = (BulkMessage json 500 "Failed to update attendance records", st))
  ∧ (authenticate sess = true → body = Some None ∨ body = Some (Some []) →
     res = (BulkMessage json 400 "Records array is required", st))
  ∧ (authenticate sess = true →
     ∀ before r after,
       body = Some (Some (before ++ r :: after)) →
       Forall (λ x, is_Some (parseAttendance x)) before →
       parseAttendance r = None →
       res = (BulkInvalid json 400 r, st))
  ∧ (authenticate sess = true →
     ∀ rs vs, body = Some (Some rs) → rs ≠ [] →
              Forall2 (λ r v, parseAttendance r = Some v) rs vs →
              res = match bulkUpdateAttendance clock Date_parse vs st with
                    | (st', inr results) =>
                        (BulkUpdated json 201 (length results) results, st')
                    | (st', inl _) =>
                        (BulkMessage json 500 "Failed to update attendance records", st')
                    end).
Proof.
  unfold bulkAttendanceRoute. split_and!.
  - by intros ->.
  - by intros -> ->.
  - intros -> [->| ->]; done.
  - intros -> before r after -> Hbefore Hr. cbn [negb].
    rewrite (validateRecords_first before r after [] Hbefore Hr).
    by destruct before.
  - intros -> rs vs -> Hne Hall. simpl.
    destruct rs as [|r0 rs]; [done|].
    by rewrite (validateRecords_ok _ [] vs Hall).
Qed.

(** X15.  Saving the same attendance twice.  Let the schema turn a body
    record into attendance data with numbers for student and class and a date
    that is not a Date object (the schema of the date column yields a
    string).  In a storage reached from a fresh one without a record of that
    student and class, the route answers 201 to the record and, to the same
    record again, 500, leaving the storage as the first request left it. *)
Theorem save_twice_answers_500 (calls : list call) (sess : session)
    (j : json) (record : obj) (s c : Z) :
  let st := run clock Date_parse calls (newMemStorage clock Date_parse) in
  authenticate sess = true →
  parseAttendance j = Some record →
  prop record "studentId" = VNum s → prop record "classId" = VNum c →
  instanceofDate (prop record "date") = false →
  Forall (λ a, strictEq (prop a "studentId") (VNum s)
               && strictEq (prop a "classId") (VNum c) = false)
    (valuesE Attendance st) →
  let first :=
    bulkAttendanceRoute clock Date_parse json parseAttendance sess (Some (Some [j])) st in
  let second :=
    bulkAttendanceRoute clock Date_parse json parseAttendance sess (Some (Some [j]))
      first.2 in
  first = (BulkUpdated json 201 1 [(createAttendance clock record st).1],
           (createAttendance clock record st).2)
  ∧ second = (BulkMessage json 500 "Failed to update attendance records", first.2).
Proof.
  intros st Hauth Hj Hs Hc Hdate Hnone first second.
  assert (Hnone' : Forall (λ a, strictEq (prop a "studentId") (prop record "studentId")
                               && strictEq (prop a "classId") (prop record "classId")
                               = false) (valuesE Attendance st)).
  { by rewrite Hs, Hc. }
  assert (Hfirst : first = (BulkUpdated json 201 1 [(createAttendance clock record st).1],
                            (createAttendance clock record st).2)).
  { subst first. unfold bulkAttendanceRoute. rewrite Hauth. cbn [negb validateRecords].
    rewrite Hj. cbn [validateRecords app].
    unfold bulkUpdateAttendance. cbn [bulkLoop].
    by rewrite bulkStep_creates_unseen. }
  split; [done|]. subst second. rewrite Hfirst. cbn [snd].
  unfold bulkAttendanceRoute. rewrite Hauth. cbn [negb validateRecords].
  rewrite Hj. cbn [validateRecords app].
  unfold bulkUpdateAttendance. cbn [bulkLoop].
  rewrite bulkStep_on_created; try done.
  - apply keysBelow_run.
  - rewrite Hs. simpl. by rewrite Z.eqb_refl.
  - rewrite Hc. simpl. by rewrite Z.eqb_refl.
Qed.

End BulkRoute.

(** ** The import of students *)

Section ImportRoute.

Variable clock : nat → Z.
Variable Date_parse : string → option Z.
Variable parseStudent : obj → option obj.

Lemma importRows_spec records index students errors :
  importRows parseStudent records index students errors
  = (students ++ omap (λ r, parseStudent (studentData r)) records,
     errors ++ failingRows parseStudent records index).
Proof.
  revert index students errors.
  induction records as [|r records IH]; intros index students errors.
  - simpl. by rewrite !app_nil_r.
  - simpl. destruct (parseStudent (studentData r)) as [v|].
    + rewrite IH. by rewrite <- app_assoc.
    + rewrite IH. by rewrite <- app_assoc.
Qed.

Lemma failingRows_elem records index n :
  n ∈ failingRows parseStudent records index
  ↔ ∃ i r, n = S (index + i) ∧ records !! i = Some r
           ∧ parseStudent (studentData r) = None.
Proof.
  revert index. induction records as [|r records IH]; intros index.
  - simpl. split; [by intros ?%elem_of_nil | by intros (i & r & _ & ? & _)].
  - simpl. split.
    + intros H.
      assert (Hrest : n ∈ failingRows parseStudent records (S index) →
                      ∃ i r0, n = S (index + i) ∧ (r :: records) !! i = Some r0
                              ∧ parseStudent (studentData r0) = None).
      { intros (i & r0 & -> & Hi & Hr0)%IH. exists (S i), r0.
        split_and!; [f_equal; lia | done | done]. }
      destruct (parseStudent (studentData r)) as [v|] eqn:Hr; [by apply Hrest|].
      apply elem_of_cons in H as [->|H]; [|by apply Hrest].
      exists 0%nat, r. split_and!; [f_equal; lia | done | done].
    + intros (i & r0 & -> & Hi & Hr0). destruct i as [|i].
      * simpl in Hi. injection Hi as ->. rewrite Hr0.
        replace (index + 0)%nat with index by lia. apply list_elem_of_here.
      * simpl in Hi.
        assert (Hin : S (index + S i) ∈ failingRows parseStudent records (S index)).
        { apply IH. exists i, r0. split_and!; [f_equal; lia | done | done]. }
        destruct (parseStudent (studentData r)); [done|by apply list_elem_of_further].
Qed.

Lemma failingRows_nil records index :
  failingRows parseStudent records index = []
  ↔ Forall (λ r, is_Some (parseStudent (studentData r))) records.
Proof.
  revert index. induction records as [|r records IH]; intros index; simpl.
  - split; [by constructor | done].
  - destruct (parseStudent (studentData r)) as [v|] eqn:Hr.
    + rewrite IH. split; [intros H; constructor; [by rewrite Hr|done]
                         | by intros H; inversion H].
    + split; [done|]. intros H. inversion H as [|?? [v Hv]]. congruence.
Qed.

Lemma omap_all_valid records :
  Forall (λ r, is_Some (parseStudent (studentData r))) records →
  length (omap (λ r, parseStudent (studentData r)) records) = length records.
Proof.
  induction 1 as [|r records [v Hv] _ IH]; [done|]. simpl. rewrite Hv. simpl. f_equal. exact IH.
Qed.

Lemma createManyStudents_appends students st :
  keysBelow st →
  length (createManyStudents clock students st).1 = length students
  ∧ getStudents (createManyStudents clock students st).2
    = getStudents st ++ (createManyStudents clock students st).1.
Proof.
  revert st. induction students as [|s rest IH]; intros st Hkb.
  - split; [done|]. simpl. by rewrite app_nil_r.
  - rewrite createManyStudents_cons. cbn [fst snd].
    destruct (IH (createStudent clock s st).2) as [Hlen Hvals].
    { by apply keysBelow_create. }
    split; [cbn [length]; by f_equal|].
    rewrite Hvals. unfold getStudents, createStudent.
    rewrite createE_appends by done. by rewrite <- app_assoc.
Qed.

Lemma failingRows_above records index :
  Forall (λ n, (index < n)%nat) (failingRows parseStudent records index).
Proof.
  revert index. induction records as [|r records IH]; intros index; simpl.
  - constructor.
  - assert (H : Forall (λ n, (index < n)%nat)
                  (failingRows parseStudent records (S index))).
    { eapply Forall_impl; [apply IH|]. simpl. lia. }
    destruct (parseStudent (studentData r)); [done|].
    constructor; [lia | done].
Qed.

Lemma failingRows_sorted records index :
  StronglySorted lt (failingRows parseStudent records index).
Proof.
  revert index. induction records as [|r records IH]; intros index; simpl.
  - constructor.
  - destruct (parseStudent (studentData r)); [apply IH|].
    constructor; [apply IH | apply failingRows_above].
Qed.

Lemma failingRows_length records index :
  length (failingRows parseStudent records index)
  = length (List.filter (λ r, bool_decide (parseStudent (studentData r) = None)) records).
Proof.
  revert index. induction records as [|r records IH]; intros index; simpl; [done|].
  destruct (parseStudent (studentData r)) as [v|]; simpl; by rewrite IH.
Qed.

Lemma omap_Forall2 records vs :
  Forall2 (λ r v, parseStudent (studentData r) = Some v) records vs →
  omap (λ r, parseStudent (studentData r)) records = vs.
Proof.
  induction 1 as [|r v records vs Hr _ IH]; [done|]. simpl. rewrite Hr. simpl.
  f_equal. exact IH.
Qed.

(** X16.  The import of students is all or nothing.  When the schema rejects
    some row of the CSV file, the route answers 400, stores nothing and
    reports the rejected rows, each once and in the order of the file, by
    their numbers counted from 1, with [totalErrors] the number of rejected
    rows and [totalRecords] the number of rows.  When the schema accepts
    every row, in a storage reached from a fresh one, the route answers 201
    with what [createManyStudents] returns for the validated rows in the
    order of the file, one created student for each row, and the students
    listed afterwards are those listed before followed by the created
    ones. *)
Theorem import_all_or_nothing (calls : list call) (sess : session)
    (records : list obj) :
  let st := run clock Date_parse calls (newMemStorage clock Date_parse) in
  let res := importStudentsRoute clock parseStudent sess (Some (Some records)) st in
  authenticate sess = true →
  (Exists (λ r, parseStudent (studentData r) = None) records →
   res.2 = st
   ∧ ∃ errors, res.1 = ImportInvalid 400 errors (length errors) (length records)
               ∧ StronglySorted lt errors
               ∧ (∀ n, n ∈ errors ↔ ∃ i r, n = S i ∧ records !! i = Some r
                                           ∧ parseStudent (studentData r) = None)
               ∧ length errors
                 = length (List.filter
                             (λ r, bool_decide (parseStudent (studentData r) = None))
                             records)
               ∧ (0 < length errors)%nat)
  ∧ (∀ students,
       Forall2 (λ r v, parseStudent (studentData r) = Some v) records students →
       res = (ImportDone 201 (length records)
                (createManyStudents clock students st).1,
              (createManyStudents clock students st).2)
       ∧ length (createManyStudents clock students st).1 = length records
       ∧ getStudents res.2
         = getStudents st ++ (createManyStudents clock students st).1).
Proof.
  intros st res Hauth. subst res. unfold importStudentsRoute.
  rewrite Hauth. cbn [negb]. rewrite importRows_spec. cbn [app].
  split.
  - intros Hbad.
    destruct (failingRows parseStudent records 0) as [|n errors] eqn:Herr.
    { apply failingRows_nil in Herr. apply Exists_exists in Hbad as (r & Hin & Hr).
      rewrite Forall_forall in Herr. destruct (Herr r Hin) as [v Hv]. congruence. }
    cbn [length Nat.ltb Nat.leb]. split; [done|].
    exists (n :: errors). rewrite <- Herr. split_and!.
    + by rewrite Herr.
    + apply failingRows_sorted.
    + intros m. rewrite failingRows_elem. done.
    + apply failingRows_length.
    + rewrite Herr. simpl. lia.
  - intros students Hall.
    assert (Hsome : Forall (λ r, is_Some (parseStudent (studentData r))) records).
    { clear -Hall. induction Hall as [|r v ? ? Hr _ IH]; constructor; [by rewrite Hr|done]. }
    pose proof Hsome as Hnil. apply (failingRows_nil _ 0%nat) in Hnil.
    rewrite Hnil, (omap_Forall2 _ _ Hall). cbn [length Nat.ltb Nat.leb].
    destruct (createManyStudents_appends students st) as [Hlen Hvals].
    { apply keysBelow_run. }
    assert (Hl : length (createManyStudents clock students st).1 = length records).
    { rewrite Hlen. symmetry. by eapply Forall2_length. }
    destruct (createManyStudents clock students st) as [created st'] eqn:Hcms.
    cbn [fst snd] in *. split_and!; [by rewrite Hl | done | done].
Qed.

End ImportRoute.

(** ** The attendance page and table *)

Lemma findIndex_Some {A : Type} (f : A → bool) (l : list A) i :
  findIndex f l = Some i → ∃ x, l !! i = Some x ∧ f x = true.
Proof.
  revert i. induction l as [|y l IH]; intros i; simpl; [done|].
  destruct (f y) eqn:Hy.
  - intros [= <-]. by exists y.
  - destruct (findIndex f l) as [j|]; simpl; [|done].
    intros [= <-]. by apply IH.
Qed.

Lemma findIndex_None {A : Type} (f : A → bool) (l : list A) :
  findIndex f l = None → Forall (λ x, f x = false) l.
Proof.
  induction l as [|y l IH]; simpl; [by constructor|].
  destruct (f y) eqn:Hy; [done|].
  destruct (findIndex f l); simpl; [done|]. intros _. by constructor; [|apply IH].
Qed.

Lemma fmap_alter_same {A B : Type} (key : A → B) (g : A → A) i (l : list A) :
  (∀ x, key (g x) = key x) → key <$> alter g i l = key <$> l.
Proof.
  intros Hg. revert i. induction l as [|y l IH]; intros [|i]; simpl; try done.
  - by rewrite Hg.
  - f_equal. apply IH.
Qed.

Lemma strictEq_refl_num n : strictEq (VNum n) (VNum n) = true.
Proof. simpl. apply Z.eqb_refl. Qed.

Lemma strictEq_refl_str s : strictEq (VStr s) (VStr s) = true.
Proof. simpl. apply String.eqb_refl. Qed.

Lemma changeKey_present (r : obj) v : changeKey (<["present" := v]> r) = changeKey r.
Proof. unfold changeKey, prop. by rewrite !lookup_insert_ne. Qed.

Lemma changeKey_match (r : obj) s day :
  strictEq (prop r "studentId") (VNum s) && strictEq (prop r "date") (VStr day) = true
  ↔ changeKey r = (VNum s, VStr day).
Proof.
  unfold changeKey. split.
  - intros [H1%strictEq_true_eq H2%strictEq_true_eq]%andb_true_iff. by rewrite H1, H2.
  - intros [= -> ->]. by rewrite strictEq_refl_num, strictEq_refl_str.
Qed.

(** X17.  Ticking a cell of the attendance page keeps one pending record for
    each student and day string.  For a valid date of the column, the next
    list of pending records again has no two records of one student and day
    string; it holds a record of the ticked student and the day of the date
    with the ticked value; every record of another student or day is still
    in it; and it is longer by at most one record. *)
Theorem attendance_change_one_per_day (attendanceData : list obj) (selectedClass : val)
    (studentId : Z) (date : option Z) (present : bool) (t : Z) :
  date ≫= TimeClip = Some t →
  NoDup (changeKey <$> attendanceData) →
  ∃ next,
    handleAttendanceChange attendanceData selectedClass studentId date present = inr next
    ∧ NoDup (changeKey <$> next)
    ∧ (∃ r, r ∈ next ∧ changeKey r = (VNum studentId, VStr (isoDate t))
            ∧ prop r "present" = VBool present)
    ∧ (∀ r, r ∈ attendanceData → changeKey r ≠ (VNum studentId, VStr (isoDate t)) →
            r ∈ next)
    ∧ (length attendanceData ≤ length next ≤ S (length attendanceData))%nat.
Proof.
  intros Ht Hnd. unfold handleAttendanceChange.
  rewrite Date_toISOString_day, Ht. cbn [mbind throws_bind].
  set (f := λ record : obj, strictEq (prop record "studentId") (VNum studentId)
                            && strictEq (prop record "date") (VStr (isoDate t))).
  destruct (findIndex f attendanceData) as [i|] eqn:Hfind.
  - apply findIndex_Some in Hfind as (x & Hi & Hx). apply changeKey_match in Hx.
    eexists. split; [reflexivity|]. split; [|split; [|split]].
    + rewrite fmap_alter_same; [done|]. intros r. apply changeKey_present.
    + exists (<["present" := VBool present]> x). split_and!.
      * apply list_elem_of_lookup. exists i. by rewrite list_lookup_alter_eq, Hi.
      * by rewrite changeKey_present.
      * unfold prop. by rewrite lookup_insert_eq.
    + intros r [j Hj]%list_elem_of_lookup Hr.
      apply list_elem_of_lookup. exists j.
      rewrite list_lookup_alter_ne; [done|]. intros <-. congruence.
    + rewrite length_alter. lia.
  - apply findIndex_None in Hfind.
    eexists. split; [reflexivity|]. split; [|split; [|split]].
    + rewrite fmap_app. apply NoDup_app. split_and!; [done| |apply NoDup_singleton].
      intros k [r [-> Hr]]%list_elem_of_fmap [= Hs Hd]%list_elem_of_singleton.
      rewrite Forall_forall in Hfind. specialize (Hfind r Hr). unfold f in Hfind.
      assert (Hk : changeKey r = (VNum studentId, VStr (isoDate t))).
      { unfold changeKey. rewrite Hs, Hd. unfold prop.
        by rewrite lookup_insert_eq, lookup_insert_ne, lookup_insert_ne, lookup_insert_eq. }
      apply changeKey_match in Hk. congruence.
    + eexists. split_and!.
      * apply elem_of_app. right. apply list_elem_of_singleton. reflexivity.
      * unfold changeKey, prop.
        by rewrite lookup_insert_eq, lookup_insert_ne, lookup_insert_ne, lookup_insert_eq.
      * unfold prop.
        by rewrite lookup_insert_ne, lookup_insert_ne, lookup_insert_ne, lookup_singleton_eq.
    + intros r Hr _. apply elem_of_app. by left.
    + rewrite length_app. simpl. lia.
Qed.

Section Table.

Variable Date_parse : string → option Z.

Lemma hasAttendance_unfold records s date t :
  date ≫= TimeClip = Some t →
  hasAttendance Date_parse records s date
  = someM (λ record,
             if strictEq (prop record "studentId") (VNum s) then
               match newDate Date_parse (prop record "date") ≫= TimeClip with
               | Some t' => inr (String.eqb (isoDate t') (isoDate t)
                                 && truthyVal (prop record "present"))
               | None => inl RangeError
               end
             else inr false) records.
Proof.
  intros Ht. unfold hasAttendance. rewrite Date_toISOString_day, Ht.
  cbn [mbind throws_bind].
  induction records as [|r records IH]; [done|].
  cbn [someM]. rewrite IH.
  destruct (strictEq (prop r "studentId") (VNum s)); [|done].
  rewrite Date_toISOString_day.
  by destruct (newDate Date_parse (prop r "date") ≫= TimeClip).
Qed.

(** X18.  A cell of the attendance table is ticked by calendar day.  For a
    valid date of the column and fetched records whose dates are all valid,
    [hasAttendance] answers whether some record of the student falls on the
    same UTC calendar day as the date and has a truthy [present].  When the
    first record of the student has an invalid date, the call throws a
    RangeError instead. *)
Theorem hasAttendance_by_day (records : list obj) (s t : Z) (date : option Z) :
  date ≫= TimeClip = Some t →
  (Forall (λ r, is_Some (calendarDay Date_parse (prop r "date"))) records →
   hasAttendance Date_parse records s date
   = inr (existsb (λ r, strictEq (prop r "studentId") (VNum s)
                        && bool_decide (calendarDay Date_parse (prop r "date")
                                        = Some (utcDay t))
                        && truthyVal (prop r "present")) records))
  ∧ (∀ before r after,
       records = before ++ r :: after →
       Forall (λ b, strictEq (prop b "studentId") (VNum s) = false) before →
       strictEq (prop r "studentId") (VNum s) = true →
       calendarDay Date_parse (prop r "date") = None →
       hasAttendance Date_parse records s date = inl RangeError).
Proof.
  intros Ht. pose proof (bind_TimeClip_Some _ _ Ht) as Hb.
  rewrite (hasAttendance_unfold _ _ _ _ Ht). split.
  - induction 1 as [|r records [day Hday] _ IH]; [done|].
    cbn [someM existsb]. unfold calendarDay in Hday |- *.
    destruct (strictEq (prop r "studentId") (VNum s)); [|exact IH].
    destruct (newDate Date_parse (prop r "date") ≫= TimeClip) as [t'|] eqn:Ht';
      [|done].
    pose proof (bind_TimeClip_Some _ _ Ht') as Hb'.
    cbn [mbind throws_bind fmap option_fmap option_map andb].
    rewrite (isoDate_eqb _ _ Hb' Hb).
    assert (Hd : bool_decide (Some (utcDay t') = Some (utcDay t))
                 = bool_decide (utcDay t' = utcDay t)).
    { apply bool_decide_ext. split; congruence. }
    rewrite Hd.
    destruct (bool_decide (utcDay t' = utcDay t) && truthyVal (prop r "present"));
      [done|exact IH].
  - intros before r after -> Hbefore Hr Hbad.
    induction Hbefore as [|b before Hb0 _ IH]; cbn [app someM].
    + rewrite Hr. unfold calendarDay in Hbad.
      by destruct (newDate Date_parse (prop r "date") ≫= TimeClip).
    + rewrite Hb0. cbn [mbind throws_bind]. exact IH.
Qed.

End Table.

(** ** The properties above on the sample data *)

(** X3 on the sample school year. *)
Lemma update_compose_witness :
  getE SchoolYear 1 sampleStorage = Some storedSampleYear
  ∧ (updateE SchoolYear 1 {[ "name" := VStr "2024-2025" ]}
       (updateE SchoolYear 1 {[ "active" := VBool false ]} sampleStorage).2).1
    = (updateE SchoolYear 1
         ({[ "name" := VStr "2024-2025" ]} ∪ {[ "active" := VBool false ]})
         sampleStorage).1.
Proof.
  assert (H : getE SchoolYear 1 sampleStorage = Some storedSampleYear).
  { vm_compute. reflexivity. }
  split; [exact H|].
  destruct (update_compose SchoolYear 1 {[ "active" := VBool false ]}
              {[ "name" := VStr "2024-2025" ]} sampleStorage storedSampleYear H)
    as (H1 & _).
  exact H1.
Defined.

(** X4 on the sample school year. *)
Lemma delete_removes_one_witness :
  getE SchoolYear 1 (run sampleClock isoParse [] sampleStorage) = Some storedSampleYear
  ∧ length (valuesE SchoolYear sampleStorage)
    = S (length (valuesE SchoolYear (deleteE SchoolYear 1 sampleStorage).2))
  ∧ 1 < idOf (deleteE SchoolYear 1 sampleStorage).2 SchoolYear.
Proof.
  assert (H : getE SchoolYear 1 (run sampleClock isoParse [] sampleStorage)
              = Some storedSampleYear).
  { vm_compute. reflexivity. }
  split; [exact H|].
  destruct (delete_removes_one sampleClock isoParse [] SchoolYear 1 storedSampleYear H)
    as (_ & H2 & _ & _ & H5).
  split; [exact H2 | exact H5].
Defined.

(** X8 on the storage with one record of student 1 and an input for
    student 3 whose date string denotes no date. *)
Lemma bulk_creates_unseen_pair_witness :
  Forall (λ a, strictEq (prop a "studentId")
                 (prop (attendanceInput 3 2 "n/a" true) "studentId")
               && strictEq (prop a "classId")
                    (prop (attendanceInput 3 2 "n/a" true) "classId") = false)
    (valuesE Attendance storageWithAttendance)
  ∧ bulkUpdateAttendance sampleClock isoParse [attendanceInput 3 2 "n/a" true]
      storageWithAttendance
    = ((createAttendance sampleClock (attendanceInput 3 2 "n/a" true)
          storageWithAttendance).2,
       inr [(createAttendance sampleClock (attendanceInput 3 2 "n/a" true)
               storageWithAttendance).1]).
Proof.
  assert (H : Forall (λ a, strictEq (prop a "studentId")
                             (prop (attendanceInput 3 2 "n/a" true) "studentId")
                           && strictEq (prop a "classId")
                                (prop (attendanceInput 3 2 "n/a" true) "classId") = false)
                (valuesE Attendance storageWithAttendance)).
  { apply (bool_decide_unpack _). vm_compute. exact I. }
  split; [exact H|].
  exact (bulk_creates_unseen_pair sampleClock isoParse _ _ H).
Defined.

(** X9 on the fresh storage and two inputs for student 1 in class 2. *)
Lemma bulk_same_student_twice_throws_witness :
  bulkUpdateAttendance sampleClock isoParse
    [attendanceInput 1 2 "2024-03-04" true; attendanceInput 1 2 "2024-03-05" true]
    sampleStorage
  = ((createAttendance sampleClock (attendanceInput 1 2 "2024-03-04" true)
        sampleStorage).2,
     inl TypeError).
Proof.
  apply (bulk_same_student_twice_throws sampleClock isoParse []
           (attendanceInput 1 2 "2024-03-04" true)
           (attendanceInput 1 2 "2024-03-05" true) []).
  - apply (bool_decide_unpack _). vm_compute. exact I.
  - vm_compute. reflexivity.
  - vm_compute. reflexivity.
  - vm_compute. reflexivity.
Defined.

(** X10 on the storage with one Date-valued record and two inputs. *)
Lemma upsert_then_query_witness :
  ∃ found,
    getAttendance isoParse 2 (Some (Some sampleNoon))
      (bulkUpdateAttendance sampleClock isoParse upsertInputs
         storageWithDatedAttendance).1
    = inr found
    ∧ length (List.filter (λ a, strictEq (prop a "studentId") (VNum 3)) found) = 1%nat.
Proof.
  apply (upsert_then_query sampleClock isoParse upsertInputs storageWithDatedAttendance
           (datedAttendance 3 2 sampleNoon true) 3 2 sampleNoon).
  - exact storageWithDatedAttendance_wf.
  - repeat constructor; apply datedAttendance_ok; vm_compute; discriminate.
  - apply list_elem_of_further, list_elem_of_here.
  - vm_compute. reflexivity.
  - vm_compute. reflexivity.
  - vm_compute. reflexivity.
Defined.

(** X12 on a second user named as the administrator. *)
Lemma duplicate_name_cannot_log_in_witness :
  login (Some secondAdminLogin) (createUser sampleClock secondAdmin sampleStorage).2
    noSession
  = (UserMessage 401 "Invalid credentials", noSession).
Proof.
  apply (duplicate_name_cannot_log_in sampleClock isoParse [] secondAdmin
           secondAdminLogin storedAdmin noSession).
  - vm_compute. reflexivity.
  - vm_compute. discriminate.
  - vm_compute. reflexivity.
  - vm_compute. reflexivity.
Defined.

(** X13 on the login of the administrator. *)
Lemma login_then_me_witness :
  login (Some adminLogin) sampleStorage noSession
  = (UserInfo 200 (delete "password" storedAdmin), adminSession)
  ∧ me sampleStorage adminSession = UserInfo 200 (delete "password" storedAdmin).
Proof.
  assert (H : login (Some adminLogin) sampleStorage noSession
              = (UserInfo 200 (delete "password" storedAdmin), adminSession)).
  { vm_compute. reflexivity. }
  split; [exact H|].
  apply (login_then_me adminLogin sampleStorage noSession adminSession 200
           (delete "password" storedAdmin)).
  - apply (bool_decide_unpack _). vm_compute. exact I.
  - apply (bool_decide_unpack _). vm_compute. exact I.
  - exact H.
Defined.

(** X15 on the fresh storage and a record of student 1 in class 2. *)
Lemma save_twice_answers_500_witness :
  bulkStatus obj
    (bulkAttendanceRoute sampleClock isoParse obj sampleParseAttendance adminSession
       (Some (Some [attendanceInput 1 2 "2024-03-04" true])) sampleStorage).1 = 201
  ∧ bulkStatus obj
      (bulkAttendanceRoute sampleClock isoParse obj sampleParseAttendance adminSession
         (Some (Some [attendanceInput 1 2 "2024-03-04" true]))
         (bulkAttendanceRoute sampleClock isoParse obj sampleParseAttendance adminSession
            (Some (Some [attendanceInput 1 2 "2024-03-04" true])) sampleStorage).2).1
    = 500.
Proof.
  assert (H : Forall (λ a, strictEq (prop a "studentId") (VNum 1)
                           && strictEq (prop a "classId") (VNum 2) = false)
                (valuesE Attendance (run sampleClock isoParse [] sampleStorage))).
  { apply (bool_decide_unpack _). vm_compute. exact I. }
  destruct (save_twice_answers_500 sampleClock isoParse obj sampleParseAttendance []
              adminSession (attendanceInput 1 2 "2024-03-04" true)
              (attendanceInput 1 2 "2024-03-04" true) 1 2
              eq_refl eq_refl eq_refl eq_refl eq_refl H) as [H1 H2].
  split.
  - exact (f_equal (λ p, bulkStatus obj p.1) H1).
  - exact (f_equal (λ p, bulkStatus obj p.1) H2).
Defined.

(** X16 on a file whose second and third rows are rejected: nothing is
    stored and rows 2 and 3 are reported. *)
Lemma import_all_or_nothing_witness :
  authenticate adminSession = true
  ∧ Exists (λ r, sampleParseStudent (studentData r) = None) sampleCsv
  ∧ importStudentsRoute sampleClock sampleParseStudent adminSession
      (Some (Some sampleCsv)) sampleStorage
    = (ImportInvalid 400 [2; 3]%nat 2 3, sampleStorage)
  ∧ (importStudentsRoute sampleClock sampleParseStudent adminSession
       (Some (Some sampleCsv)) sampleStorage).2 = sampleStorage.
Proof.
  assert (H : Exists (λ r, sampleParseStudent (studentData r) = None) sampleCsv).
  { apply Exists_cons_tl, Exists_cons_hd. vm_compute. reflexivity. }
  split; [reflexivity|]. split; [exact H|]. split; [vm_compute; reflexivity|].
  destruct (import_all_or_nothing sampleClock isoParse sampleParseStudent []
              adminSession sampleCsv eq_refl) as [Hbad _].
  exact (proj1 (Hbad H)).
Defined.

(** X17 on one pending record, ticked again at noon of its day. *)
Lemma attendance_change_one_per_day_witness :
  ∃ next,
    handleAttendanceChange [attendanceInput 1 2 "2024-03-04" false] (VNum 2) 1
      (Some sampleNoon) true = inr next
    ∧ NoDup (changeKey <$> next).
Proof.
  destruct (attendance_change_one_per_day [attendanceInput 1 2 "2024-03-04" false]
              (VNum 2) 1 (Some sampleNoon) true sampleNoon eq_refl
              (NoDup_singleton _))
    as (next & H1 & H2 & _).
  exists next. split; [exact H1 | exact H2].
Defined.

(** X18 on the stored sample record, asked for noon of its day. *)
Lemma hasAttendance_by_day_witness :
  Forall (λ r, is_Some (calendarDay isoParse (prop r "date"))) [storedAttendance]
  ∧ hasAttendance isoParse [storedAttendance] 1 (Some sampleNoon)
    = inr (existsb (λ r, strictEq (prop r "studentId") (VNum 1)
                         && bool_decide (calendarDay isoParse (prop r "date")
                                         = Some (utcDay sampleNoon))
                         && truthyVal (prop r "present")) [storedAttendance]).
Proof.
  assert (H : Forall (λ r, is_Some (calendarDay isoParse (prop r "date")))
                [storedAttendance]).
  { apply (bool_decide_unpack _). vm_compute. exact I. }
  split; [exact H|].
  destruct (hasAttendance_by_day isoParse [storedAttendance] 1 sampleNoon
              (Some sampleNoon) eq_refl) as [H1 _].
  exact (H1 H).
Defined.
